(** * Help-desk toolkit: diagnose, suggest, confirm, act

    A shallow embedding of [helpdesk.py] (and of the process ranking of
    [helpdesk_logging.py]) together with the properties of the
    diagnose-suggest-confirm-act pipeline.

    Conventions of the embedding.
    - Python values that the code probes dynamically ([dict.get],
      [isinstance], truthiness) are values of [pyval].
    - A Python [float] is represented by the rational it denotes ([Q]);
      binary64 rounding, infinities and NaN are not represented.  The one
      float effect that changes control flow, the [OverflowError] raised when
      an [int] too large for a float meets a float operand, is represented
      ([py_float_of_int]).
    - Text is a [string] of ASCII characters.
    - [print] output is represented by structured values ([finding],
      [message]) in place of formatted text; literal texts are kept where the
      code has them.
    - An exception is the [Raise] result of [res]; the interpreter turns an
      exception that leaves [main] into exit status 1. *)

From Stdlib Require Import ZArith QArith Qround List String Ascii Bool Lia Lqa.
From Stdlib Require Import Permutation Sorted.
Import ListNotations.

Local Open Scope string_scope.
Local Open Scope Z_scope.

(** ** Python strings *)

(** [str.isspace] on an ASCII character: TAB..CR, FS..US and the space. *)
Definition is_space (c : ascii) : bool :=
  let n := nat_of_ascii c in
  ((9 <=? n) && (n <=? 13))%nat || ((28 <=? n) && (n <=? 32))%nat.

Fixpoint lstrip (s : string) : string :=
  match s with
  | EmptyString => EmptyString
  | String c r => if is_space c then lstrip r else s
  end.

Fixpoint rstrip (s : string) : string :=
  match s with
  | EmptyString => EmptyString
  | String c r =>
      match rstrip r with
      | EmptyString => if is_space c then EmptyString else String c EmptyString
      | r' => String c r'
      end
  end.

(** [s.strip()] *)
Definition strip (s : string) : string := rstrip (lstrip s).

Definition lower_char (c : ascii) : ascii :=
  let n := nat_of_ascii c in
  if ((65 <=? n) && (n <=? 90))%nat then ascii_of_nat (n + 32) else c.

(** [s.lower()] *)
Fixpoint lower (s : string) : string :=
  match s with
  | EmptyString => EmptyString
  | String c r => String (lower_char c) (lower r)
  end.

(** [s.startswith(p)] *)
Definition startswith (s p : string) : bool := String.prefix p s.

Definition digit_val (c : ascii) : option Z :=
  let n := nat_of_ascii c in
  if ((48 <=? n) && (n <=? 57))%nat then Some (Z.of_nat n - 48) else None.

(** The digits of an integer literal: decimal digits, with single
    underscores allowed between two digits. *)
Fixpoint parse_digits (acc : Z) (after_digit : bool) (s : string) : option Z :=
  match s with
  | EmptyString => if after_digit then Some acc else None
  | String c r =>
      match digit_val c with
      | Some d => parse_digits (10 * acc + d) true r
      | None =>
          if (Ascii.eqb c "_" && after_digit)%bool
          then parse_digits acc false r
          else None
      end
  end.

(** [int(s)] for a string [s]; [None] stands for [ValueError].  The cap
    that recent interpreters put on the number of digits (4300 by default)
    is not represented. *)
Definition int_of_str (s : string) : option Z :=
  match strip s with
  | String "+" r => parse_digits 0 false r
  | String "-" r => option_map Z.opp (parse_digits 0 false r)
  | t => parse_digits 0 false t
  end.

(** ** Python values, exceptions *)

#[warnings="-register-all"]
Inductive pyval : Type :=
| PNone
| PBool (b : bool)
| PInt (z : Z)
| PFloat (q : Q)
| PStr (s : string)
| PList (l : list pyval)
| PDict (d : list (string * pyval)).

Inductive exn_kind : Type :=
| AttributeError | TypeError | ValueError | EOFError | OverflowError
| IndexError | OSError | NoSuchProcess | AccessDenied | TimeoutExpired.

(** The result of a call: a value, or an exception with its text. *)
Inductive res (A : Type) : Type :=
| Ret (a : A)
| Raise (k : exn_kind) (msg : string).
Arguments Ret {A} a.
Arguments Raise {A} k msg.

Definition rbind {A B} (m : res A) (f : A -> res B) : res B :=
  match m with
  | Ret a => f a
  | Raise k msg => Raise k msg
  end.

Notation "'let?' x ':=' m 'in' k" := (rbind m (fun x => k))
  (at level 10, x pattern, m at level 100, k at level 200).

(** Dictionaries with string keys, in insertion order. *)
Fixpoint assoc_get (d : list (string * pyval)) (k : string) : option pyval :=
  match d with
  | [] => None
  | (k', v) :: r => if String.eqb k k' then Some v else assoc_get r k
  end.

(** [d[k] = v] *)
Fixpoint assoc_set (d : list (string * pyval)) (k : string) (v : pyval)
  : list (string * pyval) :=
  match d with
  | [] => [(k, v)]
  | (k', v') :: r =>
      if String.eqb k k' then (k', v) :: r else (k', v') :: assoc_set r k v
  end.

(** [x.get(k, dflt)]: only a dict has the method. *)
Definition py_get (x : pyval) (k : string) (dflt : pyval) : res pyval :=
  match x with
  | PDict d => Ret (match assoc_get d k with Some v => v | None => dflt end)
  | _ => Raise AttributeError "object has no attribute 'get'"
  end.

Definition Qltb (x y : Q) : bool := negb (Qle_bool y x).

(** [bool(x)] *)
Definition truthy (x : pyval) : bool :=
  match x with
  | PNone => false
  | PBool b => b
  | PInt z => negb (z =? 0)
  | PFloat q => negb (Qeq_bool q 0)
  | PStr s => negb (String.eqb s "")
  | PList l => match l with [] => false | _ => true end
  | PDict d => match d with [] => false | _ => true end
  end.

(** [a or b] *)
Definition py_or (a b : pyval) : pyval := if truthy a then a else b.

(** [isinstance(x, (int, float))]; [bool] is a subclass of [int]. *)
Definition is_number (x : pyval) : bool :=
  match x with
  | PBool _ | PInt _ | PFloat _ => true
  | _ => false
  end.

(** [isinstance(x, dict)] *)
Definition is_dict (x : pyval) : bool :=
  match x with PDict _ => true | _ => false end.

(** [x > n] for an integer literal [n]. *)
Definition py_gt (x : pyval) (n : Z) : res bool :=
  match x with
  | PBool b => Ret ((if b then 1 else 0) >? n)
  | PInt z => Ret (z >? n)
  | PFloat q => Ret (Qltb (inject_Z n) q)
  | _ => Raise TypeError "'>' not supported between these operands"
  end.

(** [x == 0] *)
Definition py_eq_zero (x : pyval) : bool :=
  match x with
  | PBool b => negb b
  | PInt z => z =? 0
  | PFloat q => Qeq_bool q 0
  | _ => false
  end.

Fixpoint chars (s : string) : list pyval :=
  match s with
  | EmptyString => []
  | String c r => PStr (String c EmptyString) :: chars r
  end.

(** The elements a [for] loop sees. *)
Definition py_iter (x : pyval) : res (list pyval) :=
  match x with
  | PList l => Ret l
  | PDict d => Ret (map (fun kv => PStr (fst kv)) d)
  | PStr s => Ret (chars s)
  | _ => Raise TypeError "object is not iterable"
  end.

(** [x[:n]] for a literal [n >= 0]; what cannot be sliced raises (the kind
    of the exception for a dict depends on the interpreter version). *)
Definition py_slice_lit (x : pyval) (n : nat) : res pyval :=
  match x with
  | PList l => Ret (PList (firstn n l))
  | PStr s => Ret (PStr (substring 0 n s))
  | _ => Raise TypeError "object is not subscriptable by a slice"
  end.

(** [l[:n]] on a list, for any integer [n]: a negative [n] counts from the
    end. *)
Definition slice_to {A} (n : Z) (l : list A) : list A :=
  if n <? 0 then firstn (Z.to_nat (Z.of_nat (List.length l) + n)) l
  else firstn (Z.to_nat n) l.

(** Truncation toward zero, as [int(x)] does on a float. *)
Definition Qtrunc (q : Q) : Z :=
  if Qle_bool 0 q then Qfloor q else Qceiling q.

(** [int(x)] *)
Definition py_int (x : pyval) : res Z :=
  match x with
  | PBool b => Ret (if b then 1 else 0)
  | PInt z => Ret z
  | PFloat q => Ret (Qtrunc q)
  | PStr s =>
      match int_of_str s with
      | Some z => Ret z
      | None => Raise ValueError "invalid literal for int() with base 10"
      end
  | _ => Raise TypeError "int() argument must be a string or a number"
  end.

(** The least magnitude of an integer that no longer converts to a
    binary64 float (it would round to 2^1024). *)
Definition float_limit : Z := 2 ^ 1024 - 2 ^ 970.

(** The conversion of an [int] operand that meets a [float]. *)
Definition py_float_of_int (z : Z) : res Q :=
  if Z.abs z <? float_limit then Ret (inject_Z z)
  else Raise OverflowError "int too large to convert to float".

(** ** The snapshot provider (psutil and the operating system) *)

(** How a process answers a termination request or a kill: it exits within
    the wait that follows, it stays alive past that wait, or the request is
    refused for lack of privilege. *)
Inductive sigresp : Type := Exits | Ignores | Denied.

(** One row of the process table.  A field is [None] where the caller may
    not read it. *)
Record proc : Type := {
  p_pid : Z;
  p_name : option string;
  p_user : option string;
  p_rss : option Z;
  p_cpu : option Q;
  on_terminate : sigresp;
  on_kill : sigresp
}.

Record cpu_sample : Type := {
  physical_cores : option Z;
  logical_processors : option Z;
  percent_per_cpu : list Q;
  percent_overall : Q
}.

Record vmem : Type := {
  vm_total : Z; vm_available : Z; vm_used : Z; vm_percent : Q
}.

Record usage : Type := {
  du_total : Z; du_used : Z; du_free : Z; du_percent : Q
}.

Record partition : Type := {
  device : string; mountpoint : string; fstype : string;
  disk_usage : res usage
}.

Record ping_result : Type := {
  returncode : Z; stdout : string; stderr : string
}.

(** What the collectors obtain from the machine during one run. *)
Record provider : Type := {
  psutil_present : bool;
  system_info : list (string * pyval);
  network_info : list (string * pyval);
  cpu_stat : res cpu_sample;
  virtual_memory : res vmem;
  disk_partitions : res (list partition);
  process_iter_error : option string;
  ping : string -> res ping_result;
  report_writable : bool;
  temp_dir : string
}.

(** The parsed command line. *)
Record args : Type := {
  a_report : string;
  a_ping : list string;
  a_top_processes : Z;
  a_fix : bool
}.

Definition opt_int (o : option Z) : pyval :=
  match o with Some z => PInt z | None => PNone end.
Definition opt_float (o : option Q) : pyval :=
  match o with Some q => PFloat q | None => PNone end.
Definition opt_str (o : option string) : pyval :=
  match o with Some s => PStr s | None => PNone end.

Definition error_marker (msg : string) : pyval := PDict [("error", PStr msg)].

Definition cpu_info (pv : provider) : pyval :=
  match cpu_stat pv with
  | Ret c =>
      PDict [("physical_cores", opt_int (physical_cores c));
             ("logical_processors", opt_int (logical_processors c));
             ("cpu_percent_per_cpu", PList (map PFloat (percent_per_cpu c)));
             ("cpu_percent_overall", PFloat (percent_overall c))]
  | Raise _ msg => error_marker msg
  end.

Definition memory_info (pv : provider) : pyval :=
  match virtual_memory pv with
  | Ret vm =>
      PDict [("total", PInt (vm_total vm)); ("available", PInt (vm_available vm));
             ("used", PInt (vm_used vm)); ("percent", PFloat (vm_percent vm))]
  | Raise _ msg => error_marker msg
  end.

Definition partition_info (p : partition) : pyval :=
  match disk_usage p with
  | Ret u =>
      PDict [("device", PStr (device p)); ("mountpoint", PStr (mountpoint p));
             ("fstype", PStr (fstype p)); ("total", PInt (du_total u));
             ("used", PInt (du_used u)); ("free", PInt (du_free u));
             ("percent", PFloat (du_percent u))]
  | Raise _ msg => PDict [("device", PStr (device p)); ("error", PStr msg)]
  end.

Definition disk_info (pv : provider) : pyval :=
  match disk_partitions pv with
  | Ret ps => PList (map partition_info ps)
  | Raise _ msg => PList [error_marker msg]
  end.

(** The dictionary [top_processes] builds for one process. *)
Definition proc_info (p : proc) : pyval :=
  PDict [("pid", PInt (p_pid p)); ("name", opt_str (p_name p));
         ("user", opt_str (p_user p)); ("memory_rss", opt_int (p_rss p));
         ("cpu_percent", opt_float (p_cpu p))].

(** The sort key [x.get('memory_rss') or 0]; the field holds an int or
    [None]. *)
Definition mem_key (x : pyval) : Z :=
  match x with
  | PDict d => match assoc_get d "memory_rss" with Some (PInt z) => z | _ => 0 end
  | _ => 0
  end.

(** [sorted(l, key=key, reverse=True)]: descending, and stable (elements with
    equal keys keep their order). *)
Fixpoint insert_desc {A} (key : A -> Z) (x : A) (l : list A) : list A :=
  match l with
  | [] => [x]
  | h :: t => if key x <? key h then h :: insert_desc key x t else x :: l
  end.

Definition sorted_desc {A} (key : A -> Z) (l : list A) : list A :=
  fold_right (insert_desc key) [] l.

Definition top_processes (pv : provider) (table : list proc) (n : Z) : pyval :=
  match process_iter_error pv with
  | None => PList (slice_to n (sorted_desc mem_key (map proc_info table)))
  | Some msg => PList [error_marker msg]
  end.

Definition ping_host (pv : provider) (host : string) : pyval :=
  match ping pv host with
  | Ret r => PDict [("returncode", PInt (returncode r));
                    ("stdout", PStr (stdout r)); ("stderr", PStr (stderr r))]
  | Raise _ msg => error_marker msg
  end.

Definition psutil_missing : string :=
  "psutil not installed. run `pip install -r requirements.txt`".

Definition run_checks (pv : provider) (table : list proc) (a : args) : pyval :=
  if psutil_present pv then
    PDict [("system", PDict (system_info pv));
           ("network", PDict (network_info pv));
           ("cpu", cpu_info pv);
           ("memory", memory_info pv);
           ("disks", disk_info pv);
           ("top_processes", top_processes pv table (a_top_processes a));
           ("pings", PDict (fold_left (fun d h => assoc_set d h (ping_host pv h))
                                      (a_ping a) []))]
  else error_marker psutil_missing.

(** ** Summary and rule engine *)

Fixpoint rmap {A B} (f : A -> res B) (l : list A) : res (list B) :=
  match l with
  | [] => Ret []
  | x :: r => let? y := f x in let? ys := rmap f r in Ret (y :: ys)
  end.

Fixpoint rfilter {A} (f : A -> res bool) (l : list A) : res (list A) :=
  match l with
  | [] => Ret []
  | x :: r =>
      let? b := f x in
      let? ys := rfilter f r in
      Ret (if b then x :: ys else ys)
  end.

(** [any(f(x) for x in l)]: evaluation stops at the first true element. *)
Fixpoint rany {A} (f : A -> res bool) (l : list A) : res bool :=
  match l with
  | [] => Ret false
  | x :: r => let? b := f x in if b then Ret true else rany f r
  end.

(** [round(q)] to the nearest integer, halves to the even one. *)
Definition round_half_even (q : Q) : Z :=
  let f := Qfloor q in
  let r := (q - inject_Z f)%Q in
  if Qltb r (1 # 2) then f
  else if Qltb (1 # 2) r then f + 1
  else if Z.even f then f else f + 1.

(** [bytes_to_mb(b)]: [round(b / 1024 / 1024, 1)], and [None] where that
    raises. *)
Definition bytes_to_mb (b : pyval) : pyval :=
  let mb (q : Q) :=
    PFloat (inject_Z (round_half_even (q / inject_Z 1048576 * 10)) / 10)%Q in
  match b with
  | PBool x => mb (if x then 1 else 0)%Q
  | PInt z => if Z.abs z <? 1024 * float_limit then mb (inject_Z z) else PNone
  | PFloat q => mb q
  | _ => PNone
  end.

(** One line of the process list of the summary. *)
Definition summary_line (p : pyval) : res (pyval * pyval * pyval) :=
  let? name := py_get p "name" PNone in
  let? pid := py_get p "pid" PNone in
  let? mem_bytes := py_get p "memory_rss" PNone in
  Ret (py_or name (PStr "<unknown>"), pid,
       if truthy mem_bytes then bytes_to_mb mem_bytes else PStr "?").

(** [pretty_print_summary]: the lines printed are not represented, only
    whether the function returns. *)
Definition pretty_print_summary (report : pyval) : res unit :=
  let? sys_info := py_get report "system" (PDict []) in
  let? _ := py_get sys_info "hostname" PNone in
  let? _ := py_get sys_info "platform" PNone in
  let? _ := py_get sys_info "platform_release" PNone in
  let? _ := py_get sys_info "python_version" PNone in
  let? cpu := py_get report "cpu" (PDict []) in
  let? _ := py_get cpu "logical_processors" PNone in
  let? cpu' := py_get report "cpu" (PDict []) in
  let? _ := py_get cpu' "cpu_percent_overall" PNone in
  let? mem := py_get report "memory" (PDict []) in
  let? _ := py_get mem "percent" PNone in
  let? tp := py_get report "top_processes" (PList []) in
  let? top := py_slice_lit tp 5 in
  let? ps := py_iter top in
  let? _ := rmap summary_line ps in
  let? pings := py_get report "pings" PNone in
  if truthy pings then
    match pings with
    | PDict _ => Ret tt
    | _ => Raise AttributeError "object has no attribute 'items'"
    end
  else Ret tt.

(** What [suggest_actions] prints, one constructor per message. *)
Inductive finding : Type :=
| MemoryHigh (pct : pyval) (top : list (pyval * pyval * pyval))
| MemoryOk
| CpuHigh (pct : pyval)
| CpuOk
| DiskHigh (high : list pyval)
| DiskOk
| OneDriveRunning
| HostsUnreachable (hosts : list string)
| NetworkOk.

(** The menu text of a suggestion. *)
Inductive caption : Type :=
| TerminateProcess (name pid : pyval)
| CleanTemp
| StopOneDrive.

(** A suggestion tuple [(action_code, readable_text, data)]. *)
Record suggestion : Type := {
  code : string;
  text : caption;
  data : pyval
}.

Definition top_user_line (p : pyval) : res (pyval * pyval * pyval) :=
  let? name := py_get p "name" PNone in
  let? pid := py_get p "pid" PNone in
  let? rss := py_get p "memory_rss" PNone in
  Ret (py_or name (PStr "<unknown>"), pid, py_or (bytes_to_mb rss) (PStr "?")).

Definition kill_suggestion (p : pyval) : res suggestion :=
  let? name := py_get p "name" PNone in
  let? pid := py_get p "pid" PNone in
  let? pid' := py_get p "pid" PNone in
  Ret {| code := "kill_process"; text := TerminateProcess name pid; data := pid' |}.

(** [isinstance(v, (int, float)) and v > n] *)
Definition number_above (v : pyval) (n : Z) : res bool :=
  if is_number v then py_gt v n else Ret false.

Definition memory_check (report : pyval) : res (finding * list suggestion) :=
  let? mem := py_get report "memory" (PDict []) in
  let? mem_pct := py_get mem "percent" PNone in
  let? high := number_above mem_pct 80 in
  if high then
    let? tp := py_get report "top_processes" (PList []) in
    let? top := py_slice_lit tp 3 in
    let? ps := py_iter top in
    let? shown := rmap top_user_line ps in
    let? kills := rmap kill_suggestion ps in
    Ret (MemoryHigh mem_pct shown, kills)
  else Ret (MemoryOk, []).

Definition cpu_check (report : pyval) : res finding :=
  let? cpu := py_get report "cpu" (PDict []) in
  let? cpu_overall := py_get cpu "cpu_percent_overall" PNone in
  let? high := number_above cpu_overall 85 in
  Ret (if high then CpuHigh cpu_overall else CpuOk).

(** [isinstance(d, dict) and d.get("percent") and d.get("percent") > 90] *)
Definition disk_is_high (d : pyval) : res bool :=
  if is_dict d then
    let? pct := py_get d "percent" PNone in
    if truthy pct then
      let? pct' := py_get d "percent" PNone in py_gt pct' 90
    else Ret false
  else Ret false.

Definition disk_check (report : pyval) : res (finding * list suggestion) :=
  let? disks := py_get report "disks" (PList []) in
  let? ds := py_iter disks in
  let? high_disks := rfilter disk_is_high ds in
  match high_disks with
  | [] => Ret (DiskOk, [])
  | _ => Ret (DiskHigh high_disks,
              [{| code := "clean_temp"; text := CleanTemp; data := PNone |}])
  end.

(** [(p.get("name") or "").lower().startswith("onedrive")] *)
Definition is_onedrive (p : pyval) : res bool :=
  let? name := py_get p "name" PNone in
  match py_or name (PStr "") with
  | PStr s => Ret (startswith (lower s) "onedrive")
  | _ => Raise AttributeError "object has no attribute 'lower'"
  end.

Definition onedrive_check (report : pyval) : res (list finding * list suggestion) :=
  let? tp := py_get report "top_processes" (PList []) in
  let? ps := py_iter tp in
  let? onedrive_present := rany is_onedrive ps in
  if onedrive_present then
    Ret ([OneDriveRunning],
         [{| code := "stop_onedrive"; text := StopOneDrive; data := PNone |}])
  else Ret ([], []).

(** [isinstance(r, dict) and r.get("returncode") == 0] *)
Definition ping_ok (r : pyval) : bool :=
  match r with
  | PDict d => match assoc_get d "returncode" with
               | Some v => py_eq_zero v
               | None => false
               end
  | _ => false
  end.

Definition network_check (report : pyval) : res finding :=
  let? pings := py_get report "pings" (PDict []) in
  match pings with
  | PDict d =>
      match map fst (filter (fun hr => negb (ping_ok (snd hr))) d) with
      | [] => Ret NetworkOk
      | unreachable => Ret (HostsUnreachable unreachable)
      end
  | _ => Raise AttributeError "object has no attribute 'items'"
  end.

(** [suggest_actions(report)]: the messages printed and the suggestions
    returned, in the order memory, CPU, disk, OneDrive, network. *)
Definition suggest_actions (report : pyval) : res (list finding * list suggestion) :=
  let? (fm, sm) := memory_check report in
  let? fc := cpu_check report in
  let? (fd, sd) := disk_check report in
  let? (fo, so) := onedrive_check report in
  let? fn := network_check report in
  Ret ((fm :: fc :: fd :: fo ++ [fn])%list, (sm ++ sd ++ so)%list).

(** The messages that report a problem. *)
Definition is_alert (f : finding) : bool :=
  match f with
  | MemoryHigh _ _ | CpuHigh _ | DiskHigh _ | OneDriveRunning
  | HostsUnreachable _ => true
  | _ => false
  end.

(** ** The machine the actions run against *)

(** A file of the temp area: what [os.stat] gives for it (modification time
    and size; [None] where the call fails) and whether [os.remove]
    succeeds on it. *)
Record tfile : Type := {
  f_name : string;
  f_stat : option (Q * Z);
  f_removable : bool
}.

(** One directory that [os.walk] visits, with its non-directory entries. *)
Record tdir : Type := {
  d_root : string;
  d_files : list tfile
}.

Inductive prompt : Type := AskChoice | AskPid | AskDays | AskConfirm.

(** An entry of the action executor. *)
Inductive exec_call : Type :=
| KillProcess (pid : pyval)
| CleanUserTemp (older_than_days : Z)
| StopOnedriveProcesses.

(** What the program does to its surroundings, in order: reads of standard
    input, the messages of [suggest_actions], the write of the report, the
    entries into the action executor and the calls the actions make. *)
Inductive event : Type :=
| Input (p : prompt)
| Advice (f : finding)
| SaveReport (path : string)
| Call (c : exec_call)
| Terminate (pid : Z)
| Wait (pid : Z) (timeout : Z)
| Kill (pid : Z)
| Remove (root name : string).

Record world : Type := {
  stdin : list string;
  table : list proc;
  temp : list tdir;
  clock : Q;
  trace : list event
}.

Definition set_stdin (l : list string) (w : world) : world :=
  {| stdin := l; table := table w; temp := temp w; clock := clock w;
     trace := trace w |}.
Definition set_table (t : list proc) (w : world) : world :=
  {| stdin := stdin w; table := t; temp := temp w; clock := clock w;
     trace := trace w |}.
Definition set_temp (t : list tdir) (w : world) : world :=
  {| stdin := stdin w; table := table w; temp := t; clock := clock w;
     trace := trace w |}.
Definition set_clock (c : Q) (w : world) : world :=
  {| stdin := stdin w; table := table w; temp := temp w; clock := c;
     trace := trace w |}.
Definition log (e : list event) (w : world) : world :=
  {| stdin := stdin w; table := table w; temp := temp w; clock := clock w;
     trace := (trace w ++ e)%list |}.

(** A computation on the machine: a result or an exception, and the machine
    as the computation left it. *)
Definition M (A : Type) : Type := world -> res A * world.

Definition ret {A} (a : A) : M A := fun w => (Ret a, w).
Definition raise {A} (k : exn_kind) (msg : string) : M A :=
  fun w => (Raise k msg, w).
Definition bind {A B} (m : M A) (f : A -> M B) : M B :=
  fun w => match m w with
           | (Ret a, w') => f a w'
           | (Raise k msg, w') => (Raise k msg, w')
           end.
Definition lift {A} (r : res A) : M A := fun w => (r, w).
Definition emit (e : event) : M unit := fun w => (Ret tt, log [e] w).

(** [try: m except ...: h] *)
Definition catch {A} (m : M A) (h : exn_kind -> string -> M A) : M A :=
  fun w => match m w with
           | (Ret a, w') => (Ret a, w')
           | (Raise k msg, w') => h k msg w'
           end.

Notation "x <- m ;; k" := (bind m (fun x => k))
  (at level 61, m at next level, right associativity).
Notation "m ;;; k" := (bind m (fun _ => k))
  (at level 61, right associativity).

(** [input(prompt)]: the next line of standard input, [EOFError] at its
    end. *)
Definition input (p : prompt) : M string :=
  fun w => match stdin w with
           | [] => (Raise EOFError "EOF when reading a line", log [Input p] w)
           | l :: r => (Ret l, log [Input p] (set_stdin r w))
           end.

(** *** psutil process handles *)

Definition find_proc (n : Z) (t : list proc) : option proc :=
  find (fun p => p_pid p =? n) t.

Definition remove_proc (n : Z) (t : list proc) : list proc :=
  filter (fun p => negb (p_pid p =? n)) t.

(** [psutil.Process(n)] *)
Definition psutil_Process (n : Z) : M proc :=
  fun w =>
    if n <? 0 then (Raise ValueError "pid must be a positive integer", w)
    else match find_proc n (table w) with
         | Some p => (Ret p, w)
         | None => (Raise NoSuchProcess "process PID not found", w)
         end.

(** [p.name()] *)
Definition proc_name (p : proc) : M string :=
  match p_name p with
  | Some s => ret s
  | None => raise AccessDenied "name"
  end.

(** A request to stop ([p.terminate()] or [p.kill()], told apart by the
    event and by the answer of the process): a process that answers
    [Exits] leaves the table. *)
Definition request (e : event) (answer : sigresp) (p : proc) : M unit :=
  fun w =>
    match find_proc (p_pid p) (table w) with
    | None => (Raise NoSuchProcess "process no longer exists", log [e] w)
    | Some _ =>
        match answer with
        | Denied => (Raise AccessDenied "", log [e] w)
        | Ignores => (Ret tt, log [e] w)
        | Exits => (Ret tt, log [e] (set_table (remove_proc (p_pid p) (table w)) w))
        end
    end.

Definition terminate (p : proc) : M unit :=
  request (Terminate (p_pid p)) (on_terminate p) p.

Definition kill (p : proc) : M unit :=
  request (Kill (p_pid p)) (on_kill p) p.

(** [p.wait(timeout=t)]: returns once the process is gone, raises
    [TimeoutExpired] if it is still there after [t] seconds. *)
Definition wait (p : proc) (t : Z) : M unit :=
  fun w =>
    match find_proc (p_pid p) (table w) with
    | None => (Ret tt, log [Wait (p_pid p) t] w)
    | Some _ => (Raise TimeoutExpired "timeout", log [Wait (p_pid p) t] w)
    end.

(** ** Safe action helpers *)

(** [confirm(prompt)]: the loop reads until the answer, stripped and
    lowered, is [y], [n] or empty.  Every turn consumes a line, so the fuel
    [S (length stdin)] is never used up. *)
Fixpoint confirm_loop (fuel : nat) : M bool :=
  match fuel with
  | O => raise EOFError "EOF when reading a line"
  | S fuel' =>
      line <- input AskConfirm ;;
      let ans := lower (strip line) in
      if String.eqb ans "y" then ret true
      else if (String.eqb ans "n" || String.eqb ans "")%bool then ret false
      else confirm_loop fuel'
  end.

Definition confirm : M bool :=
  fun w => confirm_loop (S (List.length (stdin w))) w.

(** The outcome text of an action. *)
Inductive message : Type :=
| Terminated (name : string) (pid : pyval)
| Killed (name : string) (pid : pyval)
| NotFound (pid : pyval) (err : string)
| Text (s : string)
| Failure (err : string).

Definition access_denied_text : string :=
  "Access denied. Try running PowerShell as Administrator.".

Definition kill_process (pid : pyval) : M (bool * message) :=
  catch
    (n <- lift (py_int pid) ;;
     p <- psutil_Process n ;;
     name <- proc_name p ;;
     terminate p ;;;
     catch
       (wait p 5 ;;;
        ret (true, Terminated name pid))
       (fun k msg =>
          match k with
          | TimeoutExpired =>
              kill p ;;;
              wait p 3 ;;;
              ret (true, Killed name pid)
          | _ => raise k msg
          end))
    (fun k msg =>
       match k with
       | NoSuchProcess | ValueError => ret (false, NotFound pid msg)
       | AccessDenied => ret (false, Text access_denied_text)
       | _ => ret (false, Failure msg)
       end).

(** The inner loop of [clean_user_temp] over the files of one directory:
    the number and the bytes of the files deleted, the files left, and the
    [os.remove] calls made.  A failing [os.stat] or [os.remove] skips the
    file. *)
Fixpoint clean_files (cutoff : Q) (root : string) (fs : list tfile)
  : Z * Z * list tfile * list event :=
  match fs with
  | [] => (0, 0, [], [])
  | f :: r =>
      let '(n, b, kept, ev) := clean_files cutoff root r in
      match f_stat f with
      | None => (n, b, f :: kept, ev)
      | Some (mtime, size) =>
          if Qltb mtime cutoff then
            if f_removable f
            then (1 + n, size + b, kept, Remove root (f_name f) :: ev)
            else (n, b, f :: kept, Remove root (f_name f) :: ev)
          else (n, b, f :: kept, ev)
      end
  end.

(** The walk over the directories of the temp area. *)
Fixpoint clean_dirs (cutoff : Q) (ds : list tdir)
  : Z * Z * list tdir * list event :=
  match ds with
  | [] => (0, 0, [], [])
  | d :: r =>
      let '(n1, b1, kept, ev1) := clean_files cutoff (d_root d) (d_files d) in
      let '(n2, b2, ds', ev2) := clean_dirs cutoff r in
      (n1 + n2, b1 + b2,
       {| d_root := d_root d; d_files := kept |} :: ds', (ev1 ++ ev2)%list)
  end.

Definition clean_user_temp (pv : provider) (older_than_days : Z)
  : M (Z * Z * string) :=
  fun w =>
    let now_ts := clock w in
    match py_float_of_int (older_than_days * 86400) with
    | Raise k msg => (Raise k msg, w)
    | Ret secs =>
        let cutoff := (now_ts - secs)%Q in
        let '(deleted_files, deleted_bytes, ds, ev) := clean_dirs cutoff (temp w) in
        (Ret (deleted_files, deleted_bytes, temp_dir pv), log ev (set_temp ds w))
    end.

Fixpoint stop_each (ps : list proc)
  : M (list (Z * option string) * list (Z * string)) :=
  match ps with
  | [] => ret ([], [])
  | p :: r =>
      let n := lower (match p_name p with Some s => s | None => "" end) in
      if startswith n "onedrive" then
        one <- catch (terminate p ;;; wait p 5 ;;; ret (@None string))
                     (fun _ msg => ret (Some msg)) ;;
        rest <- stop_each r ;;
        match one with
        | None => ret ((p_pid p, p_name p) :: fst rest, snd rest)
        | Some msg => ret (fst rest, (p_pid p, msg) :: snd rest)
        end
      else stop_each r
  end.

Definition stop_onedrive_processes (pv : provider)
  : M (list (Z * option string) * list (Z * string)) :=
  fun w =>
    match process_iter_error pv with
    | Some msg => (Raise OSError msg, w)
    | None => stop_each (table w) w
    end.

(** ** The fix menu and the entry point *)

(** [int(input(...).strip() or "0")] under [try ... except Exception]. *)
Definition read_choice : M Z :=
  line <- input AskChoice ;;
  lift (py_int (py_or (PStr (strip line)) (PStr "0"))).

Definition run_kill (d : pyval) : M unit :=
  pid <- match d with
         | PNone => line <- input AskPid ;; ret (PStr (strip line))
         | _ => ret d
         end ;;
  ok <- confirm ;;
  if ok then
    emit (Call (KillProcess pid)) ;;;
    _ <- kill_process pid ;;
    ret tt
  else ret tt.

Definition run_clean (pv : provider) : M unit :=
  line <- input AskDays ;;
  let days_str := py_or (PStr (strip line)) (PStr "3") in
  let days := match py_int days_str with Ret z => z | Raise _ _ => 3 end in
  ok <- confirm ;;
  if ok then
    emit (Call (CleanUserTemp days)) ;;;
    _ <- clean_user_temp pv days ;;
    ret tt
  else ret tt.

Definition run_stop (pv : provider) : M unit :=
  ok <- confirm ;;
  if ok then
    emit (Call StopOnedriveProcesses) ;;;
    _ <- stop_onedrive_processes pv ;;
    ret tt
  else ret tt.

Definition dispatch (pv : provider) (suggestions : list suggestion)
  (choice : Z) : M unit :=
  if choice =? 0 then ret tt
  else if negb ((1 <=? choice) && (choice <=? Z.of_nat (List.length suggestions)))
  then ret tt
  else
    match nth_error suggestions (Z.to_nat (choice - 1)) with
    | None => raise IndexError "list index out of range"
    | Some action =>
        if String.eqb (code action) "kill_process" then run_kill (data action)
        else if String.eqb (code action) "clean_temp" then run_clean pv
        else if String.eqb (code action) "stop_onedrive" then run_stop pv
        else ret tt
    end.

Definition interactive_fix (pv : provider) (suggestions : list suggestion)
  : M unit :=
  match suggestions with
  | [] => ret tt
  | _ =>
      parsed <- catch (choice <- read_choice ;; ret (Some choice))
                      (fun _ _ => ret None) ;;
      match parsed with
      | None => ret tt
      | Some choice => dispatch pv suggestions choice
      end
  end.

(** [save_report]: the write of the JSON file may fail. *)
Definition save_report (pv : provider) (path : string) : M unit :=
  emit (SaveReport path) ;;;
  if report_writable pv then ret tt
  else raise OSError "cannot write the report".

Definition main (pv : provider) (a : args) : M unit :=
  fun w =>
    let report := run_checks pv (table w) a in
    (_ <- lift (pretty_print_summary report) ;;
     fs <- lift (suggest_actions report) ;;
     let (findings, suggestions) := (fs : list finding * list suggestion) in
     (fun w' => (Ret tt, log (map Advice findings) w')) ;;;
     save_report pv (a_report a) ;;;
     if a_fix a then interactive_fix pv suggestions else ret tt) w.

(** The exit status of the process: [parse_args] leaves with status 2 on a
    command line it rejects ([None]); a return of [main] gives 0 and an
    exception that leaves it gives 1. *)
Definition exit_status (pv : provider) (cmdline : option args) (w : world) : Z :=
  match cmdline with
  | None => 2
  | Some a => match fst (main pv a w) with
              | Ret _ => 0
              | Raise _ _ => 1
              end
  end.

(** ** The process ranking of [helpdesk_logging.py] *)

Module HelpdeskLogging.

(** The tuples [(mem_rss, pid, name)]. *)
Definition entry : Type := (Z * Z * option string)%type.

(** [a < b] on two names; [None] and a string do not compare. *)
Definition name_lt (a b : option string) : res bool :=
  match a, b with
  | None, None => Ret false
  | Some x, Some y => Ret (String.ltb x y)
  | _, _ => Raise TypeError "'<' not supported between 'NoneType' and 'str'"
  end.

(** [a < b] on two tuples: the first differing component decides. *)
Definition entry_lt (a b : entry) : res bool :=
  let '(m1, p1, n1) := a in
  let '(m2, p2, n2) := b in
  if negb (m1 =? m2) then Ret (m1 <? m2)
  else if negb (p1 =? p2) then Ret (p1 <? p2)
  else name_lt n1 n2.

Fixpoint insert_entry (x : entry) (l : list entry) : res (list entry) :=
  match l with
  | [] => Ret [x]
  | h :: t =>
      let? below := entry_lt x h in
      if below then let? r := insert_entry x t in Ret (h :: r)
      else Ret (x :: l)
  end.

(** [procs.sort(reverse=True)] *)
Fixpoint sort_reverse (l : list entry) : res (list entry) :=
  match l with
  | [] => Ret []
  | x :: r => let? s := sort_reverse r in insert_entry x s
  end.

Definition proc_entry (p : proc) : entry :=
  (match p_rss p with Some z => z | None => 0 end, p_pid p, p_name p).

Definition entry_info (e : entry) : pyval :=
  let '(mem, pid, name) := e in
  PDict [("pid", PInt pid); ("name", opt_str name);
         ("memory_mb", bytes_to_mb (PInt mem))].

(** The top 3 processes of [collect_basic_report]. *)
Definition ranked (table : list proc) : res (list entry) :=
  let? s := sort_reverse (map proc_entry table) in Ret (firstn 3 s).

(** [collect_basic_report]: the sections collected before an exception
    stay in the report. *)
Definition collect_basic_report (pv : provider) (table : list proc)
  (timestamp : string) : pyval :=
  let r0 := [("timestamp", PStr timestamp)] in
  if psutil_present pv then
    match virtual_memory pv with
    | Raise _ _ => PDict r0
    | Ret vm =>
        let r1 := assoc_set r0 "memory" (PDict [("percent", PFloat (vm_percent vm))]) in
        match cpu_stat pv with
        | Raise _ _ => PDict r1
        | Ret c =>
            let r2 := assoc_set r1 "cpu"
                        (PDict [("logical_processors", opt_int (logical_processors c));
                                ("cpu_percent_overall", PFloat (percent_overall c))]) in
            match disk_partitions pv with
            | Raise _ _ => PDict (assoc_set r2 "disks" (PList []))
            | Ret ps =>
                let ok p := match disk_usage p with
                            | Ret u => [PDict [("mountpoint", PStr (mountpoint p));
                                               ("percent", PFloat (du_percent u))]]
                            | Raise _ _ => []
                            end in
                let r3 := assoc_set r2 "disks" (PList (flat_map ok ps)) in
                match process_iter_error pv with
                | Some _ => PDict r3
                | None =>
                    match ranked table with
                    | Raise _ _ => PDict r3
                    | Ret top =>
                        PDict (assoc_set r3 "top_processes"
                                         (PList (map entry_info top)))
                    end
                end
            end
        end
    end
  else PDict r0.

End HelpdeskLogging.


(** ** The ticket summary of [ticket_export.py] *)

Module TicketExport.

(** What may go wrong in this module: the exceptions of the operations
    shared with [helpdesk.py], and the [KeyError] of [disks[0]] on a
    dict. *)
Inductive fault : Type :=
| Fault (k : exn_kind) (msg : string)
| KeyError.

Inductive outcome (A : Type) : Type :=
| Ok (a : A)
| Fail (f : fault).
Arguments Ok {A} a.
Arguments Fail {A} f.

Definition of_res {A} (r : res A) : outcome A :=
  match r with
  | Ret a => Ok a
  | Raise k msg => Fail (Fault k msg)
  end.

Definition obind {A B} (m : outcome A) (f : A -> outcome B) : outcome B :=
  match m with
  | Ok a => f a
  | Fail e => Fail e
  end.

Notation "'let!' x ':=' m 'in' k" := (obind m (fun x => k))
  (at level 10, x pattern, m at level 100, k at level 200).

(** A value of the summary: a value taken from the report, or the text
    joined from the [(name, pid)] pairs of the processes. *)
Inductive cell : Type :=
| Val (v : pyval)
| Names (l : list (pyval * pyval)).

(** [x[0]] *)
Definition first_item (x : pyval) : outcome pyval :=
  match x with
  | PList (h :: _) => Ok h
  | PList [] => Fail (Fault IndexError "list index out of range")
  | PStr (String c _) => Ok (PStr (String c EmptyString))
  | PStr EmptyString => Fail (Fault IndexError "string index out of range")
  | PDict _ => Fail KeyError
  | _ => Fail (Fault TypeError "object is not subscriptable")
  end.

(** The pair that the f-string of [top_names] renders for a process. *)
Definition name_pid (p : pyval) : res (pyval * pyval) :=
  let? name := py_get p "name" PNone in
  let? pid := py_get p "pid" PNone in
  Ret (name, pid).

Definition summarize_report (rep : pyval) : outcome (list (string * cell)) :=
  let! sys_info := of_res (py_get rep "system" (PDict [])) in
  let! mem := of_res (py_get rep "memory" (PDict [])) in
  let! cpu := of_res (py_get rep "cpu" (PDict [])) in
  let! disks := of_res (py_get rep "disks" (PList [])) in
  let! top := of_res (py_get rep "top_processes" (PList [])) in
  let! disk_percent :=
    (if truthy disks
     then let! d0 := first_item disks in of_res (py_get d0 "percent" PNone)
     else Ok (PStr "")) in
  let! ps := of_res (py_iter top) in
  let! top_names := of_res (rmap name_pid ps) in
  let! timestamp := of_res (py_get sys_info "timestamp" PNone) in
  let! host := of_res (py_get sys_info "hostname" PNone) in
  let! python_version := of_res (py_get sys_info "python_version" PNone) in
  let! memory_percent := of_res (py_get mem "percent" PNone) in
  let! cpu_percent_overall := of_res (py_get cpu "cpu_percent_overall" PNone) in
  Ok [("timestamp", Val timestamp); ("host", Val host);
      ("python_version", Val python_version);
      ("memory_percent", Val memory_percent);
      ("cpu_percent_overall", Val cpu_percent_overall);
      ("disk_percent", Val disk_percent);
      ("top_processes", Names top_names)].

(** The [keys] of [write_csv]. *)
Definition fieldnames : list string :=
  ["timestamp"; "host"; "python_version"; "memory_percent";
   "cpu_percent_overall"; "disk_percent"; "top_processes"].

Fixpoint lookup (s : list (string * cell)) (k : string) : option cell :=
  match s with
  | [] => None
  | (k', c) :: r => if String.eqb k k' then Some c else lookup r k
  end.

(** [DictWriter.writerow]: a key outside the field names is a
    [ValueError]; a field without a value is written empty. *)
Definition writerow (summary : list (string * cell)) : outcome (list cell) :=
  if forallb (fun kv => existsb (String.eqb (fst kv)) fieldnames) summary
  then Ok (map (fun k => match lookup summary k with
                         | Some c => c
                         | None => Val (PStr "")
                         end) fieldnames)
  else Fail (Fault ValueError "dict contains fields not in fieldnames").

(** [write_csv]: the header and the row written, when the file opens. *)
Definition write_csv (writable : bool) (summary : list (string * cell))
  : outcome (list string * list cell) :=
  if writable then let! row := writerow summary in Ok (fieldnames, row)
  else Fail (Fault OSError "cannot open the file").

(** [main]: the exit status and what was written.  [argv] holds the script
    name first; [read_report] stands for the JSON file read. *)
Definition main (argv : list string) (read_report : string -> outcome pyval)
  (writable : string -> bool) : Z * option (list string * list cell) :=
  match argv with
  | _ :: in_path :: out_path :: _ =>
      match (let! rep := read_report in_path in
             let! summary := summarize_report rep in
             write_csv (writable out_path) summary) with
      | Ok file => (0, Some file)
      | Fail _ => (1, None)
      end
  | _ => (1, None)
  end.

End TicketExport.
(** * Vocabulary of the statements and sample data *)

(** A selection that picks nothing: the line is not a number, or it is 0 or
    a number outside [1 .. len]. *)
Definition picks_nothing (len : nat) (line : string) : Prop :=
  match int_of_str (strip line) with
  | None => True
  | Some c => c = 0 \/ c < 1 \/ Z.of_nat len < c
  end.

Definition menu3 : list suggestion :=
  [{| code := "kill_process"; text := TerminateProcess (PStr "chrome") (PInt 10);
      data := PInt 10 |};
   {| code := "clean_temp"; text := CleanTemp; data := PNone |};
   {| code := "stop_onedrive"; text := StopOneDrive; data := PNone |}].

Definition quiet_provider : provider :=
  {| psutil_present := true; system_info := []; network_info := [];
     cpu_stat := Raise OSError "cpu"; virtual_memory := Raise OSError "mem";
     disk_partitions := Ret []; process_iter_error := None;
     ping := fun _ => Raise OSError "ping"; report_writable := true;
     temp_dir := "/tmp" |}.

Definition world_of (lines : list string) (t : list proc) (ds : list tdir) : world :=
  {| stdin := lines; table := t; temp := ds; clock := 1000; trace := [] |}.

(** The answer [confirm] acts on: the line stripped and lowered. *)
Definition answer (line : string) : string := lower (strip line).

Definition is_input (e : event) : Prop := exists p, e = Input p.

(** A relation between the machine before and after that a computation
    maintains. *)
Definition keeps (P : world -> world -> Prop) {A} (m : M A) : Prop :=
  forall w, P w (snd (m w)).


(** The outcome of [kill_process] on a process that is in the table, by its
    answers to the two requests. *)
Definition kill_outcome (pid : pyval) (n : Z) (p : proc) (w : world)
  : res (bool * message) * world :=
  match p_name p with
  | None => (Ret (false, Text access_denied_text), w)
  | Some name =>
      match on_terminate p with
      | Denied => (Ret (false, Text access_denied_text), log [Terminate n] w)
      | Exits =>
          (Ret (true, Terminated name pid),
           log [Terminate n; Wait n 5] (set_table (remove_proc n (table w)) w))
      | Ignores =>
          match on_kill p with
          | Denied =>
              (Ret (false, Text access_denied_text),
               log [Terminate n; Wait n 5; Kill n] w)
          | Exits =>
              (Ret (true, Killed name pid),
               log [Terminate n; Wait n 5; Kill n; Wait n 3]
                   (set_table (remove_proc n (table w)) w))
          | Ignores =>
              (Ret (false, Failure "timeout"),
               log [Terminate n; Wait n 5; Kill n; Wait n 3] w)
          end
      end
  end.

(** A PID as [kill_process] receives it: the integer of a suggestion or the
    text typed at the PID prompt. *)
Definition pid_like (pid : pyval) : Prop :=
  (exists z, pid = PInt z) \/ (exists s, pid = PStr s).

(** No row of the process table carries the PID. *)
Definition absent (pid : pyval) (w : world) : Prop :=
  forall n, py_int pid = Ret n -> find_proc n (table w) = None.

Definition sample_proc (pid : Z) (name : string) (rss : Z)
  (t k : sigresp) : proc :=
  {| p_pid := pid; p_name := Some name; p_user := Some "user";
     p_rss := Some rss; p_cpu := Some 0%Q; on_terminate := t; on_kill := k |}.

(** The files of the temp area, directory by directory. *)
Definition all_files (ds : list tdir) : list tfile := flat_map d_files ds.

Definition file_count (ds : list tdir) : Z := Z.of_nat (List.length (all_files ds)).

(** A file last modified strictly before [now] that [os.stat] and
    [os.remove] both accept. *)
Definition old_and_removable (now : Q) (f : tfile) : Prop :=
  f_removable f = true /\ exists m s, f_stat f = Some (m, s) /\ (m < now)%Q.

(** A file whose modification time is readable and strictly below the
    cutoff. *)
Definition older (cutoff : Q) (f : tfile) : bool :=
  match f_stat f with
  | Some (m, _) => Qltb m cutoff
  | None => false
  end.

(** The [os.remove] calls for the files below the cutoff, in walk order. *)
Definition eligible (cutoff : Q) (ds : list tdir) : list event :=
  flat_map (fun d => map (fun f => Remove (d_root d) (f_name f))
                         (filter (older cutoff) (d_files d))) ds.

Fixpoint zeros (n : nat) : string :=
  match n with
  | O => ""
  | S k => String "0" (zeros k)
  end.

(** The decimal text of 10^310. *)
Definition huge_days_line : string := String "1" (zeros 310).

Definition sample_file (name : string) (mtime : Q) (size : Z) (removable : bool)
  : tfile :=
  {| f_name := name; f_stat := Some (mtime, size); f_removable := removable |}.

(** Descending by key, ties allowed. *)
Definition descending {A} (key : A -> Z) (l : list A) : Prop :=
  StronglySorted (fun a b => key b <= key a) l.

(** The elements of a list that carry a given key, in list order. *)
Definition with_key {A} (key : A -> Z) (k : Z) (l : list A) : list A :=
  filter (fun x => key x =? k) l.

(** A process whose memory figure is unknown. *)
Definition idle_proc (pid : Z) (name : string) : proc :=
  {| p_pid := pid; p_name := Some name; p_user := None; p_rss := None;
     p_cpu := None; on_terminate := Exits; on_kill := Exits |}.

(** *** The shape of a snapshot

    Every section may be missing.  A section that is present is a dict
    ([memory], [cpu], [pings]; an error marker is a dict too) or a list
    ([disks], [top_processes]).  A disk entry carries a number in [percent],
    or nothing there; a process entry is a dict whose [name] is a string or
    empty. *)

Definition is_str (x : pyval) : bool :=
  match x with PStr _ => true | _ => false end.

Definition section_ok (d : list (string * pyval)) (k : string)
  (ok : pyval -> bool) : bool :=
  match assoc_get d k with None => true | Some v => ok v end.

Definition disk_ok (x : pyval) : bool :=
  match x with
  | PDict d => match assoc_get d "percent" with
               | None => true
               | Some v => negb (truthy v) || is_number v
               end
  | _ => true
  end.

Definition proc_ok (x : pyval) : bool :=
  match x with
  | PDict d => match assoc_get d "name" with
               | None => true
               | Some v => negb (truthy v) || is_str v
               end
  | _ => false
  end.

Definition list_of (ok : pyval -> bool) (x : pyval) : bool :=
  match x with PList l => forallb ok l | _ => false end.

Definition snapshot_ok (report : pyval) : bool :=
  match report with
  | PDict d =>
      section_ok d "memory" is_dict && section_ok d "cpu" is_dict &&
      section_ok d "disks" (list_of disk_ok) &&
      section_ok d "top_processes" (list_of proc_ok) &&
      section_ok d "pings" is_dict
  | _ => false
  end.

(** [p.get(k)], and [None] where [p] is no dict. *)
Definition getf (p : pyval) (k : string) : pyval :=
  match p with
  | PDict d => match assoc_get d k with Some v => v | None => PNone end
  | _ => PNone
  end.

(** [report.get(k, dflt)] *)
Definition section (report : pyval) (k : string) (dflt : pyval) : pyval :=
  match report with
  | PDict d => match assoc_get d k with Some v => v | None => dflt end
  | _ => dflt
  end.

Definition items (x : pyval) : list pyval :=
  match x with PList l => l | _ => [] end.

(** A number above the threshold. *)
Definition above (v : pyval) (n : Z) : bool :=
  is_number v && match py_gt v n with Ret b => b | Raise _ _ => false end.

Definition top_user_of (p : pyval) : pyval * pyval * pyval :=
  (py_or (getf p "name") (PStr "<unknown>"), getf p "pid",
   py_or (bytes_to_mb (getf p "memory_rss")) (PStr "?")).

Definition kill_of (p : pyval) : suggestion :=
  {| code := "kill_process";
     text := TerminateProcess (getf p "name") (getf p "pid");
     data := getf p "pid" |}.

Definition disk_high_b (x : pyval) : bool :=
  is_dict x && truthy (getf x "percent") &&
  match py_gt (getf x "percent") 90 with Ret b => b | Raise _ _ => false end.

Definition onedrive_b (p : pyval) : bool :=
  match py_or (getf p "name") (PStr "") with
  | PStr s => startswith (lower s) "onedrive"
  | _ => false
  end.

(** What the five checks yield on a snapshot of that shape. *)
Definition advise_memory (report : pyval) : finding * list suggestion :=
  let pct := getf (section report "memory" (PDict [])) "percent" in
  let top := firstn 3 (items (section report "top_processes" (PList []))) in
  if above pct 80 then (MemoryHigh pct (map top_user_of top), map kill_of top)
  else (MemoryOk, []).

Definition advise_cpu (report : pyval) : finding :=
  let pct := getf (section report "cpu" (PDict [])) "cpu_percent_overall" in
  if above pct 85 then CpuHigh pct else CpuOk.

Definition advise_disk (report : pyval) : finding * list suggestion :=
  match filter disk_high_b (items (section report "disks" (PList []))) with
  | [] => (DiskOk, [])
  | high => (DiskHigh high,
             [{| code := "clean_temp"; text := CleanTemp; data := PNone |}])
  end.

Definition advise_onedrive (report : pyval) : list finding * list suggestion :=
  if existsb onedrive_b (items (section report "top_processes" (PList [])))
  then ([OneDriveRunning],
        [{| code := "stop_onedrive"; text := StopOneDrive; data := PNone |}])
  else ([], []).

Definition advise_network (report : pyval) : finding :=
  match section report "pings" (PDict []) with
  | PDict d =>
      match map fst (filter (fun hr => negb (ping_ok (snd hr))) d) with
      | [] => NetworkOk
      | unreachable => HostsUnreachable unreachable
      end
  | _ => NetworkOk
  end.

Definition advise (report : pyval) : list finding * list suggestion :=
  ((fst (advise_memory report) :: advise_cpu report :: fst (advise_disk report)
      :: fst (advise_onedrive report) ++ [advise_network report])%list,
   (snd (advise_memory report) ++ snd (advise_disk report)
      ++ snd (advise_onedrive report))%list).

Definition is_kill (s : suggestion) : bool := String.eqb (code s) "kill_process".

(** The scenario of the specification: memory at 95 percent, and three
    processes that the provider lists in an order other than by memory. *)
Definition busy_provider : provider :=
  {| psutil_present := true; system_info := []; network_info := [];
     cpu_stat := Raise OSError "cpu";
     virtual_memory := Ret {| vm_total := 1000; vm_available := 50;
                              vm_used := 950; vm_percent := 95 |};
     disk_partitions := Ret []; process_iter_error := None;
     ping := fun _ => Raise OSError "ping"; report_writable := true;
     temp_dir := "/tmp" |}.

Definition scenario_table : list proc :=
  [sample_proc 12 "explorer" 100000000 Exits Exits;
   sample_proc 10 "chrome" 500000000 Exits Exits;
   sample_proc 11 "onedrive" 300000000 Exits Exits].

Definition scenario_args : args :=
  {| a_report := "report.json"; a_ping := []; a_top_processes := 5;
     a_fix := false |}.


Definition fix_args : args :=
  {| a_report := "report.json"; a_ping := ["8.8.8.8"]; a_top_processes := 5;
     a_fix := true |}.

(** The line [pretty_print_summary] prints for a process entry. *)
Definition summary_of (p : pyval) : pyval * pyval * pyval :=
  (py_or (getf p "name") (PStr "<unknown>"), getf p "pid",
   if truthy (getf p "memory_rss") then bytes_to_mb (getf p "memory_rss")
   else PStr "?").


(** * Vocabulary of the further properties *)

Definition clean_suggestion : suggestion :=
  {| code := "clean_temp"; text := CleanTemp; data := PNone |}.

Definition stop_suggestion : suggestion :=
  {| code := "stop_onedrive"; text := StopOneDrive; data := PNone |}.

Definition is_clean (s : suggestion) : bool := String.eqb (code s) "clean_temp".

Definition is_stop (s : suggestion) : bool := String.eqb (code s) "stop_onedrive".

(** The events of the trace added between two machines all pass [ok]. *)
Definition emits (ok : event -> bool) (w w' : world) : Prop :=
  exists ev, trace w' = (trace w ++ ev)%list /\ forallb ok ev = true.

(** The calls an action makes on a process handle. *)
Definition process_event (e : event) : bool :=
  match e with
  | Terminate _ | Wait _ _ | Kill _ => true
  | _ => false
  end.

(** The same, without the kill. *)
Definition graceful_event (e : event) : bool :=
  match e with
  | Terminate _ | Wait _ _ => true
  | _ => false
  end.

Definition input_event (e : event) : bool :=
  match e with Input _ => true | _ => false end.

Definition call_event (e : event) : bool :=
  match e with Call _ => true | _ => false end.

(** The number of entries into the action executor that a trace records. *)
Definition calls (t : list event) : nat := List.length (filter call_event t).

(** The process table only loses rows, and only rows with the PID [n]; the
    rest of the machine but the trace is as before. *)
Definition loses_only (n : Z) (w w' : world) : Prop :=
  stdin w' = stdin w /\ temp w' = temp w /\ clock w' = clock w /\
  (table w' = table w \/ table w' = remove_proc n (table w)).

(** A process that [stop_onedrive_processes] selects. *)
Definition onedrive_proc (p : proc) : bool :=
  startswith (lower (match p_name p with Some s => s | None => "" end)) "onedrive".


(** A file that [clean_user_temp] deletes: readable, older than the cutoff,
    and accepted by [os.remove]. *)
Definition deleted_by (cutoff : Q) (f : tfile) : bool :=
  older cutoff f && f_removable f.

Definition size_of (f : tfile) : Z :=
  match f_stat f with Some (_, s) => s | None => 0 end.

Definition total_size (fs : list tfile) : Z :=
  fold_right (fun f acc => size_of f + acc) 0 fs.

(** A directory after the sweep: the files not deleted, in order. *)
Definition swept (cutoff : Q) (d : tdir) : tdir :=
  {| d_root := d_root d;
     d_files := filter (fun f => negb (deleted_by cutoff f)) (d_files d) |}.

(** An answer that ends the confirmation loop. *)
Definition decisive (line : string) : bool :=
  String.eqb (answer line) "y" || String.eqb (answer line) "n"
  || String.eqb (answer line) "".

(** An action code that the fix menu knows. *)
Definition known_code (s : suggestion) : bool :=
  String.eqb (code s) "kill_process" || String.eqb (code s) "clean_temp"
  || String.eqb (code s) "stop_onedrive".

Definition quiet_event (e : event) : bool := negb (call_event e).

(** At most one entry into the action executor is added to the trace. *)
Definition one_call (w w' : world) : Prop :=
  exists ev, trace w' = (trace w ++ ev)%list /\ (calls ev <= 1)%nat.

(** The process table and the temp area are as before. *)
Definition untouched (w w' : world) : Prop :=
  table w' = table w /\ temp w' = temp w.

Definition report_event (e : event) : bool :=
  match e with Advice _ | SaveReport _ => true | _ => false end.

Definition remove_event (e : event) : bool :=
  match e with Remove _ _ => true | _ => false end.

Definition unwritable_provider : provider :=
  {| psutil_present := true; system_info := []; network_info := [];
     cpu_stat := Raise OSError "cpu"; virtual_memory := Raise OSError "mem";
     disk_partitions := Ret []; process_iter_error := None;
     ping := fun _ => Raise OSError "ping"; report_writable := false;
     temp_dir := "/tmp" |}.

(** The sort key of a process: its resident memory, 0 when unknown. *)
Definition rss_key (p : proc) : Z :=
  match p_rss p with Some z => z | None => 0 end.

(** The processes of the snapshot: the table sorted by memory, cut to [n]. *)
Definition snapshot_procs (table : list proc) (n : Z) : list proc :=
  slice_to n (sorted_desc rss_key table).

(** The ping of a host succeeded with return code 0. *)
Definition reachable (pv : provider) (h : string) : bool :=
  match ping pv h with
  | Ret r => returncode r =? 0
  | Raise _ _ => false
  end.

(** A partition whose usage is readable and above 90 percent. *)
Definition hot (p : partition) : bool :=
  match disk_usage p with
  | Ret u => Qltb 90 (du_percent u)
  | Raise _ _ => false
  end.

Definition hot_partitions (pv : provider) : list partition :=
  match disk_partitions pv with
  | Ret ps => filter hot ps
  | Raise _ _ => []
  end.

Definition full_disks_provider : provider :=
  {| psutil_present := true; system_info := []; network_info := [];
     cpu_stat := Raise OSError "cpu"; virtual_memory := Raise OSError "mem";
     disk_partitions :=
       Ret [{| device := "sda1"; mountpoint := "/"; fstype := "ext4";
               disk_usage := Ret {| du_total := 100; du_used := 95; du_free := 5;
                                    du_percent := 95 |} |};
            {| device := "sdb1"; mountpoint := "/mnt"; fstype := "ext4";
               disk_usage := Raise OSError "not ready" |};
            {| device := "sdc1"; mountpoint := "/data"; fstype := "ext4";
               disk_usage := Ret {| du_total := 100; du_used := 99; du_free := 1;
                                    du_percent := 99 |} |}];
     process_iter_error := None;
     ping := fun _ => Raise OSError "ping"; report_writable := true;
     temp_dir := "/tmp" |}.

(** *** The ranking of [helpdesk_logging.py] *)

Definition entry_mem (e : HelpdeskLogging.entry) : Z := fst (fst e).
Definition entry_pid (e : HelpdeskLogging.entry) : Z := snd (fst e).

(** [a] ranks at least as high as [b]: more memory, or the same memory and
    a PID that is not smaller. *)
Definition rank_ge (a b : HelpdeskLogging.entry) : Prop :=
  entry_mem b < entry_mem a \/
  (entry_mem b = entry_mem a /\ entry_pid b <= entry_pid a).

(** The report has the section [k]. *)
Definition has_section (r : pyval) (k : string) : bool :=
  match r with
  | PDict d => match assoc_get d k with Some _ => true | None => false end
  | _ => false
  end.

Definition readable (p : partition) : bool :=
  match disk_usage p with Ret _ => true | Raise _ _ => false end.

(** A machine on which everything but one partition can be read. *)
Definition sampled_provider : provider :=
  {| psutil_present := true; system_info := [("hostname", PStr "testhost")];
     network_info := [];
     cpu_stat := Ret {| physical_cores := Some 2; logical_processors := Some 4;
                        percent_per_cpu := []; percent_overall := 10 |};
     virtual_memory := virtual_memory busy_provider;
     disk_partitions := disk_partitions full_disks_provider;
     process_iter_error := None;
     ping := fun _ => Raise OSError "ping";
     report_writable := true; temp_dir := "/tmp" |}.

(** *** The ticket summary *)

(** The percentage of the first partition in the report of [run_checks]:
    empty text without partitions, [None] when the first one is
    unreadable. *)
Definition first_partition_percent (pv : provider) : pyval :=
  match disk_partitions pv with
  | Ret [] => PStr ""
  | Ret (p :: _) => match disk_usage p with
                    | Ret u => PFloat (du_percent u)
                    | Raise _ _ => PNone
                    end
  | Raise _ _ => PNone
  end.

(** The summary of the report that [run_checks] builds with psutil
    present. *)
Definition summary_of_checks (pv : provider) (table : list proc) (a : args)
  : list (string * TicketExport.cell) :=
  [("timestamp", TicketExport.Val (getf (PDict (system_info pv)) "timestamp"));
   ("host", TicketExport.Val (getf (PDict (system_info pv)) "hostname"));
   ("python_version",
    TicketExport.Val (getf (PDict (system_info pv)) "python_version"));
   ("memory_percent", TicketExport.Val (getf (memory_info pv) "percent"));
   ("cpu_percent_overall",
    TicketExport.Val (getf (cpu_info pv) "cpu_percent_overall"));
   ("disk_percent", TicketExport.Val (first_partition_percent pv));
   ("top_processes",
    TicketExport.Names
      (map (fun p => (getf p "name", getf p "pid"))
           (items (top_processes pv table (a_top_processes a)))))].

(** * Properties *)

(** ** Reading the menu choice *)

Lemma choice_of_line (line : string) :
  py_int (py_or (PStr (strip line)) (PStr "0")) =
  if String.eqb (strip line) "" then Ret 0
  else match int_of_str (strip line) with
       | Some z => Ret z
       | None => Raise ValueError "invalid literal for int() with base 10"
       end.
Proof.
  unfold py_or; simpl.
  destruct (String.eqb (strip line) ""); reflexivity.
Qed.

Lemma int_of_str_empty : int_of_str "" = None.
Proof. reflexivity. Qed.

(** C2: on a selection line that is not a number, is 0, or lies outside
    [1 .. len(suggestions)], the fix menu returns after that single read:
    nothing is added to the trace but the one selection prompt, so no action
    executor is entered, and the process table and the temp area are
    untouched. *)
Theorem interactive_fix_no_selection
  (pv : provider) (suggestions : list suggestion) (w : world)
  (line : string) (rest : list string) :
  stdin w = line :: rest ->
  picks_nothing (List.length suggestions) line ->
  interactive_fix pv suggestions w =
  (Ret tt, match suggestions with
           | [] => w
           | _ => log [Input AskChoice] (set_stdin rest w)
           end).
Proof.
  intros Hin Hpick.
  destruct suggestions as [|s ss]; [reflexivity|].
  unfold interactive_fix, bind, catch, read_choice, input, lift, bind.
  rewrite Hin, choice_of_line.
  unfold picks_nothing in Hpick.
  destruct (String.eqb (strip line) "") eqn:He.
  - reflexivity.
  - destruct (int_of_str (strip line)) as [c|]; [|reflexivity].
    unfold ret, dispatch.
    destruct (c =? 0) eqn:H0; [reflexivity|].
    destruct Hpick as [Hc|[Hc|Hc]].
    + apply Z.eqb_neq in H0; contradiction.
    + replace (1 <=? c) with false by (symmetry; apply Z.leb_gt; lia).
      reflexivity.
    + replace (c <=? Z.of_nat (List.length (s :: ss))) with false
        by (symmetry; apply Z.leb_gt; lia).
      rewrite andb_false_r. reflexivity.
Qed.

Lemma interactive_fix_no_selection_witness :
  interactive_fix quiet_provider menu3 (world_of ["7"; "y"] [] []) =
  (Ret tt, {| stdin := ["y"]; table := []; temp := []; clock := 1000;
              trace := [Input AskChoice] |}).
Proof.
  apply (interactive_fix_no_selection quiet_provider menu3
           (world_of ["7"; "y"] [] []) "7" ["y"]).
  - reflexivity.
  - unfold picks_nothing. vm_compute. right; right; reflexivity.
Defined.

(** ** The confirmation step *)

Ltac break_match :=
  match goal with
  | |- context [match ?x with _ => _ end] => destruct x eqn:?
  end.

Lemma log_stdin ev w : stdin (log ev w) = stdin w.
Proof. reflexivity. Qed.

Lemma log_trace ev w : trace (log ev w) = (trace w ++ ev)%list.
Proof. reflexivity. Qed.

(** What a run of the confirmation loop does: it only reads lines; when it
    returns [True] the last line read answers [y], and when it returns
    [False] the last line read answers [n] or is blank. *)
Lemma confirm_loop_reads (fuel : nat) : forall w r w',
  confirm_loop fuel w = (r, w') ->
  (exists ev, trace w' = (trace w ++ ev)%list /\ Forall is_input ev) /\
  table w' = table w /\ temp w' = temp w /\ clock w' = clock w /\
  (exists used, stdin w = (used ++ stdin w')%list /\
     (r = Ret true ->
      exists pre line, used = (pre ++ [line])%list /\ answer line = "y") /\
     (r = Ret false ->
      exists pre line, used = (pre ++ [line])%list /\
                       (answer line = "n" \/ answer line = ""))).
Proof.
  induction fuel as [|fuel IH]; intros w r w' H.
  - inversion H; subst. split; [exists []; rewrite app_nil_r; auto|].
    repeat split; auto. exists []. repeat split; auto; discriminate.
  - simpl in H. unfold bind, input in H.
    destruct (stdin w) as [|line rest] eqn:Hs.
    + inversion H; subst. split.
      * exists [Input AskConfirm]. split; [reflexivity|].
        constructor; [exists AskConfirm; reflexivity|constructor].
      * repeat split; auto. exists []. rewrite log_stdin, Hs.
        repeat split; auto; discriminate.
    + fold (answer line) in H.
      destruct (String.eqb (answer line) "y") eqn:Hy.
      { inversion H; subst. split.
        - exists [Input AskConfirm]. split; [reflexivity|].
          constructor; [exists AskConfirm; reflexivity|constructor].
        - repeat split; auto. exists [line]. repeat split; try discriminate.
          intros _. exists [], line. split; [reflexivity|].
          now apply String.eqb_eq. }
      destruct (String.eqb (answer line) "n" || String.eqb (answer line) "")%bool eqn:Hn.
      { inversion H; subst. split.
        - exists [Input AskConfirm]. split; [reflexivity|].
          constructor; [exists AskConfirm; reflexivity|constructor].
        - repeat split; auto. exists [line]. repeat split; try discriminate.
          intros _. exists [], line. split; [reflexivity|].
          apply orb_true_iff in Hn. destruct Hn as [Hn|Hn]; apply String.eqb_eq in Hn; auto. }
      apply IH in H. destruct H as [[ev [Ht Hev]] [Htab [Htmp [Hclk [used [Hu [Hyes Hno]]]]]]].
      split.
      * exists (Input AskConfirm :: ev). split.
        -- rewrite Ht. simpl. rewrite <- app_assoc. reflexivity.
        -- constructor; [exists AskConfirm; reflexivity|assumption].
      * repeat split; auto. exists (line :: used). simpl in Hu. split.
        -- simpl. now f_equal.
        -- split; intros Hr.
           ++ destruct (Hyes Hr) as [pre [l [E A]]].
              exists (line :: pre), l. subst used. auto.
           ++ destruct (Hno Hr) as [pre [l [E A]]].
              exists (line :: pre), l. subst used. auto.
Qed.

Lemma confirm_reads : forall w r w',
  confirm w = (r, w') ->
  (exists ev, trace w' = (trace w ++ ev)%list /\ Forall is_input ev) /\
  table w' = table w /\ temp w' = temp w /\ clock w' = clock w /\
  (exists used, stdin w = (used ++ stdin w')%list /\
     (r = Ret true ->
      exists pre line, used = (pre ++ [line])%list /\ answer line = "y") /\
     (r = Ret false ->
      exists pre line, used = (pre ++ [line])%list /\
                       (answer line = "n" \/ answer line = ""))).
Proof. intros w r w'. unfold confirm. apply confirm_loop_reads. Qed.

(** The first answer decides when it is [y], [n] or blank; any other answer
    makes the loop ask again. *)
Lemma confirm_first_line (w : world) (line : string) (rest : list string) :
  stdin w = line :: rest ->
  confirm w =
  if String.eqb (answer line) "y"
  then (Ret true, log [Input AskConfirm] (set_stdin rest w))
  else if (String.eqb (answer line) "n" || String.eqb (answer line) "")%bool
       then (Ret false, log [Input AskConfirm] (set_stdin rest w))
       else confirm (log [Input AskConfirm] (set_stdin rest w)).
Proof.
  intros Hs. unfold confirm. rewrite Hs. simpl List.length.
  cbn [confirm_loop]. unfold bind at 1. unfold input at 1. rewrite Hs.
  fold (answer line).
  destruct (String.eqb (answer line) "y"); [reflexivity|].
  destruct (String.eqb (answer line) "n" || String.eqb (answer line) "")%bool;
    [reflexivity|].
  destruct rest; reflexivity.
Qed.

(** ** Relations that every step of a computation maintains *)

Section Keeps.
Variable P : world -> world -> Prop.
Hypothesis P_refl : forall w, P w w.
Hypothesis P_trans : forall a b c, P a b -> P b c -> P a c.

Lemma keeps_ret {A} (a : A) : keeps P (ret a).
Proof. intros w; apply P_refl. Qed.

Lemma keeps_raise {A} k msg : keeps P (@raise A k msg).
Proof. intros w; apply P_refl. Qed.

Lemma keeps_lift {A} (r : res A) : keeps P (lift r).
Proof. intros w; apply P_refl. Qed.

Lemma keeps_bind {A B} (m : M A) (f : A -> M B) :
  keeps P m -> (forall a, keeps P (f a)) -> keeps P (bind m f).
Proof.
  intros Hm Hf w. unfold bind. specialize (Hm w).
  destruct (m w) as [[a|k msg] w1]; simpl in *; [|assumption].
  eapply P_trans; [eassumption|apply Hf].
Qed.

Lemma keeps_catch {A} (m : M A) (h : exn_kind -> string -> M A) :
  keeps P m -> (forall k msg, keeps P (h k msg)) -> keeps P (catch m h).
Proof.
  intros Hm Hh w. unfold catch. specialize (Hm w).
  destruct (m w) as [[a|k msg] w1]; simpl in *; [assumption|].
  eapply P_trans; [eassumption|apply Hh].
Qed.
End Keeps.

(** ** The actions leave standard input alone *)














(** ** C1: the action runs only behind a confirmed [y] *)








Lemma interactive_fix_eof pv s ss (w : world) :
  stdin w = [] ->
  interactive_fix pv (s :: ss) w = (Ret tt, log [Input AskChoice] w).
Proof.
  intros Hs. unfold interactive_fix, bind, catch, read_choice, bind, input.
  rewrite Hs. reflexivity.
Qed.

Lemma interactive_fix_line pv s ss (w : world) line rest :
  stdin w = line :: rest ->
  interactive_fix pv (s :: ss) w =
  match py_int (py_or (PStr (strip line)) (PStr "0")) with
  | Ret choice =>
      dispatch pv (s :: ss) choice (log [Input AskChoice] (set_stdin rest w))
  | Raise _ _ => (Ret tt, log [Input AskChoice] (set_stdin rest w))
  end.
Proof.
  intros Hs. unfold interactive_fix, bind, catch, read_choice, bind, input, lift.
  rewrite Hs. destruct (py_int _); reflexivity.
Qed.




(** ** kill_process, case by case *)

Lemma find_proc_pid n t p : find_proc n t = Some p -> p_pid p = n.
Proof.
  unfold find_proc. intros H. apply find_some in H. destruct H as [_ H].
  now apply Z.eqb_eq in H.
Qed.

Lemma find_proc_remove n t : find_proc n (remove_proc n t) = None.
Proof.
  unfold find_proc, remove_proc. induction t as [|q t IH]; simpl; [reflexivity|].
  destruct (p_pid q =? n) eqn:E; simpl; [assumption|].
  rewrite E. assumption.
Qed.

Lemma log_log ev1 ev2 w : log ev2 (log ev1 w) = log (ev1 ++ ev2) w.
Proof. unfold log. simpl. rewrite app_assoc. reflexivity. Qed.

Lemma kill_process_found pid n p (w : world) :
  py_int pid = Ret n -> 0 <= n -> find_proc n (table w) = Some p ->
  kill_process pid w = kill_outcome pid n p w.
Proof.
  intros Hint Hn Hf. pose proof (find_proc_pid _ _ _ Hf) as Hp.
  unfold kill_outcome, kill_process, catch, bind, lift, psutil_Process.
  rewrite Hint. replace (n <? 0) with false by (symmetry; apply Z.ltb_ge; lia).
  rewrite Hf. unfold proc_name. destruct (p_name p) as [name|]; [|reflexivity].
  unfold ret at 1. unfold terminate, request. rewrite Hp, Hf.
  destruct (on_terminate p).
  - unfold wait. simpl table. rewrite Hp, find_proc_remove. unfold ret.
    rewrite log_log. reflexivity.
  - unfold wait at 1. simpl table. rewrite Hp, Hf.
    unfold kill, request. simpl table. rewrite Hp, Hf.
    destruct (on_kill p).
    + unfold wait. simpl table. rewrite Hp, find_proc_remove. unfold ret.
      unfold log, set_table; simpl; rewrite <- !app_assoc; reflexivity.
    + unfold wait. simpl table. rewrite Hp, Hf.
      unfold log, set_table; simpl; rewrite <- !app_assoc; reflexivity.
    + unfold log, set_table; simpl; rewrite <- !app_assoc; reflexivity.
  - reflexivity.
Qed.

Lemma kill_process_missing pid n (w : world) :
  py_int pid = Ret n -> find_proc n (table w) = None ->
  exists err, kill_process pid w = (Ret (false, NotFound pid err), w).
Proof.
  intros Hint Hf.
  unfold kill_process, catch, bind, lift, psutil_Process.
  rewrite Hint, Hf. destruct (n <? 0); eexists; reflexivity.
Qed.

Lemma kill_process_bad_literal s (w : world) :
  int_of_str s = None ->
  exists err, kill_process (PStr s) w = (Ret (false, NotFound (PStr s) err), w).
Proof.
  intros H. unfold kill_process, catch, bind, lift. simpl. rewrite H.
  eexists; reflexivity.
Qed.

(** C4: for a process that is in the table, [kill_process] first requests
    termination and waits 5; if the process exits the outcome is the
    success [Terminated]; if the wait times out it kills and waits 3 more,
    and if the process exits then the outcome is the success [Killed].  A
    request refused for lack of privilege gives the failure outcome with the
    access-denied text (advice to run as Administrator), and no request or
    wait follows the refusal. *)
Theorem kill_process_escalation
  (pid : pyval) (n : Z) (p : proc) (name : string) (w : world) :
  py_int pid = Ret n -> 0 <= n -> find_proc n (table w) = Some p ->
  p_name p = Some name ->
  (on_terminate p = Exits ->
   kill_process pid w =
   (Ret (true, Terminated name pid),
    log [Terminate n; Wait n 5] (set_table (remove_proc n (table w)) w))) /\
  (on_terminate p = Ignores -> on_kill p = Exits ->
   kill_process pid w =
   (Ret (true, Killed name pid),
    log [Terminate n; Wait n 5; Kill n; Wait n 3]
        (set_table (remove_proc n (table w)) w))) /\
  (on_terminate p = Denied ->
   kill_process pid w =
   (Ret (false, Text access_denied_text), log [Terminate n] w)) /\
  (on_terminate p = Ignores -> on_kill p = Denied ->
   kill_process pid w =
   (Ret (false, Text access_denied_text),
    log [Terminate n; Wait n 5; Kill n] w)).
Proof.
  intros Hint Hn Hf Hname.
  rewrite (kill_process_found pid n p w Hint Hn Hf).
  unfold kill_outcome. rewrite Hname.
  repeat split; intros; repeat match goal with
                               | H : on_terminate p = _ |- _ => rewrite H; clear H
                               | H : on_kill p = _ |- _ => rewrite H; clear H
                               end; reflexivity.
Qed.

Lemma kill_process_escalation_witness :
  kill_process (PInt 11)
    (world_of [] [sample_proc 10 "chrome" 500 Exits Exits;
                  sample_proc 11 "hung" 300 Ignores Exits] []) =
  (Ret (true, Killed "hung" (PInt 11)),
   {| stdin := []; table := [sample_proc 10 "chrome" 500 Exits Exits];
      temp := []; clock := 1000;
      trace := [Terminate 11; Wait 11 5; Kill 11; Wait 11 3] |}).
Proof.
  apply (kill_process_escalation (PInt 11) 11
           (sample_proc 11 "hung" 300 Ignores Exits) "hung"
           (world_of [] [sample_proc 10 "chrome" 500 Exits Exits;
                         sample_proc 11 "hung" 300 Ignores Exits] []));
    try reflexivity.
  lia.
Defined.

Lemma kill_process_success_removes pid (w w' : world) m :
  kill_process pid w = (Ret (true, m), w') -> absent pid w'.
Proof.
  intros H n Hint.
  destruct (find_proc n (table w)) as [p|] eqn:Hf.
  - destruct (Z.ltb_spec n 0) as [Hneg|Hpos].
    + exfalso. revert H.
      unfold kill_process, catch, bind, lift, psutil_Process. rewrite Hint.
      replace (n <? 0) with true by (symmetry; apply Z.ltb_lt; lia).
      discriminate.
    + rewrite (kill_process_found pid n p w Hint Hpos Hf) in H.
      unfold kill_outcome in H.
      destruct (p_name p); [|discriminate].
      destruct (on_terminate p); [| |discriminate].
      * inversion H; subst. simpl. apply find_proc_remove.
      * destruct (on_kill p); try discriminate.
        inversion H; subst. simpl. apply find_proc_remove.
  - destruct (kill_process_missing pid n w Hint Hf) as [err E].
    rewrite E in H. discriminate.
Qed.

(** C5: for a PID (an integer, or the text typed at the prompt) that no row
    of the process table carries, or whose text is not an integer literal,
    [kill_process] returns the failure outcome [NotFound] and raises
    nothing, leaving the machine as it was; and after a successful
    [kill_process] a second call with the same PID returns [NotFound]. *)
Theorem kill_process_not_found (pid : pyval) (w : world) :
  pid_like pid ->
  (absent pid w ->
   exists err, kill_process pid w = (Ret (false, NotFound pid err), w)) /\
  (forall m w', kill_process pid w = (Ret (true, m), w') ->
   exists err, kill_process pid w' = (Ret (false, NotFound pid err), w')).
Proof.
  intros Hpid.
  assert (A : forall v, absent pid v ->
              exists err, kill_process pid v = (Ret (false, NotFound pid err), v)).
  { intros v Habs. destruct Hpid as [[z ->]|[s ->]].
    - apply (kill_process_missing (PInt z) z); [reflexivity|].
      apply Habs. reflexivity.
    - destruct (int_of_str s) as [z|] eqn:Hs.
      + apply (kill_process_missing (PStr s) z).
        * simpl. rewrite Hs. reflexivity.
        * apply Habs. simpl. rewrite Hs. reflexivity.
      + apply kill_process_bad_literal. assumption. }
  split; [apply A|].
  intros m w' H. apply A. eapply kill_process_success_removes. eassumption.
Qed.

Lemma kill_process_not_found_witness :
  (exists err,
     kill_process (PStr "12a") (world_of [] [sample_proc 10 "chrome" 500 Exits Exits] []) =
     (Ret (false, NotFound (PStr "12a") err),
      world_of [] [sample_proc 10 "chrome" 500 Exits Exits] [])) /\
  (forall m w',
     kill_process (PStr "12a") (world_of [] [sample_proc 10 "chrome" 500 Exits Exits] []) =
     (Ret (true, m), w') ->
     exists err, kill_process (PStr "12a") w' = (Ret (false, NotFound (PStr "12a") err), w')).
Proof.
  destruct (kill_process_not_found (PStr "12a")
              (world_of [] [sample_proc 10 "chrome" 500 Exits Exits] []))
    as [H1 H2].
  - right. exists "12a". reflexivity.
  - split; [|exact H2]. apply H1. intros n Hn. vm_compute in Hn. discriminate.
Defined.

(** ** Cleaning the temp area *)

Lemma Qltb_lt (x y : Q) : Qltb x y = true <-> (x < y)%Q.
Proof.
  unfold Qltb. rewrite negb_true_iff. split; intros H.
  - apply Qnot_le_lt. intros Hle. apply Qle_bool_iff in Hle. congruence.
  - destruct (Qle_bool y x) eqn:E; [|reflexivity].
    apply Qle_bool_iff in E. exfalso. eapply Qlt_not_le; eassumption.
Qed.

Lemma float_of_small (z : Z) :
  Z.abs z < float_limit -> py_float_of_int z = Ret (inject_Z z).
Proof.
  intros H. unfold py_float_of_int.
  replace (Z.abs z <? float_limit) with true by (symmetry; now apply Z.ltb_lt).
  reflexivity.
Qed.

Lemma float_of_zero : py_float_of_int 0 = Ret (inject_Z 0).
Proof. apply float_of_small. vm_compute. reflexivity. Qed.

(** The calls to [os.remove] are those for the files below the cutoff. *)
Lemma clean_files_removes cutoff root fs :
  snd (clean_files cutoff root fs) =
  map (fun f => Remove root (f_name f)) (filter (older cutoff) fs).
Proof.
  induction fs as [|f r IH]; [reflexivity|].
  simpl. destruct (clean_files cutoff root r) as [[[n b] kept] ev].
  simpl in IH. unfold older at 1.
  destruct (f_stat f) as [[m s]|]; [|assumption].
  destruct (Qltb m cutoff); [|assumption].
  destruct (f_removable f); simpl; now f_equal.
Qed.

Lemma clean_dirs_removes cutoff ds :
  snd (clean_dirs cutoff ds) = eligible cutoff ds.
Proof.
  induction ds as [|d r IH]; [reflexivity|].
  simpl. pose proof (clean_files_removes cutoff (d_root d) (d_files d)) as Hf.
  destruct (clean_files cutoff (d_root d) (d_files d)) as [[[n1 b1] kept] ev1].
  destruct (clean_dirs cutoff r) as [[[n2 b2] ds'] ev2].
  simpl in *. now rewrite Hf, IH.
Qed.

Lemma clean_user_temp_run pv days (w : world) :
  Z.abs (days * 86400) < float_limit ->
  let cutoff := (clock w - inject_Z (days * 86400))%Q in
  exists n b ds,
    clean_dirs cutoff (temp w) = (n, b, ds, eligible cutoff (temp w)) /\
    clean_user_temp pv days w =
    (Ret (n, b, temp_dir pv), log (eligible cutoff (temp w)) (set_temp ds w)).
Proof.
  intros H cutoff. unfold clean_user_temp. rewrite (float_of_small _ H).
  fold cutoff. pose proof (clean_dirs_removes cutoff (temp w)) as Hr.
  destruct (clean_dirs cutoff (temp w)) as [[[n b] ds] ev]. simpl in Hr. subst ev.
  exists n, b, ds. split; reflexivity.
Qed.

Lemma days_of_line (line : string) (days : Z) :
  int_of_str (strip line) = Some days ->
  py_int (py_or (PStr (strip line)) (PStr "3")) = Ret days.
Proof.
  intros H. unfold py_or. simpl.
  destruct (String.eqb (strip line) "") eqn:E.
  - apply String.eqb_eq in E. rewrite E in H. discriminate.
  - simpl. rewrite H. reflexivity.
Qed.

Lemma in_eligible cutoff ds d f m s :
  In d ds -> In f (d_files d) -> f_stat f = Some (m, s) -> (m < cutoff)%Q ->
  In (Remove (d_root d) (f_name f)) (eligible cutoff ds).
Proof.
  intros Hd Hf Hs Hm. unfold eligible. apply in_flat_map. exists d.
  split; [assumption|]. apply in_map_iff. exists f. split; [reflexivity|].
  apply filter_In. split; [assumption|]. unfold older. rewrite Hs.
  now apply Qltb_lt.
Qed.

(** C10 (within the float range): an integer typed at the days prompt, of
    either sign, is passed to [clean_user_temp] once the confirmation is
    [y]; the cutoff is [now - days * 86400]; the [os.remove] calls are
    exactly those for the files whose modification time is strictly below
    the cutoff; and for [days < 0] the cutoff is later than [now], so every
    file modified up to [now] is among them. *)
Theorem run_clean_cutoff
  (pv : provider) (w : world) (line : string) (rest : list string) (days : Z) :
  stdin w = line :: "y" :: rest ->
  int_of_str (strip line) = Some days ->
  Z.abs (days * 86400) < float_limit ->
  let cutoff := (clock w - inject_Z (days * 86400))%Q in
  exists w',
    run_clean pv w = (Ret tt, w') /\
    trace w' = (trace w ++ [Input AskDays; Input AskConfirm; Call (CleanUserTemp days)]
                        ++ eligible cutoff (temp w))%list /\
    (days < 0 ->
     (clock w < cutoff)%Q /\
     forall d f m s,
       In d (temp w) -> In f (d_files d) -> f_stat f = Some (m, s) ->
       (m <= clock w)%Q ->
       In (Remove (d_root d) (f_name f)) (eligible cutoff (temp w))).
Proof.
  intros Hs Hd Hr cutoff.
  set (w1 := log [Input AskDays] (set_stdin ("y" :: rest) w)).
  set (w2 := log [Input AskConfirm] (set_stdin rest w1)).
  set (w3 := log [Call (CleanUserTemp days)] w2).
  destruct (clean_user_temp_run pv days w3 Hr) as [n [b [ds [_ Hc]]]].
  simpl in Hc. fold cutoff in Hc.
  eexists. split; [|split].
  - unfold run_clean, bind at 1, input. rewrite Hs.
    rewrite (days_of_line line days Hd). fold w1.
    unfold bind at 1. rewrite (confirm_first_line w1 "y" rest eq_refl).
    change (String.eqb (answer "y") "y") with true. cbv iota. fold w2.
    unfold bind at 1, emit. fold w3. unfold bind, ret. rewrite Hc. reflexivity.
  - simpl. rewrite <- !app_assoc. reflexivity.
  - intros Hneg.
    assert (Hlt : (clock w < cutoff)%Q).
    { unfold cutoff.
      assert (Hz : (inject_Z (days * 86400) < 0)%Q).
      { change 0%Q with (inject_Z 0). rewrite <- Zlt_Qlt. lia. }
      lra. }
    split; [assumption|].
    intros d f m s Hin Hf Hst Hm.
    eapply in_eligible; eauto. lra.
Qed.

Lemma run_clean_cutoff_witness :
  exists w',
    run_clean quiet_provider
      (world_of ["-1"; "y"] []
         [{| d_root := "/tmp"; d_files := [sample_file "fresh.tmp" 1000 7 true] |}])
    = (Ret tt, w') /\
    In (Remove "/tmp" "fresh.tmp") (trace w').
Proof.
  destruct (run_clean_cutoff quiet_provider
              (world_of ["-1"; "y"] []
                 [{| d_root := "/tmp";
                     d_files := [sample_file "fresh.tmp" 1000 7 true] |}])
              "-1" [] (-1)) as [w' [H1 [H2 H3]]].
  - reflexivity.
  - reflexivity.
  - vm_compute. reflexivity.
  - exists w'. split; [exact H1|]. rewrite H2. vm_compute. tauto.
Defined.

(** C10 as stated fails for an integer beyond the float range: the prompt
    accepts the 311-digit text of 10^310, and [clean_user_temp] then raises
    [OverflowError] at the subtraction, before any file is looked at. *)
Lemma huge_days_overflow :
  let w := world_of [huge_days_line; "y"] []
             [{| d_root := "/tmp"; d_files := [sample_file "old.tmp" 1 7 true] |}] in
  int_of_str (strip huge_days_line) = Some (10 ^ 310) /\
  fst (run_clean quiet_provider w) =
    Raise OverflowError "int too large to convert to float" /\
  temp (snd (run_clean quiet_provider w)) = temp w /\
  trace (snd (run_clean quiet_provider w)) =
    [Input AskDays; Input AskConfirm; Call (CleanUserTemp (10 ^ 310))].
Proof.
  vm_compute. repeat split; reflexivity.
Qed.

Lemma clean_files_all cutoff root fs :
  Forall (old_and_removable cutoff) fs ->
  exists b ev, clean_files cutoff root fs = (Z.of_nat (List.length fs), b, [], ev).
Proof.
  induction 1 as [|f r [Hrm [m [s [Hs Hm]]]] _ IH].
  - exists 0, []. reflexivity.
  - destruct IH as [b [ev IH]].
    replace (Z.of_nat (List.length (f :: r))) with (1 + Z.of_nat (List.length r))
      by (simpl List.length; lia).
    cbn [clean_files]. rewrite IH, Hs, Hrm.
    apply Qltb_lt in Hm. rewrite Hm.
    exists (s + b), (Remove root (f_name f) :: ev). reflexivity.
Qed.

Lemma clean_dirs_all cutoff ds :
  Forall (old_and_removable cutoff) (all_files ds) ->
  exists b ds' ev,
    clean_dirs cutoff ds = (file_count ds, b, ds', ev) /\ all_files ds' = [].
Proof.
  unfold file_count, all_files.
  induction ds as [|d r IH]; intros H.
  - exists 0, [], []. split; reflexivity.
  - simpl in H. apply Forall_app in H. destruct H as [Hd Hr].
    destruct (clean_files_all cutoff (d_root d) _ Hd) as [b1 [ev1 E1]].
    destruct (IH Hr) as [b2 [ds' [ev2 [E2 Hempty]]]].
    simpl. rewrite E1, E2.
    exists (b1 + b2), ({| d_root := d_root d; d_files := [] |} :: ds'), (ev1 ++ ev2)%list.
    split; [|simpl; assumption].
    rewrite length_app, Nat2Z.inj_add. reflexivity.
Qed.

Lemma clean_files_nil cutoff root : clean_files cutoff root [] = (0, 0, [], []).
Proof. reflexivity. Qed.

Lemma clean_dirs_empty cutoff ds :
  all_files ds = [] ->
  exists ds', clean_dirs cutoff ds = (0, 0, ds', []) /\ all_files ds' = [].
Proof.
  unfold all_files. induction ds as [|d r IH]; intros H.
  - exists []. split; reflexivity.
  - simpl in H. apply app_eq_nil in H. destruct H as [Hd Hr].
    destruct (IH Hr) as [ds' [E Hempty]].
    simpl. rewrite Hd, E. simpl.
    exists ({| d_root := d_root d; d_files := [] |} :: ds').
    split; [reflexivity|simpl; assumption].
Qed.

(** C9 (for files that can be deleted): when every file of the temp area
    was last modified strictly before now and [os.stat] and [os.remove]
    succeed on it, [clean_user_temp(0)] deletes them all and reports their
    number; a second call, whatever the time then, deletes nothing, reports
    0 files and 0 bytes, and makes no [os.remove] call. *)
Theorem clean_user_temp_twice (pv : provider) (w : world) :
  Forall (old_and_removable (clock w)) (all_files (temp w)) ->
  exists bytes w1,
    clean_user_temp pv 0 w = (Ret (file_count (temp w), bytes, temp_dir pv), w1) /\
    all_files (temp w1) = [] /\
    forall now', exists w2,
      clean_user_temp pv 0 (set_clock now' w1) = (Ret (0, 0, temp_dir pv), w2) /\
      all_files (temp w2) = [] /\ trace w2 = trace w1.
Proof.
  intros H.
  assert (Hcut : Forall (old_and_removable (clock w - inject_Z (0 * 86400))%Q)
                        (all_files (temp w))).
  { eapply Forall_impl; [|exact H]. intros f [Hrm [m [s [Hs Hm]]]].
    split; [assumption|]. exists m, s. split; [assumption|].
    change (inject_Z (0 * 86400)) with 0%Q. lra. }
  destruct (clean_dirs_all _ _ Hcut) as [b [ds' [ev [E Hempty]]]].
  exists b, (log ev (set_temp ds' w)). split; [|split].
  - unfold clean_user_temp. change (0 * 86400) with 0. rewrite float_of_zero.
    change (0 * 86400) with 0 in E. rewrite E. reflexivity.
  - exact Hempty.
  - intros now'.
    destruct (clean_dirs_empty (now' - inject_Z 0)%Q ds' Hempty) as [ds2 [E2 Hempty2]].
    exists (log [] (set_temp ds2 (set_clock now' (log ev (set_temp ds' w))))).
    split; [|split].
    + unfold clean_user_temp. change (0 * 86400) with 0. rewrite float_of_zero.
      simpl clock. simpl temp. rewrite E2. reflexivity.
    + exact Hempty2.
    + simpl. apply app_nil_r.
Qed.

Lemma clean_user_temp_twice_witness :
  exists bytes w1,
    clean_user_temp quiet_provider 0
      (world_of [] []
         [{| d_root := "/tmp";
             d_files := [sample_file "a.tmp" 10 3 true; sample_file "b.tmp" 999 4 true] |}])
    = (Ret (2, bytes, "/tmp"), w1) /\ all_files (temp w1) = [].
Proof.
  destruct (clean_user_temp_twice quiet_provider
              (world_of [] []
                 [{| d_root := "/tmp";
                     d_files := [sample_file "a.tmp" 10 3 true;
                                 sample_file "b.tmp" 999 4 true] |}]))
    as [bytes [w1 [H1 [H2 _]]]].
  - simpl. repeat constructor; try (eexists; eexists; split; [reflexivity|]);
      reflexivity.
  - exists bytes, w1. split; [exact H1|exact H2].
Defined.

(** C9 as stated fails: a file older than now that [os.remove] refuses
    (in use, or not permitted) is skipped, so one old file yields a deleted
    count of 0 and stays in place. *)
Lemma locked_file_survives :
  let w := world_of [] []
             [{| d_root := "/tmp"; d_files := [sample_file "locked.tmp" 10 3 false] |}] in
  (10 < clock w)%Q /\
  file_count (temp w) = 1 /\
  fst (clean_user_temp quiet_provider 0 w) = Ret (0, 0, "/tmp") /\
  temp (snd (clean_user_temp quiet_provider 0 w)) = temp w.
Proof.
  vm_compute. repeat split; reflexivity.
Qed.

(** ** The ranking of processes by memory *)

Lemma in_firstn {A} (n : nat) (l : list A) (x : A) :
  In x (firstn n l) -> In x l.
Proof.
  intros H. rewrite <- (firstn_skipn n l). apply in_or_app. now left.
Qed.

Section SortedDesc.
Context {A : Type} (key : A -> Z).

Lemma insert_desc_perm x l : Permutation (insert_desc key x l) (x :: l).
Proof.
  induction l as [|h t IH]; simpl; [reflexivity|].
  destruct (key x <? key h); [|reflexivity].
  rewrite IH. apply perm_swap.
Qed.

Lemma sorted_desc_perm l : Permutation (sorted_desc key l) l.
Proof.
  induction l as [|x l IH]; simpl; [reflexivity|].
  rewrite insert_desc_perm. now constructor.
Qed.

Lemma insert_desc_descending x l :
  descending key l -> descending key (insert_desc key x l).
Proof.
  unfold descending. induction 1 as [|h t Ht IH Hh]; simpl.
  - repeat constructor.
  - destruct (Z.ltb_spec (key x) (key h)) as [Hlt|Hge].
    + constructor; [assumption|].
      eapply Permutation_Forall; [symmetry; apply insert_desc_perm|].
      constructor; [lia|assumption].
    + constructor; [now constructor|].
      constructor; [assumption|].
      eapply Forall_impl; [|exact Hh]. intros y Hy. simpl in Hy. lia.
Qed.

Lemma sorted_desc_descending l : descending key (sorted_desc key l).
Proof.
  induction l as [|x l IH]; simpl; [constructor|].
  now apply insert_desc_descending.
Qed.

Lemma insert_desc_with_key k x l :
  descending key l ->
  with_key key k (insert_desc key x l) = with_key key k (x :: l).
Proof.
  unfold descending, with_key. induction 1 as [|h t Ht IH Hh]; [reflexivity|].
  simpl. destruct (Z.ltb_spec (key x) (key h)) as [Hlt|Hge]; [|reflexivity].
  simpl. rewrite IH. simpl.
  destruct (Z.eqb_spec (key x) k) as [Hx|Hx]; [|reflexivity].
  destruct (Z.eqb_spec (key h) k) as [Hk|Hk]; [lia|reflexivity].
Qed.

(** The sort is stable: the elements that share a key come out in the
    order they went in. *)
Lemma sorted_desc_stable k l :
  with_key key k (sorted_desc key l) = with_key key k l.
Proof.
  induction l as [|x l IH]; [reflexivity|].
  simpl sorted_desc. rewrite insert_desc_with_key by apply sorted_desc_descending.
  unfold with_key in *. simpl. now rewrite IH.
Qed.

Lemma descending_firstn n l : descending key l -> descending key (firstn n l).
Proof.
  unfold descending. intros H. revert n.
  induction H as [|h t Ht IH Hh]; intros [|n]; simpl; try constructor.
  - apply IH.
  - rewrite Forall_forall in *. intros y Hy. apply Hh.
    eapply in_firstn; eassumption.
Qed.
End SortedDesc.

Lemma slice_to_firstn {A} (n : Z) (l : list A) :
  exists m, slice_to n l = firstn m l.
Proof. unfold slice_to. destruct (n <? 0); eexists; reflexivity. Qed.

(** The process list of the snapshot of [helpdesk.py] keeps the provider
    order among processes of equal memory. *)
Lemma top_processes_stable (table : list proc) (k : Z) :
  with_key mem_key k (sorted_desc mem_key (map proc_info table)) =
  with_key mem_key k (map proc_info table).
Proof. apply sorted_desc_stable. Qed.

(** C8: where the claim breaks.  Two processes of unknown memory, PIDs 1
    and 2 in provider order: [top_processes] of [helpdesk.py] keeps that
    order, while the ranking of [helpdesk_logging.py], which sorts the whole
    tuples in reverse, returns PID 2 before PID 1. *)
Theorem logging_ranking_reorders_ties :
  let t := [idle_proc 1 "a"; idle_proc 2 "b"] in
  top_processes quiet_provider t 5 =
    PList [proc_info (idle_proc 1 "a"); proc_info (idle_proc 2 "b")] /\
  HelpdeskLogging.ranked t = Ret [(0, 2, Some "b"); (0, 1, Some "a")].
Proof. split; reflexivity. Qed.

(** ** The rule engine on a snapshot of the expected shape *)

Lemma rmap_dicts {B} (f : pyval -> res B) (g : pyval -> B) (l : list pyval) :
  (forall d, f (PDict d) = Ret (g (PDict d))) ->
  forallb is_dict l = true -> rmap f l = Ret (map g l).
Proof.
  intros Hf. induction l as [|x r IH]; [reflexivity|].
  simpl. intros H. apply andb_true_iff in H. destruct H as [Hx Hr].
  destruct x; try discriminate. rewrite Hf. simpl. rewrite (IH Hr). reflexivity.
Qed.

Lemma proc_ok_dict l : forallb proc_ok l = true -> forallb is_dict l = true.
Proof.
  induction l as [|x r IH]; [reflexivity|]. simpl. intros H.
  apply andb_true_iff in H. destruct H as [Hx Hr].
  rewrite (IH Hr). destruct x; try discriminate. reflexivity.
Qed.

Lemma forallb_firstn {A} (f : A -> bool) n l :
  forallb f l = true -> forallb f (firstn n l) = true.
Proof.
  rewrite !forallb_forall. intros H x Hx. apply H. eapply in_firstn; eassumption.
Qed.

Lemma section_get d k dflt : py_get (PDict d) k dflt = Ret (section (PDict d) k dflt).
Proof. reflexivity. Qed.

Lemma getf_get d k : py_get (PDict d) k PNone = Ret (getf (PDict d) k).
Proof. reflexivity. Qed.

Lemma number_above_above v n : number_above v n = Ret (above v n).
Proof.
  unfold number_above, above. destruct v; simpl; reflexivity.
Qed.

Lemma section_dict d k :
  section_ok d k is_dict = true ->
  exists m, section (PDict d) k (PDict []) = PDict m.
Proof.
  unfold section_ok, section. destruct (assoc_get d k) as [v|]; [|eexists; reflexivity].
  destruct v; try discriminate. eexists; reflexivity.
Qed.

Lemma section_list d k ok :
  section_ok d k (list_of ok) = true ->
  exists l, section (PDict d) k (PList []) = PList l /\ forallb ok l = true.
Proof.
  unfold section_ok, section.
  destruct (assoc_get d k) as [v|]; [|exists []; split; reflexivity].
  destruct v; try discriminate. simpl. eexists; split; [reflexivity|assumption].
Qed.

Lemma memory_check_advise d :
  section_ok d "memory" is_dict = true ->
  section_ok d "top_processes" (list_of proc_ok) = true ->
  memory_check (PDict d) = Ret (advise_memory (PDict d)).
Proof.
  intros Hm Ht. unfold memory_check, advise_memory.
  rewrite section_get. cbn [rbind].
  destruct (section_dict d "memory" Hm) as [m Em]. rewrite Em.
  rewrite getf_get. cbn [rbind]. rewrite number_above_above. cbn [rbind].
  destruct (above (getf (PDict m) "percent") 80); [|reflexivity].
  rewrite section_get. cbn [rbind].
  destruct (section_list d "top_processes" proc_ok Ht) as [l [El Hl]]. rewrite El.
  cbn [py_slice_lit rbind py_iter items].
  assert (Hd : forallb is_dict (firstn 3 l) = true)
    by (apply proc_ok_dict, forallb_firstn, Hl).
  rewrite (rmap_dicts top_user_line top_user_of _ (fun _ => eq_refl) Hd).
  cbn [rbind].
  rewrite (rmap_dicts kill_suggestion kill_of _ (fun _ => eq_refl) Hd).
  reflexivity.
Qed.

Lemma cpu_check_advise d :
  section_ok d "cpu" is_dict = true ->
  cpu_check (PDict d) = Ret (advise_cpu (PDict d)).
Proof.
  intros Hc. unfold cpu_check, advise_cpu.
  rewrite section_get. cbn [rbind].
  destruct (section_dict d "cpu" Hc) as [m Em]. rewrite Em.
  rewrite getf_get. cbn [rbind]. rewrite number_above_above. reflexivity.
Qed.

Lemma disk_is_high_ok x :
  disk_ok x = true -> disk_is_high x = Ret (disk_high_b x).
Proof.
  unfold disk_ok, disk_is_high, disk_high_b.
  destruct x; try reflexivity. simpl.
  destruct (assoc_get d "percent") as [v|]; [|reflexivity].
  intros H. destruct (truthy v) eqn:Tv; [|reflexivity].
  simpl in H. destruct v; try discriminate; reflexivity.
Qed.

Lemma rfilter_disks l :
  forallb disk_ok l = true -> rfilter disk_is_high l = Ret (filter disk_high_b l).
Proof.
  induction l as [|x r IH]; [reflexivity|]. simpl. intros H.
  apply andb_true_iff in H. destruct H as [Hx Hr].
  rewrite (disk_is_high_ok x Hx), (IH Hr). simpl.
  destruct (disk_high_b x); reflexivity.
Qed.

Lemma disk_check_advise d :
  section_ok d "disks" (list_of disk_ok) = true ->
  disk_check (PDict d) = Ret (advise_disk (PDict d)).
Proof.
  intros Hd. unfold disk_check, advise_disk.
  rewrite section_get. cbn [rbind].
  destruct (section_list d "disks" disk_ok Hd) as [l [El Hl]]. rewrite El.
  cbn [py_iter rbind items]. rewrite (rfilter_disks l Hl). cbn [rbind].
  destruct (filter disk_high_b l); reflexivity.
Qed.

Lemma is_onedrive_ok x :
  proc_ok x = true -> is_onedrive x = Ret (onedrive_b x).
Proof.
  unfold proc_ok, is_onedrive, onedrive_b.
  destruct x; try discriminate. simpl.
  destruct (assoc_get d "name") as [v|]; [|reflexivity].
  intros H. unfold py_or. destruct (truthy v) eqn:Tv; [|reflexivity].
  simpl in H. destruct v; try discriminate; reflexivity.
Qed.

Lemma rany_onedrive l :
  forallb proc_ok l = true -> rany is_onedrive l = Ret (existsb onedrive_b l).
Proof.
  induction l as [|x r IH]; [reflexivity|]. simpl. intros H.
  apply andb_true_iff in H. destruct H as [Hx Hr].
  rewrite (is_onedrive_ok x Hx). simpl.
  destruct (onedrive_b x); [reflexivity|]. apply IH, Hr.
Qed.

Lemma onedrive_check_advise d :
  section_ok d "top_processes" (list_of proc_ok) = true ->
  onedrive_check (PDict d) = Ret (advise_onedrive (PDict d)).
Proof.
  intros Ht. unfold onedrive_check, advise_onedrive.
  rewrite section_get. cbn [rbind].
  destruct (section_list d "top_processes" proc_ok Ht) as [l [El Hl]]. rewrite El.
  cbn [py_iter rbind items]. rewrite (rany_onedrive l Hl). cbn [rbind].
  destruct (existsb onedrive_b l); reflexivity.
Qed.

Lemma network_check_advise d :
  section_ok d "pings" is_dict = true ->
  network_check (PDict d) = Ret (advise_network (PDict d)).
Proof.
  intros Hp. unfold network_check, advise_network.
  rewrite section_get. cbn [rbind].
  destruct (section_dict d "pings" Hp) as [m Em]. rewrite Em.
  destruct (map fst _); reflexivity.
Qed.

(** On a snapshot of the expected shape the rule engine returns, and what
    it returns is given by the five checks. *)
Lemma suggest_actions_advise report :
  snapshot_ok report = true -> suggest_actions report = Ret (advise report).
Proof.
  destruct report; try discriminate. simpl snapshot_ok. intros H.
  repeat (apply andb_true_iff in H; destruct H as [H ?]).
  unfold suggest_actions, advise.
  rewrite memory_check_advise, cpu_check_advise, disk_check_advise,
    onedrive_check_advise, network_check_advise by assumption.
  cbn [rbind].
  destruct (advise_memory (PDict d)), (advise_disk (PDict d)),
    (advise_onedrive (PDict d)). reflexivity.
Qed.

(** ** The snapshots of [run_checks] have the expected shape *)

Lemma proc_info_ok p : proc_ok (proc_info p) = true.
Proof.
  unfold proc_info, proc_ok. cbn. destruct (p_name p); cbn;
    [apply orb_true_r|reflexivity].
Qed.

Lemma snapshot_processes_ok table n :
  forallb proc_ok (slice_to n (sorted_desc mem_key (map proc_info table))) = true.
Proof.
  destruct (slice_to_firstn n (sorted_desc mem_key (map proc_info table))) as [m ->].
  apply forallb_firstn. apply forallb_forall. intros x Hx.
  apply (Permutation_in _ (sorted_desc_perm mem_key _)) in Hx.
  apply in_map_iff in Hx. destruct Hx as [p [<- _]]. apply proc_info_ok.
Qed.

Lemma partition_info_ok p : disk_ok (partition_info p) = true.
Proof.
  unfold partition_info. destruct (disk_usage p); cbn; [apply orb_true_r|reflexivity].
Qed.

Lemma run_checks_ok pv table a : snapshot_ok (run_checks pv table a) = true.
Proof.
  unfold run_checks. destruct (psutil_present pv); [|reflexivity].
  cbn -[top_processes disk_info].
  assert (Hc : is_dict (cpu_info pv) = true)
    by (unfold cpu_info; destruct (cpu_stat pv); reflexivity).
  assert (Hm : is_dict (memory_info pv) = true)
    by (unfold memory_info; destruct (virtual_memory pv); reflexivity).
  assert (Hd : list_of disk_ok (disk_info pv) = true).
  { unfold disk_info. destruct (disk_partitions pv) as [ps|k msg]; [|reflexivity].
    cbn. apply forallb_forall. intros x Hx. apply in_map_iff in Hx.
    destruct Hx as [p [<- _]]. apply partition_info_ok. }
  assert (Ht : list_of proc_ok (top_processes pv table (a_top_processes a)) = true).
  { unfold top_processes. destruct (process_iter_error pv); [reflexivity|].
    cbn. apply snapshot_processes_ok. }
  rewrite Hc, Hm, Hd, Ht. reflexivity.
Qed.

(** C7 (for snapshots whose disk entries carry a number or nothing in
    [percent]): on every snapshot of the expected shape, with any section
    missing or replaced by an error marker, [suggest_actions] returns; a
    memory or CPU percentage that is absent or not a number gives no finding
    of that category and no terminate suggestion; disk entries without a
    percentage give no disk finding and no clean-up suggestion; without
    ping results the network message is the "looks OK" one; and on the
    snapshot that is only a provider error marker the result has no alert
    and no suggestion. *)
Theorem suggest_actions_total (report : pyval) :
  snapshot_ok report = true ->
  exists fs ss,
    suggest_actions report = Ret (fs, ss) /\
    (is_number (getf (section report "memory" (PDict [])) "percent") = false ->
     In MemoryOk fs /\ (forall pct top, ~ In (MemoryHigh pct top) fs) /\
     filter is_kill ss = []) /\
    (is_number (getf (section report "cpu" (PDict [])) "cpu_percent_overall") = false ->
     In CpuOk fs /\ forall pct, ~ In (CpuHigh pct) fs) /\
    (Forall (fun d => truthy (getf d "percent") = false)
            (items (section report "disks" (PList []))) ->
     In DiskOk fs /\ (forall high, ~ In (DiskHigh high) fs) /\
     forall s, In s ss -> code s <> "clean_temp") /\
    (section report "pings" (PDict []) = PDict [] -> In NetworkOk fs) /\
    (forall msg, report = error_marker msg ->
     fs = [MemoryOk; CpuOk; DiskOk; NetworkOk] /\ ss = []).
Proof.
  intros Hok. exists (fst (advise report)), (snd (advise report)).
  split; [rewrite (suggest_actions_advise report Hok); now destruct (advise report)|].
  unfold advise. cbn [fst snd].
  assert (Ho : forall f, In f (fst (advise_onedrive report)) -> f = OneDriveRunning).
  { unfold advise_onedrive. destruct (existsb _ _); cbn; intros f Hf;
      [destruct Hf as [<-|[]]; reflexivity|destruct Hf]. }
  assert (Hos : forall s, In s (snd (advise_onedrive report)) -> code s = "stop_onedrive").
  { unfold advise_onedrive. destruct (existsb _ _); cbn; intros s Hs;
      [destruct Hs as [<-|[]]; reflexivity|destruct Hs]. }
  assert (Hn : (exists u, advise_network report = HostsUnreachable u)
               \/ advise_network report = NetworkOk).
  { unfold advise_network. destruct (section report "pings" (PDict [])); auto.
    destruct (map fst _); [auto|left; eexists; reflexivity]. }
  assert (Hcp : (exists p, advise_cpu report = CpuHigh p) \/ advise_cpu report = CpuOk).
  { unfold advise_cpu. destruct (above _ 85); [left; eexists; reflexivity|auto]. }
  assert (Hdk : (exists h, advise_disk report = (DiskHigh h, [{| code := "clean_temp"; text := CleanTemp; data := PNone |}]))
                \/ advise_disk report = (DiskOk, [])).
  { unfold advise_disk. destruct (filter _ _); [auto|left; eexists; reflexivity]. }
  assert (Hmm : (exists p t l, advise_memory report = (MemoryHigh p t, l))
                \/ advise_memory report = (MemoryOk, [])).
  { unfold advise_memory. destruct (above _ 80); [left; do 3 eexists; reflexivity|auto]. }
  assert (Tail : forall f, In f (fst (advise_onedrive report) ++ [advise_network report])%list ->
                 f = OneDriveRunning \/ f = advise_network report).
  { intros f Hf. apply in_app_or in Hf. destruct Hf as [Hf|[<-|[]]]; auto. }
  split; [|split; [|split; [|split]]].
  - intros Hnum.
    assert (E : advise_memory report = (MemoryOk, [])).
    { unfold advise_memory, above. rewrite Hnum. reflexivity. }
    rewrite E. cbn [fst snd]. split; [now left|]. split.
    + intros pct top [H|[H|[H|H]]]; try discriminate.
      * destruct Hcp as [[p Ep]|Ep]; rewrite Ep in H; discriminate.
      * destruct Hdk as [[h Eh]|Eh]; rewrite Eh in H; discriminate.
      * apply Tail in H. destruct H as [H|H]; [discriminate|].
        destruct Hn as [[u Eu]|Eu]; rewrite Eu in H; discriminate.
    + cbn [app]. rewrite filter_app.
      assert (F1 : filter is_kill (snd (advise_disk report)) = []).
      { destruct Hdk as [[h Eh]|Eh]; rewrite Eh; reflexivity. }
      assert (F2 : filter is_kill (snd (advise_onedrive report)) = []).
      { unfold advise_onedrive. destruct (existsb _ _); reflexivity. }
      rewrite F1, F2. reflexivity.
  - intros Hnum.
    assert (E : advise_cpu report = CpuOk).
    { unfold advise_cpu, above. rewrite Hnum. reflexivity. }
    rewrite E. split; [right; now left|].
    intros pct [H|[H|[H|H]]]; try discriminate.
    + destruct Hmm as [[p [t [l Em]]]|Em]; rewrite Em in H; discriminate.
    + destruct Hdk as [[h Eh]|Eh]; rewrite Eh in H; discriminate.
    + apply Tail in H. destruct H as [H|H]; [discriminate|].
      destruct Hn as [[u Eu]|Eu]; rewrite Eu in H; discriminate.
  - intros Hall.
    assert (E : advise_disk report = (DiskOk, [])).
    { unfold advise_disk.
      replace (filter disk_high_b (items (section report "disks" (PList [])))) with (@nil pyval);
        [reflexivity|].
      symmetry. induction Hall as [|x l Hx _ IH]; [reflexivity|].
      simpl. unfold disk_high_b at 1. rewrite Hx, andb_false_r. exact IH. }
    rewrite E. cbn [fst snd]. split; [right; right; now left|]. split.
    + intros high [H|[H|[H|H]]]; try discriminate.
      * destruct Hmm as [[p [t [l Em]]]|Em]; rewrite Em in H; discriminate.
      * destruct Hcp as [[p Ep]|Ep]; rewrite Ep in H; discriminate.
      * apply Tail in H. destruct H as [H|H]; [discriminate|].
        destruct Hn as [[u Eu]|Eu]; rewrite Eu in H; discriminate.
    + intros s Hs. cbn [app] in Hs. apply in_app_or in Hs. destruct Hs as [Hs|Hs].
      * unfold advise_memory in Hs. destruct (above _ 80); [|destruct Hs].
        cbn [snd] in Hs. apply in_map_iff in Hs. destruct Hs as [p [<- _]].
        discriminate.
      * rewrite (Hos s Hs). discriminate.
  - intros Hp. do 3 right. apply in_or_app. right.
    unfold advise_network. rewrite Hp. now left.
  - intros msg ->. split; reflexivity.
Qed.

Lemma suggest_actions_total_witness :
  exists fs ss,
    suggest_actions (error_marker psutil_missing) = Ret (fs, ss) /\
    fs = [MemoryOk; CpuOk; DiskOk; NetworkOk] /\ ss = [].
Proof.
  destruct (suggest_actions_total (error_marker psutil_missing) eq_refl)
    as [fs [ss [H [_ [_ [_ [_ He]]]]]]].
  exists fs, ss. split; [exact H|]. exact (He psutil_missing eq_refl).
Defined.

(** C7 as stated fails on non-numeric disk data: a disk entry whose
    [percent] is the string ["95"] passes the truth test and then meets
    [> 90], which raises [TypeError]; the disk check has no [isinstance]
    guard. *)
Lemma string_disk_percent_raises :
  suggest_actions (PDict [("disks", PList [PDict [("percent", PStr "95")]])]) =
  Raise TypeError "'>' not supported between these operands".
Proof. reflexivity. Qed.

(** A ping result that is an error marker counts as unreachable. *)
Lemma error_ping_is_unreachable :
  suggest_actions (PDict [("pings", PDict [("10.0.0.1", error_marker "timed out")])]) =
  Ret ([MemoryOk; CpuOk; DiskOk; HostsUnreachable ["10.0.0.1"]], []).
Proof. reflexivity. Qed.

(** ** The terminate suggestions are the top three by memory *)






(** ** The entry point *)

Lemma pretty_print_summary_run_checks pv table a :
  pretty_print_summary (run_checks pv table a) = Ret tt.
Proof.
  unfold run_checks. destruct (psutil_present pv); [|reflexivity].
  unfold pretty_print_summary.
  cbn -[top_processes cpu_info memory_info disk_info fold_left py_slice_lit
        py_iter rmap truthy].
  assert (Hc : exists m, cpu_info pv = PDict m)
    by (unfold cpu_info; destruct (cpu_stat pv); eexists; reflexivity).
  assert (Hm : exists m, memory_info pv = PDict m)
    by (unfold memory_info; destruct (virtual_memory pv); eexists; reflexivity).
  destruct Hc as [c ->]. destruct Hm as [m ->].
  cbn -[top_processes fold_left py_slice_lit py_iter rmap truthy].
  assert (Ht : exists l, top_processes pv table (a_top_processes a) = PList l
                         /\ forallb is_dict l = true).
  { unfold top_processes. destruct (process_iter_error pv).
    - eexists; split; reflexivity.
    - eexists; split; [reflexivity|]. apply proc_ok_dict, snapshot_processes_ok. }
  destruct Ht as [l [-> Hl]].
  cbn [py_slice_lit rbind py_iter].
  rewrite (rmap_dicts summary_line summary_of _ (fun _ => eq_refl)
             (forallb_firstn is_dict 5 l Hl)).
  cbn [rbind].
  destruct (truthy _); reflexivity.
Qed.

Lemma main_unfolded pv a (w : world) :
  let rep := run_checks pv (table w) a in
  let w1 := log (map Advice (fst (advise rep)) ++ [SaveReport (a_report a)]) w in
  main pv a w =
  if report_writable pv then
    if a_fix a then interactive_fix pv (snd (advise rep)) w1 else (Ret tt, w1)
  else (Raise OSError "cannot write the report", w1).
Proof.
  intros rep w1. unfold main. fold rep.
  unfold bind at 1, lift at 1. unfold rep at 1.
  rewrite pretty_print_summary_run_checks. fold rep.
  unfold bind at 1, lift at 1.
  rewrite (suggest_actions_advise rep (run_checks_ok pv (table w) a)).
  destruct (advise rep) as [findings suggestions]. cbn [fst snd] in *.
  unfold bind at 1. unfold bind at 1. unfold save_report, bind at 1, emit.
  rewrite log_log. fold w1.
  destruct (report_writable pv); [|reflexivity].
  unfold ret at 1. destruct (a_fix a); reflexivity.
Qed.




(** * Further properties of the code *)

(** ** The rule engine on any report *)

Lemma suggest_actions_parts report fs ss :
  suggest_actions report = Ret (fs, ss) ->
  exists fm sm fc fd sd fo so fn,
    memory_check report = Ret (fm, sm) /\ cpu_check report = Ret fc /\
    disk_check report = Ret (fd, sd) /\ onedrive_check report = Ret (fo, so) /\
    network_check report = Ret fn /\
    fs = (fm :: fc :: fd :: fo ++ [fn])%list /\ ss = (sm ++ sd ++ so)%list.
Proof.
  unfold suggest_actions.
  destruct (memory_check report) as [[fm sm]|]; [|discriminate].
  destruct (cpu_check report) as [fc|]; [|discriminate].
  destruct (disk_check report) as [[fd sd]|]; [|discriminate].
  destruct (onedrive_check report) as [[fo so]|]; [|discriminate].
  destruct (network_check report) as [fn|]; [|discriminate].
  cbn [rbind]. intros H. inversion H; subst.
  do 8 eexists. repeat split; reflexivity.
Qed.

Lemma rmap_length {A B} (f : A -> res B) l ys :
  rmap f l = Ret ys -> List.length ys = List.length l.
Proof.
  revert ys. induction l as [|x r IH]; intros ys H.
  - inversion H. reflexivity.
  - simpl in H. destruct (f x); [|discriminate].
    destruct (rmap f r) as [zs|]; [|discriminate].
    cbn [rbind] in H. inversion H; subst. simpl. f_equal. now apply IH.
Qed.

Lemma rmap_kill_codes l ks :
  rmap kill_suggestion l = Ret ks -> Forall (fun s => code s = "kill_process") ks.
Proof.
  revert ks. induction l as [|x r IH]; intros ks H.
  - inversion H. constructor.
  - simpl in H. destruct (kill_suggestion x) as [k|] eqn:Ek; [|discriminate].
    destruct (rmap kill_suggestion r) as [zs|]; [|discriminate].
    cbn [rbind] in H. inversion H; subst. constructor; [|now apply IH].
    unfold kill_suggestion in Ek.
    destruct (py_get x "name" PNone); [|discriminate].
    destruct (py_get x "pid" PNone); [|discriminate].
    cbn [rbind] in Ek. inversion Ek. reflexivity.
Qed.

Lemma top_slice_short tp top ps shown :
  py_slice_lit tp 3 = Ret top -> py_iter top = Ret ps ->
  rmap top_user_line ps = Ret shown -> (List.length ps <= 3)%nat.
Proof.
  intros Hs Hi Hr. destruct tp; try discriminate.
  - cbn [py_slice_lit] in Hs. inversion Hs; subst. cbn [py_iter] in Hi.
    destruct (substring 0 3 s) as [|c r].
    + inversion Hi. simpl. lia.
    + inversion Hi; subst. discriminate.
  - cbn [py_slice_lit] in Hs. injection Hs as <-. cbn [py_iter] in Hi.
    injection Hi as <-. destruct l as [|? [|? [|? ?]]]; simpl; lia.
Qed.

Lemma memory_check_parts report fm sm :
  memory_check report = Ret (fm, sm) ->
  (above (getf (section report "memory" (PDict [])) "percent") 80 = false ->
   fm = MemoryOk /\ sm = []) /\
  Forall (fun s => code s = "kill_process") sm /\ (List.length sm <= 3)%nat.
Proof.
  unfold memory_check. destruct report; try discriminate.
  rewrite section_get. cbn [rbind].
  destruct (section (PDict d) "memory" (PDict [])) as [| | | | | |m]; try discriminate.
  rewrite getf_get. cbn [rbind]. rewrite number_above_above. cbn [rbind].
  destruct (above (getf (PDict m) "percent") 80).
  - rewrite section_get. cbn [rbind].
    destruct (py_slice_lit _ 3) as [top|] eqn:Hs; [|discriminate]. cbn [rbind].
    destruct (py_iter top) as [ps|] eqn:Hi; [|discriminate]. cbn [rbind].
    destruct (rmap top_user_line ps) as [shown|] eqn:Hsh; [|discriminate].
    cbn [rbind].
    destruct (rmap kill_suggestion ps) as [ks|] eqn:Hk; [|discriminate].
    cbn [rbind]. intros H. inversion H; subst.
    split; [discriminate|]. split; [eapply rmap_kill_codes; eassumption|].
    rewrite (rmap_length _ _ _ Hk). eapply top_slice_short; eassumption.
  - intros H. inversion H; subst. repeat split; auto; simpl; lia.
Qed.

Lemma disk_check_parts report fd sd :
  disk_check report = Ret (fd, sd) ->
  (fd = DiskOk /\ sd = []) \/
  (exists high, high <> [] /\ fd = DiskHigh high /\ sd = [clean_suggestion]).
Proof.
  unfold disk_check.
  destruct (py_get report "disks" (PList [])) as [disks|]; [|discriminate].
  cbn [rbind]. destruct (py_iter disks) as [ds|]; [|discriminate]. cbn [rbind].
  destruct (rfilter disk_is_high ds) as [high|]; [|discriminate]. cbn [rbind].
  destruct high; intros H; inversion H; subst; [now left|right].
  eexists. split; [|split; reflexivity]. discriminate.
Qed.

Lemma onedrive_check_parts report fo so :
  onedrive_check report = Ret (fo, so) ->
  (fo = [] /\ so = []) \/ (fo = [OneDriveRunning] /\ so = [stop_suggestion]).
Proof.
  unfold onedrive_check.
  destruct (py_get report "top_processes" (PList [])) as [tp|]; [|discriminate].
  cbn [rbind]. destruct (py_iter tp) as [ps|]; [|discriminate]. cbn [rbind].
  destruct (rany is_onedrive ps) as [[|]|]; [| |discriminate];
    cbn [rbind]; intros H; inversion H; subst; auto.
Qed.

(** X1: whatever the report, when [suggest_actions] returns and the memory
    percentage is not a number above 80, the memory message is "looks okay"
    and no suggestion is a terminate suggestion. *)
Theorem memory_ok_no_terminate (report : pyval) fs ss :
  suggest_actions report = Ret (fs, ss) ->
  above (getf (section report "memory" (PDict [])) "percent") 80 = false ->
  In MemoryOk fs /\ filter is_kill ss = [].
Proof.
  intros H Hab.
  destruct (suggest_actions_parts _ _ _ H)
    as (fm & sm & fc & fd & sd & fo & so & fn & Hm & _ & Hd & Ho & _ & -> & ->).
  destruct (memory_check_parts _ _ _ Hm) as [Hok _].
  destruct (Hok Hab) as [-> ->].
  split; [now left|].
  cbn [app]. rewrite filter_app.
  destruct (disk_check_parts _ _ _ Hd) as [[_ ->]|[high [_ [_ ->]]]];
    destruct (onedrive_check_parts _ _ _ Ho) as [[_ ->]|[_ ->]]; reflexivity.
Qed.

Lemma memory_ok_no_terminate_witness :
  In MemoryOk [MemoryOk; CpuOk; DiskOk; NetworkOk] /\
  filter is_kill (@nil suggestion) = [].
Proof.
  apply (memory_ok_no_terminate
           (PDict [("memory", PDict [("percent", PInt 80)])])
           [MemoryOk; CpuOk; DiskOk; NetworkOk] []); reflexivity.
Defined.

(** X2: whatever the report, the suggestions that [suggest_actions] returns
    are, in this order, at most three terminate suggestions, at most one
    clean-up suggestion (however many disks are full) and at most one
    stop-OneDrive suggestion; the menu never has more than five entries. *)
Theorem suggestions_shape (report : pyval) fs ss :
  suggest_actions report = Ret (fs, ss) ->
  exists kills cleans stops,
    ss = (kills ++ cleans ++ stops)%list /\
    Forall (fun s => code s = "kill_process") kills /\
    (List.length kills <= 3)%nat /\
    (cleans = [] \/ cleans = [clean_suggestion]) /\
    (stops = [] \/ stops = [stop_suggestion]) /\
    (List.length ss <= 5)%nat.
Proof.
  intros H.
  destruct (suggest_actions_parts _ _ _ H)
    as (fm & sm & fc & fd & sd & fo & so & fn & Hm & _ & Hd & Ho & _ & -> & ->).
  destruct (memory_check_parts _ _ _ Hm) as [_ [Hk Hl]].
  exists sm, sd, so. split; [reflexivity|]. split; [assumption|].
  split; [assumption|].
  assert (Hsd : sd = [] \/ sd = [clean_suggestion]).
  { destruct (disk_check_parts _ _ _ Hd) as [[_ ->]|[high [_ [_ ->]]]]; auto. }
  assert (Hso : so = [] \/ so = [stop_suggestion]).
  { destruct (onedrive_check_parts _ _ _ Ho) as [[_ ->]|[_ ->]]; auto. }
  split; [assumption|]. split; [assumption|].
  rewrite !length_app.
  destruct Hsd as [-> | ->], Hso as [-> | ->]; simpl; lia.
Qed.

Lemma suggestions_shape_witness :
  exists kills cleans stops,
    [clean_suggestion] = (kills ++ cleans ++ stops)%list /\
    Forall (fun s => code s = "kill_process") kills /\
    (List.length kills <= 3)%nat /\
    (cleans = [] \/ cleans = [clean_suggestion]) /\
    (stops = [] \/ stops = [stop_suggestion]) /\
    (List.length [clean_suggestion] <= 5)%nat.
Proof.
  apply (suggestions_shape
           (PDict [("disks", PList [PDict [("percent", PInt 95)];
                                    PDict [("percent", PFloat 99)]])])
           [MemoryOk; CpuOk;
            DiskHigh [PDict [("percent", PInt 95)]; PDict [("percent", PFloat 99)]];
            NetworkOk]
           [clean_suggestion]).
  reflexivity.
Defined.

(** ** What an action adds to the trace *)

Section Emits.
Variable ok : event -> bool.

Lemma emits_refl w : emits ok w w.
Proof. exists []. split; [now rewrite app_nil_r|reflexivity]. Qed.

Lemma emits_trans a b c : emits ok a b -> emits ok b c -> emits ok a c.
Proof.
  intros [e1 [H1 F1]] [e2 [H2 F2]]. exists (e1 ++ e2)%list. split.
  - rewrite H2, H1, app_assoc. reflexivity.
  - rewrite forallb_app, F1, F2. reflexivity.
Qed.

Lemma emits_log ev w w0 :
  forallb ok ev = true -> trace w0 = trace w -> emits ok w (log ev w0).
Proof. intros H E. exists ev. simpl. rewrite E. auto. Qed.
End Emits.

Lemma emits_weaken (ok ok' : event -> bool) w w' :
  (forall e, ok e = true -> ok' e = true) -> emits ok w w' -> emits ok' w w'.
Proof.
  intros H [ev [E F]]. exists ev. split; [assumption|].
  rewrite forallb_forall in *. auto.
Qed.

Ltac emits_step ok :=
  first
    [ apply (keeps_ret _ (emits_refl ok))
    | apply (keeps_raise _ (emits_refl ok))
    | apply (keeps_lift _ (emits_refl ok))
    | apply (keeps_bind _ (emits_trans ok)); [|intros ?]
    | apply (keeps_catch _ (emits_trans ok)); [|intros ? ?] ].

Lemma psutil_Process_emits ok n : keeps (emits ok) (psutil_Process n).
Proof.
  intros w. unfold psutil_Process.
  destruct (n <? 0); [apply emits_refl|].
  destruct (find_proc n (table w)); apply emits_refl.
Qed.

Lemma proc_name_emits ok p : keeps (emits ok) (proc_name p).
Proof. intros w. unfold proc_name. destruct (p_name p); apply emits_refl. Qed.

Lemma request_emits ok e a p : ok e = true -> keeps (emits ok) (request e a p).
Proof.
  intros He w. unfold request.
  destruct (find_proc (p_pid p) (table w)); [destruct a|];
    apply emits_log; simpl; try rewrite He; reflexivity.
Qed.

Lemma wait_emits ok p t : ok (Wait (p_pid p) t) = true -> keeps (emits ok) (wait p t).
Proof.
  intros He w. unfold wait.
  destruct (find_proc (p_pid p) (table w));
    apply emits_log; simpl; try rewrite He; reflexivity.
Qed.

Lemma kill_process_emits pid : keeps (emits process_event) (kill_process pid).
Proof.
  unfold kill_process, terminate, kill.
  repeat first
    [ apply psutil_Process_emits | apply proc_name_emits
    | apply request_emits; reflexivity | apply wait_emits; reflexivity
    | emits_step process_event
    | match goal with |- keeps _ (match ?x with _ => _ end) => destruct x end ].
Qed.

Lemma stop_each_emits ps : keeps (emits graceful_event) (stop_each ps).
Proof.
  induction ps as [|p r IH]; simpl.
  - emits_step graceful_event.
  - unfold terminate.
    repeat first
      [ apply IH
      | apply request_emits; reflexivity | apply wait_emits; reflexivity
      | emits_step graceful_event
      | match goal with |- keeps _ (match ?x with _ => _ end) => destruct x end
      | match goal with |- keeps _ (if ?x then _ else _) => destruct x end ].
Qed.

(** ** kill_process: every argument, and what happens to the table *)

Lemma in_remove_proc n t q :
  In q (remove_proc n t) <-> In q t /\ p_pid q <> n.
Proof.
  unfold remove_proc. rewrite filter_In, negb_true_iff, Z.eqb_neq. reflexivity.
Qed.

Ltac unchanged_world :=
  repeat split; try reflexivity; left; split; reflexivity.

Lemma kill_process_result pid (w : world) :
  exists ok m w',
    kill_process pid w = (Ret (ok, m), w') /\
    stdin w' = stdin w /\ temp w' = temp w /\ clock w' = clock w /\
    ((ok = false /\ table w' = table w) \/
     (ok = true /\ exists n p,
        py_int pid = Ret n /\ find_proc n (table w) = Some p /\
        table w' = remove_proc n (table w))).
Proof.
  destruct (py_int pid) as [n|k msg] eqn:Hint.
  - destruct (Z.ltb_spec n 0) as [Hneg|Hpos].
    + exists false. eexists. exists w. split; [|unchanged_world].
      unfold kill_process, catch, bind, lift, psutil_Process. rewrite Hint.
      replace (n <? 0) with true by (symmetry; apply Z.ltb_lt; lia).
      reflexivity.
    + destruct (find_proc n (table w)) as [p|] eqn:Hf.
      * rewrite (kill_process_found pid n p w Hint Hpos Hf). unfold kill_outcome.
        destruct (p_name p) as [name|];
          [|exists false; eexists; eexists; split; [reflexivity|unchanged_world]].
        destruct (on_terminate p).
        -- exists true. eexists. eexists. split; [reflexivity|].
           repeat split; try reflexivity. right. split; [reflexivity|].
           exists n, p. auto.
        -- destruct (on_kill p).
           ++ exists true. eexists. eexists. split; [reflexivity|].
              repeat split; try reflexivity. right. split; [reflexivity|].
              exists n, p. auto.
           ++ exists false. eexists. eexists. split; [reflexivity|unchanged_world].
           ++ exists false. eexists. eexists. split; [reflexivity|unchanged_world].
        -- exists false. eexists. eexists. split; [reflexivity|unchanged_world].
      * destruct (kill_process_missing pid n w Hint Hf) as [err E].
        exists false. eexists. exists w. split; [exact E|unchanged_world].
  - exists false.
    assert (E : exists m, kill_process pid w = (Ret (false, m), w)).
    { unfold kill_process, catch, bind, lift. rewrite Hint.
      destruct k; eexists; reflexivity. }
    destruct E as [m E]. exists m, w. split; [exact E|unchanged_world].
Qed.

(** X3: [kill_process] returns an outcome for every argument (it never
    raises); it leaves standard input and the temp area alone, adds only
    terminate, wait and kill calls to the trace, and every process whose PID
    is not the one asked for is still in the table afterwards. *)
Theorem kill_process_total (pid : pyval) (w : world) :
  exists r w',
    kill_process pid w = (Ret r, w') /\
    stdin w' = stdin w /\ temp w' = temp w /\
    emits process_event w w' /\
    (forall q, In q (table w') -> In q (table w)) /\
    (forall q, In q (table w) ->
       (forall n, py_int pid = Ret n -> p_pid q <> n) -> In q (table w')).
Proof.
  destruct (kill_process_result pid w)
    as (ok & m & w' & E & Hs & Ht & _ & Htab).
  exists (ok, m), w'. split; [exact E|]. split; [exact Hs|]. split; [exact Ht|].
  split.
  { pose proof (kill_process_emits pid w) as He. rewrite E in He. exact He. }
  destruct Htab as [[_ ->]|[_ (n & p & Hint & _ & ->)]].
  - split; auto.
  - split.
    + intros q Hq. apply in_remove_proc in Hq. tauto.
    + intros q Hq Hne. apply in_remove_proc. split; [assumption|].
      now apply Hne.
Qed.

(** X4: the outcome of [kill_process] tells the truth about the table: when
    it reports success the PID named a process that was in the table and is
    not in it any more; when it reports failure the table is unchanged. *)
Theorem kill_process_honest (pid : pyval) (w w' : world) (ok : bool) (m : message) :
  kill_process pid w = (Ret (ok, m), w') ->
  (ok = true ->
   exists n p, py_int pid = Ret n /\ find_proc n (table w) = Some p /\
               find_proc n (table w') = None) /\
  (ok = false -> table w' = table w).
Proof.
  intros H.
  destruct (kill_process_result pid w)
    as (ok0 & m0 & w0 & E & _ & _ & _ & Htab).
  rewrite E in H. inversion H; subst.
  destruct Htab as [[-> Ht]|[-> (n & p & Hint & Hf & Ht)]].
  - split; [discriminate|auto].
  - split; [|discriminate]. intros _. exists n, p.
    split; [assumption|]. split; [assumption|].
    rewrite Ht. apply find_proc_remove.
Qed.

Lemma kill_process_honest_witness :
  (true = true ->
   exists n p, py_int (PStr " 11 ") = Ret n /\
               find_proc n scenario_table = Some p /\
               find_proc n (remove_proc 11 scenario_table) = None) /\
  (true = false -> remove_proc 11 scenario_table = scenario_table).
Proof.
  apply (kill_process_honest (PStr " 11 ") (world_of [] scenario_table [])
           (log [Terminate 11; Wait 11 5]
                (set_table (remove_proc 11 scenario_table)
                           (world_of [] scenario_table [])))
           true (Terminated "onedrive" (PStr " 11 "))).
  reflexivity.
Defined.

(** ** stop_onedrive_processes *)





(** ** clean_user_temp: the exact effect *)

Lemma clean_files_effect cutoff root fs :
  clean_files cutoff root fs =
  (Z.of_nat (List.length (filter (deleted_by cutoff) fs)),
   total_size (filter (deleted_by cutoff) fs),
   filter (fun f => negb (deleted_by cutoff f)) fs,
   map (fun f => Remove root (f_name f)) (filter (older cutoff) fs)).
Proof.
  induction fs as [|f r IH]; [reflexivity|].
  cbn [clean_files filter]. rewrite IH.
  assert (Ho : older cutoff f =
               match f_stat f with Some (m, _) => Qltb m cutoff | None => false end)
    by reflexivity.
  assert (Hd : deleted_by cutoff f = older cutoff f && f_removable f)
    by reflexivity.
  rewrite Hd, Ho. clear Hd Ho.
  destruct (f_stat f) as [[m s]|] eqn:Hs; [|reflexivity].
  destruct (Qltb m cutoff); [|reflexivity].
  destruct (f_removable f); cbn [andb negb]; [|reflexivity].
  cbn [List.length total_size fold_right map]. unfold size_of at 1. rewrite Hs.
  rewrite Nat2Z.inj_succ, <- Z.add_1_l. reflexivity.
Qed.

Lemma total_size_app l1 l2 :
  total_size (l1 ++ l2) = total_size l1 + total_size l2.
Proof.
  induction l1 as [|x l IH]; simpl; [reflexivity|]. rewrite IH. lia.
Qed.

Lemma clean_dirs_effect cutoff ds :
  clean_dirs cutoff ds =
  (Z.of_nat (List.length (filter (deleted_by cutoff) (all_files ds))),
   total_size (filter (deleted_by cutoff) (all_files ds)),
   map (swept cutoff) ds, eligible cutoff ds).
Proof.
  unfold all_files, eligible.
  induction ds as [|d r IH]; [reflexivity|].
  cbn [clean_dirs flat_map map]. rewrite clean_files_effect, IH.
  rewrite !filter_app, length_app, Nat2Z.inj_add, total_size_app.
  reflexivity.
Qed.

(** X6: for a number of days within the float range [clean_user_temp]
    returns; the count and the bytes it reports are the number and the total
    size of the files that are readable, older than the cutoff and
    removable; afterwards every directory is still there and holds exactly
    its other files, in their order. *)
Theorem clean_user_temp_effect (pv : provider) (days : Z) (w : world) :
  Z.abs (days * 86400) < float_limit ->
  let cutoff := (clock w - inject_Z (days * 86400))%Q in
  let gone := filter (deleted_by cutoff) (all_files (temp w)) in
  clean_user_temp pv days w =
  (Ret (Z.of_nat (List.length gone), total_size gone, temp_dir pv),
   log (eligible cutoff (temp w)) (set_temp (map (swept cutoff) (temp w)) w)).
Proof.
  intros H cutoff gone. unfold clean_user_temp. rewrite (float_of_small _ H).
  fold cutoff. rewrite clean_dirs_effect. reflexivity.
Qed.

Lemma clean_user_temp_effect_witness :
  clean_user_temp quiet_provider 1
    (world_of [] []
       [{| d_root := "/tmp";
           d_files := [sample_file "old.tmp" (-90000) 3 true;
                       sample_file "busy.tmp" (-90000) 5 false;
                       sample_file "new.tmp" 999 4 true] |}])
  = (Ret (1, 3, "/tmp"),
     {| stdin := []; table := [];
        temp := [{| d_root := "/tmp";
                    d_files := [sample_file "busy.tmp" (-90000) 5 false;
                                sample_file "new.tmp" 999 4 true] |}];
        clock := 1000;
        trace := [Remove "/tmp" "old.tmp"; Remove "/tmp" "busy.tmp"] |}).
Proof.
  apply (clean_user_temp_effect quiet_provider 1
           (world_of [] []
              [{| d_root := "/tmp";
                  d_files := [sample_file "old.tmp" (-90000) 3 true;
                              sample_file "busy.tmp" (-90000) 5 false;
                              sample_file "new.tmp" 999 4 true] |}])).
  vm_compute. reflexivity.
Defined.

Lemma all_files_swept cutoff ds :
  all_files (map (swept cutoff) ds) =
  filter (fun f => negb (deleted_by cutoff f)) (all_files ds).
Proof.
  unfold all_files. induction ds as [|d r IH]; [reflexivity|].
  simpl. rewrite filter_app, IH. reflexivity.
Qed.

Lemma filter_split_length {A} (f : A -> bool) (l : list A) :
  (List.length l =
   List.length (filter f l) + List.length (filter (fun x => negb (f x)) l))%nat.
Proof.
  induction l as [|x r IH]; [reflexivity|].
  simpl. destruct (f x); simpl; lia.
Qed.

(** X7: what [clean_user_temp] never does, for a number of days within the
    float range: it removes no directory; it creates no file; a file that is
    unreadable, or not removable, or not older than the cutoff (for
    [days >= 0]: any file modified now or later) is still there; the files
    reported deleted and the files left add up to the files before; and the
    process table and standard input are not touched. *)
Theorem clean_user_temp_keeps (pv : provider) (days : Z) (w : world) :
  Z.abs (days * 86400) < float_limit ->
  let cutoff := (clock w - inject_Z (days * 86400))%Q in
  exists n b w',
    clean_user_temp pv days w = (Ret (n, b, temp_dir pv), w') /\
    map d_root (temp w') = map d_root (temp w) /\
    file_count (temp w) = n + file_count (temp w') /\
    (forall f, In f (all_files (temp w')) -> In f (all_files (temp w))) /\
    (forall f, In f (all_files (temp w)) ->
       f_stat f = None \/ f_removable f = false \/
       (exists m s, f_stat f = Some (m, s) /\ (cutoff <= m)%Q) ->
       In f (all_files (temp w'))) /\
    (0 <= days ->
     forall f m s, In f (all_files (temp w)) -> f_stat f = Some (m, s) ->
                   (clock w <= m)%Q -> In f (all_files (temp w'))) /\
    table w' = table w /\ stdin w' = stdin w.
Proof.
  intros H cutoff.
  assert (Hkeep : forall f, In f (all_files (temp w)) ->
            f_stat f = None \/ f_removable f = false \/
            (exists m s, f_stat f = Some (m, s) /\ (cutoff <= m)%Q) ->
            In f (all_files (map (swept cutoff) (temp w)))).
  { intros f Hf Hwhy. rewrite all_files_swept. apply filter_In.
    split; [assumption|]. apply negb_true_iff. unfold deleted_by, older.
    destruct Hwhy as [Hn|[Hr|[m [s [Hs Hm]]]]].
    - rewrite Hn. reflexivity.
    - rewrite Hr. apply andb_false_r.
    - rewrite Hs. destruct (Qltb m cutoff) eqn:E; [|reflexivity].
      apply Qltb_lt in E. exfalso. eapply Qlt_not_le; eassumption. }
  do 3 eexists. split; [unfold clean_user_temp; rewrite (float_of_small _ H);
                        fold cutoff; rewrite clean_dirs_effect; reflexivity|].
  cbn [temp table stdin log set_temp].
  split; [rewrite map_map; reflexivity|].
  split.
  { unfold file_count. rewrite all_files_swept.
    rewrite (filter_split_length (deleted_by cutoff) (all_files (temp w))) at 1.
    rewrite Nat2Z.inj_add. reflexivity. }
  split.
  { intros f Hf. rewrite all_files_swept in Hf. apply filter_In in Hf. tauto. }
  split; [exact Hkeep|].
  split; [|split; reflexivity].
  intros Hd f m s Hf Hs Hm. apply Hkeep; [assumption|].
  right. right. exists m, s. split; [assumption|].
  unfold cutoff.
  assert (Hz : (0 <= inject_Z (days * 86400))%Q).
  { change 0%Q with (inject_Z 0). rewrite <- Zle_Qle. lia. }
  lra.
Qed.

Lemma clean_user_temp_keeps_witness :
  exists n b w',
    clean_user_temp quiet_provider 0
      (world_of [] []
         [{| d_root := "/tmp"; d_files := [sample_file "now.tmp" 1000 4 true] |}])
    = (Ret (n, b, "/tmp"), w') /\
    In (sample_file "now.tmp" 1000 4 true) (all_files (temp w')).
Proof.
  destruct (clean_user_temp_keeps quiet_provider 0
              (world_of [] []
                 [{| d_root := "/tmp";
                     d_files := [sample_file "now.tmp" 1000 4 true] |}]))
    as (n & b & w' & E & _ & _ & _ & _ & Hnow & _).
  - vm_compute. reflexivity.
  - exists n, b, w'. split; [exact E|].
    apply (Hnow ltac:(lia) _ 1000%Q 4); [simpl; auto|reflexivity|].
    simpl. apply Qle_refl.
Defined.

(** ** The confirmation loop, line by line *)

(** X8: [confirm] skips every line that is neither [y], [n] nor blank (after
    stripping and lowering), decides on the first line that is, returns
    [True] exactly when that line is [y], and has then read those lines and
    no more, with one prompt per line. *)
Theorem confirm_skips_junk (junk : list string) (line : string)
  (rest : list string) : forall w : world,
  stdin w = (junk ++ line :: rest)%list ->
  forallb (fun l => negb (decisive l)) junk = true ->
  decisive line = true ->
  confirm w =
  (Ret (String.eqb (answer line) "y"),
   log (repeat (Input AskConfirm) (S (List.length junk))) (set_stdin rest w)).
Proof.
  induction junk as [|j junk IH]; intros w Hs Hj Hl.
  - simpl in Hs. rewrite (confirm_first_line w line rest Hs).
    unfold decisive in Hl.
    destruct (String.eqb (answer line) "y"); [reflexivity|].
    simpl in Hl. rewrite Hl. reflexivity.
  - simpl in Hs, Hj. apply andb_true_iff in Hj. destruct Hj as [Hj Hjunk].
    rewrite (confirm_first_line w j _ Hs).
    unfold decisive in Hj. apply negb_true_iff in Hj.
    apply orb_false_iff in Hj. destruct Hj as [Hj H3].
    apply orb_false_iff in Hj. destruct Hj as [H1 H2].
    rewrite H1, H2, H3. cbn [orb].
    rewrite (IH (log [Input AskConfirm] (set_stdin (junk ++ line :: rest) w))
               eq_refl Hjunk Hl).
    f_equal. unfold log, set_stdin. simpl. rewrite <- app_assoc. reflexivity.
Qed.

Lemma confirm_skips_junk_witness :
  confirm (world_of ["maybe"; "yes"; " N "; "y"] [] []) =
  (Ret false,
   log (repeat (Input AskConfirm) 3)
       (set_stdin ["y"] (world_of ["maybe"; "yes"; " N "; "y"] [] []))).
Proof.
  apply (confirm_skips_junk ["maybe"; "yes"] " N " ["y"]
           (world_of ["maybe"; "yes"; " N "; "y"] [] [])); reflexivity.
Defined.

(** ** The end of input *)

Lemma confirm_eof (w : world) :
  stdin w = [] ->
  confirm w = (Raise EOFError "EOF when reading a line", log [Input AskConfirm] w).
Proof.
  intros Hs. unfold confirm. rewrite Hs. simpl. unfold bind, input.
  rewrite Hs. reflexivity.
Qed.

(** X9: the end of standard input is handled at the selection prompt only:
    with no line at all the fix menu returns normally, but when the only
    line selects one of the three actions, the prompt that follows (PID,
    days or confirmation) raises [EOFError], which nothing catches; no
    action has run by then. *)
Theorem fix_menu_end_of_input
  (pv : provider) (s : suggestion) (ss : list suggestion) (w : world)
  (line : string) (c : Z) (action : suggestion) :
  stdin w = [line] ->
  int_of_str (strip line) = Some c ->
  1 <= c ->
  nth_error (s :: ss) (Z.to_nat (c - 1)) = Some action ->
  known_code action = true ->
  interactive_fix pv (s :: ss) (set_stdin [] w) =
    (Ret tt, log [Input AskChoice] (set_stdin [] w)) /\
  exists p,
    interactive_fix pv (s :: ss) w =
    (Raise EOFError "EOF when reading a line",
     log [Input AskChoice; Input p] (set_stdin [] w)).
Proof.
  intros Hs Hc H1 Hn Hk.
  split; [apply interactive_fix_eof; reflexivity|].
  rewrite (interactive_fix_line pv s ss w line [] Hs), choice_of_line.
  destruct (String.eqb (strip line) "") eqn:He.
  { apply String.eqb_eq in He. rewrite He in Hc. discriminate. }
  rewrite Hc. unfold dispatch.
  replace (c =? 0) with false by (symmetry; apply Z.eqb_neq; lia).
  assert (Hlen : c <= Z.of_nat (List.length (s :: ss))).
  { assert (Hsome : nth_error (s :: ss) (Z.to_nat (c - 1)) <> None) by congruence.
    apply nth_error_Some in Hsome. lia. }
  replace (1 <=? c) with true by (symmetry; apply Z.leb_le; lia).
  replace (c <=? Z.of_nat (List.length (s :: ss))) with true
    by (symmetry; apply Z.leb_le; lia).
  cbn [andb negb]. rewrite Hn.
  set (w1 := log [Input AskChoice] (set_stdin [] w)).
  assert (Hw1 : stdin w1 = []) by reflexivity.
  assert (Hdone : forall p,
            log [Input p] w1 = log [Input AskChoice; Input p] (set_stdin [] w)).
  { intros p. unfold w1. rewrite log_log. reflexivity. }
  unfold known_code in Hk.
  destruct (String.eqb (code action) "kill_process").
  - unfold run_kill. destruct (data action) eqn:Hd;
      try (exists AskConfirm; unfold bind at 1, ret at 1;
           unfold bind at 1; rewrite (confirm_eof w1 Hw1), Hdone; reflexivity).
    exists AskPid. unfold bind, input. rewrite Hw1, Hdone. reflexivity.
  - destruct (String.eqb (code action) "clean_temp").
    + exists AskDays. unfold run_clean, bind, input. rewrite Hw1, Hdone. reflexivity.
    + destruct (String.eqb (code action) "stop_onedrive"); [|discriminate].
      exists AskConfirm. unfold run_stop, bind.
      rewrite (confirm_eof w1 Hw1), Hdone. reflexivity.
Qed.

Lemma fix_menu_end_of_input_witness :
  interactive_fix quiet_provider menu3 (set_stdin [] (world_of ["3"] [] [])) =
    (Ret tt, log [Input AskChoice] (set_stdin [] (world_of ["3"] [] []))) /\
  exists p,
    interactive_fix quiet_provider menu3 (world_of ["3"] [] []) =
    (Raise EOFError "EOF when reading a line",
     log [Input AskChoice; Input p] (set_stdin [] (world_of ["3"] [] []))).
Proof.
  apply (fix_menu_end_of_input quiet_provider _ _ (world_of ["3"] [] []) "3" 3
           {| code := "stop_onedrive"; text := StopOneDrive; data := PNone |});
    try reflexivity.
  lia.
Defined.

(** ** One action at most, and none without a [y] *)

Lemma keeps_compose (P Q R : world -> world -> Prop) {A B}
  (m : M A) (f : A -> M B) :
  (forall a b c, P a b -> Q b c -> R a c) ->
  (forall a b, P a b -> R a b) ->
  keeps P m -> (forall x, keeps Q (f x)) -> keeps R (bind m f).
Proof.
  intros Hpq Hp Hm Hf w. unfold bind. specialize (Hm w).
  destruct (m w) as [[a|k msg] w1]; simpl in *.
  - eapply Hpq; [eassumption|apply Hf].
  - now apply Hp.
Qed.

Lemma keeps_weaken (ok ok' : event -> bool) {A} (m : M A) :
  (forall e, ok e = true -> ok' e = true) ->
  keeps (emits ok) m -> keeps (emits ok') m.
Proof. intros H Hm w. eapply emits_weaken; [exact H|apply Hm]. Qed.

Lemma calls_app a b : calls (a ++ b) = (calls a + calls b)%nat.
Proof. unfold calls. rewrite filter_app, length_app. reflexivity. Qed.

Lemma quiet_calls ev : forallb quiet_event ev = true -> calls ev = 0%nat.
Proof.
  unfold calls. induction ev as [|e r IH]; [reflexivity|].
  simpl. intros H. apply andb_true_iff in H. destruct H as [He Hr].
  unfold quiet_event in He. apply negb_true_iff in He. rewrite He. auto.
Qed.

Lemma quiet_then_one a b c : emits quiet_event a b -> one_call b c -> one_call a c.
Proof.
  intros [e1 [H1 F1]] [e2 [H2 F2]]. exists (e1 ++ e2)%list. split.
  - rewrite H2, H1, app_assoc. reflexivity.
  - rewrite calls_app, (quiet_calls _ F1). assumption.
Qed.

Lemma quiet_is_one a b : emits quiet_event a b -> one_call a b.
Proof.
  intros [e [H F]]. exists e. split; [assumption|]. rewrite (quiet_calls _ F). lia.
Qed.

Lemma input_emits p : keeps (emits quiet_event) (input p).
Proof.
  intros w. unfold input. destruct (stdin w); apply emits_log; reflexivity.
Qed.

Lemma confirm_emits : keeps (emits quiet_event) confirm.
Proof.
  intros w. destruct (confirm w) as [r w1] eqn:Hc.
  destruct (confirm_reads _ _ _ Hc) as [[ev [Ht Hev]] _].
  exists ev. split; [exact Ht|]. apply forallb_forall. intros e He.
  rewrite Forall_forall in Hev. destruct (Hev e He) as [p ->]. reflexivity.
Qed.

Lemma eligible_removes cutoff ds : forallb remove_event (eligible cutoff ds) = true.
Proof.
  apply forallb_forall. intros e He. unfold eligible in He.
  apply in_flat_map in He. destruct He as [d [_ He]].
  apply in_map_iff in He. destruct He as [f [<- _]]. reflexivity.
Qed.

Lemma clean_user_temp_emits pv days : keeps (emits remove_event) (clean_user_temp pv days).
Proof.
  intros w. unfold clean_user_temp.
  destruct (py_float_of_int (days * 86400)); [|apply emits_refl].
  rewrite clean_dirs_effect. apply emits_log; [apply eligible_removes|reflexivity].
Qed.

Lemma stop_onedrive_emits pv : keeps (emits graceful_event) (stop_onedrive_processes pv).
Proof.
  intros w. unfold stop_onedrive_processes.
  destruct (process_iter_error pv); [apply emits_refl|apply stop_each_emits].
Qed.

Lemma then_ret_quiet {A} (act : M A) :
  keeps (emits quiet_event) act -> keeps (emits quiet_event) (_ <- act ;; ret tt).
Proof.
  intros H. apply (keeps_bind _ (emits_trans quiet_event)); [exact H|].
  intros ?. apply (keeps_ret _ (emits_refl quiet_event)).
Qed.

Lemma kill_act_quiet pid : keeps (emits quiet_event) (_ <- kill_process pid ;; ret tt).
Proof.
  apply then_ret_quiet.
  apply (keeps_weaken process_event); [|apply kill_process_emits].
  intros [] H; try discriminate; reflexivity.
Qed.

Lemma clean_act_quiet pv days :
  keeps (emits quiet_event) (_ <- clean_user_temp pv days ;; ret tt).
Proof.
  apply then_ret_quiet.
  apply (keeps_weaken remove_event); [|apply clean_user_temp_emits].
  intros [] H; try discriminate; reflexivity.
Qed.

Lemma stop_act_quiet pv :
  keeps (emits quiet_event) (_ <- stop_onedrive_processes pv ;; ret tt).
Proof.
  apply then_ret_quiet.
  apply (keeps_weaken graceful_event); [|apply stop_onedrive_emits].
  intros [] H; try discriminate; reflexivity.
Qed.

Lemma gate_one_call (c0 : exec_call) (act : M unit) :
  keeps (emits quiet_event) act ->
  keeps one_call (ok <- confirm ;; if ok then emit (Call c0) ;;; act else ret tt).
Proof.
  intros Hact.
  apply (keeps_compose (emits quiet_event) one_call one_call);
    [apply quiet_then_one|apply quiet_is_one|apply confirm_emits|].
  intros [|]; [|intros w; apply quiet_is_one, emits_refl].
  intros w. unfold bind, emit.
  destruct (Hact (log [Call c0] w)) as [ev [Ht Hev]].
  destruct (act (log [Call c0] w)) as [[u|k msg] w1]; simpl in *;
    (exists (Call c0 :: ev); split;
     [rewrite Ht, <- app_assoc; reflexivity
     |change (Call c0 :: ev) with ([Call c0] ++ ev)%list;
      rewrite calls_app, (quiet_calls _ Hev); simpl; lia]).
Qed.

Lemma run_kill_one_call d : keeps one_call (run_kill d).
Proof.
  unfold run_kill.
  apply (keeps_compose (emits quiet_event) one_call one_call);
    [apply quiet_then_one|apply quiet_is_one| |].
  - destruct d; try apply (keeps_ret _ (emits_refl quiet_event)).
    apply (keeps_bind _ (emits_trans quiet_event)); [apply input_emits|].
    intros ?. apply (keeps_ret _ (emits_refl quiet_event)).
  - intros pid. apply gate_one_call, kill_act_quiet.
Qed.

Lemma run_clean_one_call pv : keeps one_call (run_clean pv).
Proof.
  unfold run_clean.
  apply (keeps_compose (emits quiet_event) one_call one_call);
    [apply quiet_then_one|apply quiet_is_one|apply input_emits|].
  intros line. cbv zeta. apply gate_one_call, clean_act_quiet.
Qed.

Lemma run_stop_one_call pv : keeps one_call (run_stop pv).
Proof. unfold run_stop. apply gate_one_call, stop_act_quiet. Qed.

Lemma dispatch_one_call pv suggestions choice :
  keeps one_call (dispatch pv suggestions choice).
Proof.
  assert (R : forall w, one_call w w) by (intros w; apply quiet_is_one, emits_refl).
  unfold dispatch.
  destruct (choice =? 0); [intros w; apply R|].
  destruct (negb _); [intros w; apply R|].
  destruct (nth_error suggestions (Z.to_nat (choice - 1))) as [action|];
    [|intros w; apply R].
  destruct (String.eqb (code action) "kill_process"); [apply run_kill_one_call|].
  destruct (String.eqb (code action) "clean_temp"); [apply run_clean_one_call|].
  destruct (String.eqb (code action) "stop_onedrive"); [apply run_stop_one_call|].
  intros w; apply R.
Qed.

(** X10: one run of the fix menu enters the action executor at most
    once. *)
Theorem fix_menu_one_action
  (pv : provider) (suggestions : list suggestion) (w : world) :
  (calls (trace (snd (interactive_fix pv suggestions w)))
   <= calls (trace w) + 1)%nat.
Proof.
  assert (H : one_call w (snd (interactive_fix pv suggestions w))).
  { destruct suggestions as [|s ss]; [apply quiet_is_one, emits_refl|].
    destruct (stdin w) as [|line rest] eqn:Hs.
    - rewrite (interactive_fix_eof pv s ss w Hs).
      apply quiet_is_one, emits_log; reflexivity.
    - rewrite (interactive_fix_line pv s ss w line rest Hs).
      assert (Hq : emits quiet_event w (log [Input AskChoice] (set_stdin rest w)))
        by (apply emits_log; reflexivity).
      destruct (py_int _) as [choice|k msg]; [|now apply quiet_is_one].
      eapply quiet_then_one; [exact Hq|apply dispatch_one_call]. }
  destruct H as [ev [Ht Hc]]. rewrite Ht, calls_app. lia.
Qed.

Lemma gate_declined (c0 : exec_call) (act : M unit) (w : world) :
  Forall (fun l => answer l <> "y") (stdin w) ->
  untouched w (snd ((ok <- confirm ;; if ok then emit (Call c0) ;;; act
                                      else ret tt) w)).
Proof.
  intros Hno. unfold bind at 1.
  destruct (confirm w) as [r w1] eqn:Hc.
  destruct (confirm_reads _ _ _ Hc)
    as [_ [Htab [Htmp [_ [used [Hu [Hyes _]]]]]]].
  destruct r as [[|]|k msg]; simpl; try (split; assumption).
  exfalso. destruct (Hyes eq_refl) as [pre [line [E A]]].
  rewrite Forall_forall in Hno. apply (Hno line); [|exact A].
  rewrite Hu, E. apply in_or_app. left. apply in_or_app. right. now left.
Qed.

Lemma after_input_untouched (p : prompt) (k : string -> M unit) (w : world) :
  (forall line w1, Forall (fun l => answer l <> "y") (stdin w1) ->
                   untouched w1 (snd (k line w1))) ->
  Forall (fun l => answer l <> "y") (stdin w) ->
  untouched w (snd ((line <- input p ;; k line) w)).
Proof.
  intros Hk Hno. unfold bind, input.
  destruct (stdin w) as [|line rest] eqn:Hs; simpl; [split; reflexivity|].
  apply (Hk line (log [Input p] (set_stdin rest w))).
  simpl. now inversion Hno.
Qed.

Lemma dispatch_declined pv suggestions choice (w : world) :
  Forall (fun l => answer l <> "y") (stdin w) ->
  untouched w (snd (dispatch pv suggestions choice w)).
Proof.
  intros Hno. unfold dispatch.
  destruct (choice =? 0); [split; reflexivity|].
  destruct (negb _); [split; reflexivity|].
  destruct (nth_error suggestions (Z.to_nat (choice - 1))) as [action|];
    [|split; reflexivity].
  destruct (String.eqb (code action) "kill_process").
  { destruct (data action) eqn:Hd;
      try exact (gate_declined (KillProcess _) _ w Hno).
    assert (E : run_kill PNone w =
                (line <- input AskPid ;;
                 ok <- confirm ;;
                 if ok then emit (Call (KillProcess (PStr (strip line)))) ;;;
                            _ <- kill_process (PStr (strip line)) ;; ret tt
                 else ret tt) w).
    { unfold run_kill, bind, ret.
      destruct (input AskPid w) as [[l|k m] w1]; reflexivity. }
    rewrite E. apply after_input_untouched; [|exact Hno].
    intros line w1. apply gate_declined. }
  destruct (String.eqb (code action) "clean_temp").
  { unfold run_clean. apply after_input_untouched; [|exact Hno].
    intros line w1. cbv zeta. apply gate_declined. }
  destruct (String.eqb (code action) "stop_onedrive");
    [apply gate_declined; exact Hno|split; reflexivity].
Qed.

(** X11: when no line of standard input answers [y] (after stripping and
    lowering), a run of the fix menu leaves the process table and the temp
    area exactly as they were, whatever is selected. *)
Theorem fix_menu_without_yes
  (pv : provider) (suggestions : list suggestion) (w : world) :
  Forall (fun l => answer l <> "y") (stdin w) ->
  untouched w (snd (interactive_fix pv suggestions w)).
Proof.
  intros Hno.
  destruct suggestions as [|s ss]; [split; reflexivity|].
  destruct (stdin w) as [|line rest] eqn:Hs.
  - rewrite (interactive_fix_eof pv s ss w Hs). split; reflexivity.
  - rewrite (interactive_fix_line pv s ss w line rest Hs).
    destruct (py_int _) as [choice|k msg]; [|split; reflexivity].
    destruct (dispatch_declined pv (s :: ss) choice
                (log [Input AskChoice] (set_stdin rest w))) as [Ht Hp].
    + simpl. now inversion Hno.
    + split; [rewrite Ht|rewrite Hp]; reflexivity.
Qed.

Lemma fix_menu_without_yes_witness :
  untouched (world_of ["1"; "yes"; "no"; "n"] scenario_table [])
    (snd (interactive_fix quiet_provider menu3
            (world_of ["1"; "yes"; "no"; "n"] scenario_table []))).
Proof.
  apply (fix_menu_without_yes quiet_provider menu3
           (world_of ["1"; "yes"; "no"; "n"] scenario_table [])).
  simpl. repeat constructor; vm_compute; discriminate.
Defined.

(** ** The entry point: what a run may touch *)

Lemma advice_events fs ev :
  forallb report_event (map Advice fs ++ [SaveReport ev]) = true.
Proof.
  rewrite forallb_app. simpl. rewrite andb_true_r.
  induction fs as [|f r IH]; [reflexivity|]. simpl. exact IH.
Qed.

(** X12: without [--fix] a run is read-only: it reads nothing from standard
    input, leaves the process table and the temp area alone, and adds to the
    trace only the messages of the rule engine and the write of the
    report. *)
Theorem main_without_fix (pv : provider) (a : args) (w : world) :
  a_fix a = false ->
  stdin (snd (main pv a w)) = stdin w /\
  untouched w (snd (main pv a w)) /\
  emits report_event w (snd (main pv a w)).
Proof.
  intros Hfix. pose proof (main_unfolded pv a w) as Hmain. cbv zeta in Hmain.
  rewrite Hfix in Hmain. rewrite Hmain.
  destruct (report_writable pv); simpl;
    (split; [reflexivity|]; split; [split; reflexivity|];
     eexists; split; [reflexivity|apply advice_events]).
Qed.

Lemma main_without_fix_witness :
  stdin (snd (main busy_provider scenario_args (world_of ["1"; "y"] scenario_table [])))
    = ["1"; "y"] /\
  untouched (world_of ["1"; "y"] scenario_table [])
    (snd (main busy_provider scenario_args (world_of ["1"; "y"] scenario_table []))) /\
  emits report_event (world_of ["1"; "y"] scenario_table [])
    (snd (main busy_provider scenario_args (world_of ["1"; "y"] scenario_table []))).
Proof.
  apply (main_without_fix busy_provider scenario_args
           (world_of ["1"; "y"] scenario_table [])).
  reflexivity.
Defined.

(** X13: when the report cannot be written, [save_report] raises and the
    exception leaves [main]: the exit status is 1, and the fix menu never
    starts, even with [--fix] (nothing is read from standard input, nothing
    is terminated or deleted). *)
Theorem main_report_unwritable (pv : provider) (a : args) (w : world) :
  report_writable pv = false ->
  exit_status pv (Some a) w = 1 /\
  stdin (snd (main pv a w)) = stdin w /\
  untouched w (snd (main pv a w)) /\
  emits report_event w (snd (main pv a w)).
Proof.
  intros Hw. pose proof (main_unfolded pv a w) as Hmain. cbv zeta in Hmain.
  rewrite Hw in Hmain. unfold exit_status. rewrite Hmain. simpl.
  split; [reflexivity|]. split; [reflexivity|]. split; [split; reflexivity|].
  eexists; split; [reflexivity|apply advice_events].
Qed.

Lemma main_report_unwritable_witness :
  exit_status unwritable_provider (Some fix_args)
    (world_of ["1"; "y"] scenario_table []) = 1 /\
  stdin (snd (main unwritable_provider fix_args
                (world_of ["1"; "y"] scenario_table []))) = ["1"; "y"] /\
  untouched (world_of ["1"; "y"] scenario_table [])
    (snd (main unwritable_provider fix_args
            (world_of ["1"; "y"] scenario_table []))) /\
  emits report_event (world_of ["1"; "y"] scenario_table [])
    (snd (main unwritable_provider fix_args
            (world_of ["1"; "y"] scenario_table []))).
Proof.
  apply (main_report_unwritable unwritable_provider fix_args
           (world_of ["1"; "y"] scenario_table [])).
  reflexivity.
Defined.

(** ** The process list of the snapshot *)

Lemma mem_key_proc_info p : mem_key (proc_info p) = rss_key p.
Proof. unfold mem_key, proc_info, rss_key. cbn. destruct (p_rss p); reflexivity. Qed.

Lemma insert_desc_map (x : proc) (l : list proc) :
  insert_desc mem_key (proc_info x) (map proc_info l) =
  map proc_info (insert_desc rss_key x l).
Proof.
  induction l as [|h t IH]; [reflexivity|].
  cbn [insert_desc map]. rewrite !mem_key_proc_info.
  destruct (rss_key x <? rss_key h); [|reflexivity].
  cbn [map]. now rewrite IH.
Qed.

Lemma sorted_desc_map (l : list proc) :
  sorted_desc mem_key (map proc_info l) = map proc_info (sorted_desc rss_key l).
Proof.
  induction l as [|x l IH]; [reflexivity|].
  cbn [sorted_desc fold_right map]. fold (sorted_desc mem_key (map proc_info l)).
  fold (sorted_desc rss_key l). rewrite IH. apply insert_desc_map.
Qed.

Lemma slice_to_map {A B} (f : A -> B) n (l : list A) :
  slice_to n (map f l) = map f (slice_to n l).
Proof.
  unfold slice_to. rewrite length_map.
  destruct (n <? 0); apply firstn_map.
Qed.

Lemma snapshot_is_procs table n :
  slice_to n (sorted_desc mem_key (map proc_info table)) =
  map proc_info (snapshot_procs table n).
Proof. unfold snapshot_procs. rewrite sorted_desc_map. apply slice_to_map. Qed.




(** ** The ping results and the network message *)

Lemma assoc_set_keys d k v h :
  In h (map fst (assoc_set d k v)) <-> h = k \/ In h (map fst d).
Proof.
  induction d as [|[k' v'] r IH]; simpl.
  - intuition.
  - destruct (String.eqb_spec k k') as [->|Hne]; simpl; [intuition|].
    rewrite IH. intuition.
Qed.

Lemma assoc_set_nodup d k v : NoDup (map fst d) -> NoDup (map fst (assoc_set d k v)).
Proof.
  induction d as [|[k' v'] r IH]; simpl; intros H.
  - constructor; [intros []|constructor].
  - inversion H as [|? ? Hn Hr]; subst.
    destruct (String.eqb_spec k k') as [->|Hne]; simpl.
    + now constructor.
    + constructor; [|now apply IH].
      intros Hin. apply assoc_set_keys in Hin. destruct Hin as [->|Hin]; auto.
Qed.

Lemma assoc_set_values (P : string -> pyval -> Prop) d k v :
  P k v -> (forall h x, In (h, x) d -> P h x) ->
  forall h x, In (h, x) (assoc_set d k v) -> P h x.
Proof.
  intros Hk. induction d as [|[k' v'] r IH]; simpl; intros Hd h x Hin.
  - destruct Hin as [E|[]]. inversion E; subst. exact Hk.
  - destruct (String.eqb_spec k k') as [->|Hne]; simpl in Hin.
    + destruct Hin as [E|Hin]; [inversion E; subst; exact Hk|].
      apply Hd. now right.
    + destruct Hin as [E|Hin]; [apply Hd; now left|].
      apply IH; [|exact Hin]. intros h' x' H'. apply Hd. now right.
Qed.

Lemma pings_fold pv hosts : forall acc,
  NoDup (map fst acc) ->
  (forall h x, In (h, x) acc -> x = ping_host pv h) ->
  let d := fold_left (fun d h => assoc_set d h (ping_host pv h)) hosts acc in
  NoDup (map fst d) /\
  (forall h, In h (map fst d) <-> In h hosts \/ In h (map fst acc)) /\
  (forall h x, In (h, x) d -> x = ping_host pv h).
Proof.
  induction hosts as [|h0 r IH]; intros acc Hnd Hval; simpl.
  - repeat split; auto; intuition.
  - destruct (IH (assoc_set acc h0 (ping_host pv h0))) as [H1 [H2 H3]].
    + now apply assoc_set_nodup.
    + apply (assoc_set_values (fun h x => x = ping_host pv h)); auto.
    + split; [exact H1|]. split; [|exact H3].
      intros h. rewrite H2, assoc_set_keys. intuition.
Qed.

Lemma pings_of_run_checks (pv : provider) (table : list proc) (a : args) :
  psutil_present pv = true ->
  exists d,
    section (run_checks pv table a) "pings" (PDict []) = PDict d /\
    NoDup (map fst d) /\
    (forall h, In h (map fst d) <-> In h (a_ping a)) /\
    (forall h x, In (h, x) d -> x = ping_host pv h).
Proof.
  intros Hps.
  destruct (pings_fold pv (a_ping a) []) as [H1 [H2 H3]];
    [constructor|intros h x []|].
  eexists. split; [unfold run_checks; rewrite Hps; reflexivity|].
  split; [exact H1|]. split; [|exact H3].
  intros h. rewrite H2. simpl. intuition.
Qed.

(** X15: in the report of [run_checks] the [pings] section has exactly one
    entry for every host given on the command line, however often the host
    is repeated, and the entry of a host is the result of pinging that
    host. *)
Theorem run_checks_pings (pv : provider) (table : list proc) (a : args) :
  psutil_present pv = true ->
  exists d,
    section (run_checks pv table a) "pings" (PDict []) = PDict d /\
    NoDup (map fst d) /\
    (forall h, In h (map fst d) <-> In h (a_ping a)) /\
    (forall h x, In (h, x) d -> x = ping_host pv h).
Proof. apply pings_of_run_checks. Qed.

Lemma run_checks_pings_witness :
  exists d,
    section (run_checks busy_provider scenario_table
               {| a_report := "r.json"; a_ping := ["a"; "b"; "a"];
                  a_top_processes := 5; a_fix := false |}) "pings" (PDict [])
    = PDict d /\ map fst d = ["a"; "b"].
Proof.
  destruct (run_checks_pings busy_provider scenario_table
              {| a_report := "r.json"; a_ping := ["a"; "b"; "a"];
                 a_top_processes := 5; a_fix := false |} eq_refl)
    as (d & E & _).
  exists d. split; [exact E|]. vm_compute in E. inversion E. reflexivity.
Defined.

Lemma ping_ok_ping_host pv h : ping_ok (ping_host pv h) = reachable pv h.
Proof. unfold ping_host, reachable. destruct (ping pv h); reflexivity. Qed.

Lemma NoDup_map_fst_filter {A B} (f : A * B -> bool) (d : list (A * B)) :
  NoDup (map fst d) -> NoDup (map fst (filter f d)).
Proof.
  induction d as [|x r IH]; simpl; intros H; [constructor|].
  inversion H as [|? ? Hn Hr]; subst.
  destruct (f x); simpl; [|now apply IH].
  constructor; [|now apply IH].
  intros Hin. apply Hn. apply in_map_iff in Hin. destruct Hin as [y [E Hy]].
  apply filter_In in Hy. apply in_map_iff. exists y. tauto.
Qed.

(** X16: on the report of [run_checks] the rule engine returns, its last
    message is the network one, and that message names as unreachable
    exactly the hosts of the command line whose ping did not return code 0
    (a ping that failed to run counts as unreachable), each once; it is the
    "looks OK" message exactly when there is no such host. *)
Theorem network_message (pv : provider) (table : list proc) (a : args) :
  psutil_present pv = true ->
  exists fs fn ss,
    suggest_actions (run_checks pv table a) = Ret ((fs ++ [fn])%list, ss) /\
    ((fn = NetworkOk /\ forall h, In h (a_ping a) -> reachable pv h = true) \/
     (exists u, fn = HostsUnreachable u /\ u <> [] /\ NoDup u /\
        forall h, In h u <-> In h (a_ping a) /\ reachable pv h = false)).
Proof.
  intros Hps.
  pose proof (suggest_actions_advise _ (run_checks_ok pv table a)) as Hsa.
  destruct (pings_of_run_checks pv table a Hps) as (d & Ed & Hnd & Hkeys & Hvals).
  set (rep := run_checks pv table a) in *.
  exists (fst (advise_memory rep) :: advise_cpu rep :: fst (advise_disk rep)
          :: fst (advise_onedrive rep)), (advise_network rep), (snd (advise rep)).
  split; [rewrite Hsa; reflexivity|].
  unfold advise_network. rewrite Ed.
  set (bad := filter (fun hr => negb (ping_ok (snd hr))) d).
  assert (Hbad : forall h, In h (map fst bad) <->
                           In h (a_ping a) /\ reachable pv h = false).
  { intros h. unfold bad. rewrite in_map_iff. split.
    - intros [[h' x] [E Hin]]. simpl in E. subst h'.
      apply filter_In in Hin. destruct Hin as [Hin Hp]. simpl in Hp.
      rewrite (Hvals _ _ Hin), ping_ok_ping_host in Hp.
      apply negb_true_iff in Hp. split; [|exact Hp].
      apply Hkeys. apply in_map_iff. exists (h, x). auto.
    - intros [Hh Hr]. apply Hkeys in Hh. apply in_map_iff in Hh.
      destruct Hh as [[h' x] [E Hin]]. simpl in E. subst h'.
      exists (h, x). split; [reflexivity|]. apply filter_In. split; [exact Hin|].
      simpl. rewrite (Hvals _ _ Hin), ping_ok_ping_host, Hr. reflexivity. }
  destruct (map fst bad) as [|h0 r] eqn:Eb.
  - left. split; [reflexivity|]. intros h Hh.
    destruct (reachable pv h) eqn:Er; [reflexivity|].
    exfalso. apply (proj2 (Hbad h)). auto.
  - right. exists (h0 :: r). split; [reflexivity|]. split; [discriminate|].
    split; [|exact Hbad].
    rewrite <- Eb. unfold bad. now apply NoDup_map_fst_filter.
Qed.

Lemma network_message_witness :
  exists fs fn ss,
    suggest_actions (run_checks busy_provider scenario_table fix_args)
      = Ret ((fs ++ [fn])%list, ss) /\
    fn = HostsUnreachable ["8.8.8.8"].
Proof.
  destruct (network_message busy_provider scenario_table fix_args eq_refl)
    as (fs & fn & ss & E & H).
  exists fs, fn, ss. split; [exact E|].
  destruct H as [[_ Hall]|[u [-> [Hne [Hnd Hu]]]]].
  - specialize (Hall "8.8.8.8" (or_introl eq_refl)). discriminate.
  - f_equal. destruct u as [|x u]; [contradiction|].
    assert (Hx : x = "8.8.8.8").
    { destruct (proj1 (Hu x) (or_introl eq_refl)) as [[<-|[]] _]. reflexivity. }
    subst x. f_equal. destruct u as [|y u]; [reflexivity|].
    assert (Hy : y = "8.8.8.8").
    { destruct (proj1 (Hu y) (or_intror (or_introl eq_refl))) as [[<-|[]] _].
      reflexivity. }
    subst y. inversion Hnd as [|? ? Hn _]; subst. exfalso. apply Hn. now left.
Defined.

(** ** Full disks and the clean-up suggestion *)

Lemma filter_clean_of report :
  filter is_clean (snd (advise report)) = snd (advise_disk report).
Proof.
  unfold advise. cbn [snd]. rewrite !filter_app.
  assert (F0 : filter is_clean (snd (advise_memory report)) = []).
  { unfold advise_memory. destruct (above _ 80); [|reflexivity]. cbn [snd].
    induction (firstn 3 _) as [|x r IH]; [reflexivity|exact IH]. }
  assert (F1 : filter is_clean (snd (advise_disk report)) = snd (advise_disk report)).
  { unfold advise_disk. destruct (filter disk_high_b _); reflexivity. }
  assert (F2 : filter is_clean (snd (advise_onedrive report)) = []).
  { unfold advise_onedrive. destruct (existsb _ _); reflexivity. }
  rewrite F0, F1, F2, app_nil_r. reflexivity.
Qed.

Lemma disk_high_partition p : disk_high_b (partition_info p) = hot p.
Proof.
  unfold partition_info, hot. destruct (disk_usage p) as [u|]; [|reflexivity].
  unfold disk_high_b. cbn. change (inject_Z 90) with 90%Q.
  destruct (Qltb 90 (du_percent u)) eqn:E; [|apply andb_false_r].
  rewrite andb_true_r. apply negb_true_iff.
  destruct (Qeq_bool (du_percent u) 0) eqn:E0; [|reflexivity].
  apply Qeq_bool_iff in E0. apply Qltb_lt in E. lra.
Qed.

(** X17: on the report of [run_checks] the rule engine returns exactly one
    clean-up suggestion when at least one partition is readable and more
    than 90 percent full, however many are, and none otherwise; a partition
    whose usage could not be read never counts. *)
Theorem clean_suggestion_iff_hot_partition
  (pv : provider) (table : list proc) (a : args) :
  psutil_present pv = true ->
  exists fs ss,
    suggest_actions (run_checks pv table a) = Ret (fs, ss) /\
    filter is_clean ss =
      match hot_partitions pv with
      | [] => []
      | _ => [clean_suggestion]
      end.
Proof.
  intros Hps.
  pose proof (suggest_actions_advise _ (run_checks_ok pv table a)) as Hsa.
  exists (fst (advise (run_checks pv table a))), (snd (advise (run_checks pv table a))).
  split; [rewrite Hsa; now destruct (advise _)|].
  rewrite filter_clean_of. unfold advise_disk, run_checks. rewrite Hps.
  cbn -[disk_info top_processes filter]. unfold disk_info, hot_partitions.
  destruct (disk_partitions pv) as [ps|k msg]; [|reflexivity].
  cbn [items].
  assert (E : forall l, match filter disk_high_b (map partition_info l) with
                        | [] => (DiskOk, @nil suggestion)
                        | _ :: _ => (DiskHigh (filter disk_high_b (map partition_info l)),
                                     [clean_suggestion])
                        end
                        = match filter hot l with
                          | [] => (DiskOk, [])
                          | _ :: _ => (DiskHigh (filter disk_high_b (map partition_info l)),
                                       [clean_suggestion])
                          end).
  { induction l as [|p r IH]; [reflexivity|].
    cbn [map filter]. rewrite disk_high_partition. destruct (hot p); [reflexivity|].
    destruct (filter disk_high_b (map partition_info r)), (filter hot r);
      try reflexivity; discriminate. }
  specialize (E ps).
  destruct (filter disk_high_b (map partition_info ps)) eqn:E1,
           (filter hot ps) eqn:E2; try reflexivity; discriminate.
Qed.

Lemma clean_suggestion_iff_hot_partition_witness :
  exists fs ss,
    suggest_actions (run_checks full_disks_provider scenario_table scenario_args)
      = Ret (fs, ss) /\
    filter is_clean ss = [clean_suggestion].
Proof.
  exact (clean_suggestion_iff_hot_partition full_disks_provider scenario_table
           scenario_args eq_refl).
Defined.

(** ** OneDrive in the snapshot *)

Lemma filter_stop_of report :
  filter is_stop (snd (advise report)) = snd (advise_onedrive report).
Proof.
  unfold advise. cbn [snd]. rewrite !filter_app.
  assert (F0 : filter is_stop (snd (advise_memory report)) = []).
  { unfold advise_memory. destruct (above _ 80); [|reflexivity]. cbn [snd].
    induction (firstn 3 _) as [|x r IH]; [reflexivity|exact IH]. }
  assert (F1 : filter is_stop (snd (advise_disk report)) = []).
  { unfold advise_disk. destruct (filter disk_high_b _); reflexivity. }
  assert (F2 : filter is_stop (snd (advise_onedrive report))
               = snd (advise_onedrive report)).
  { unfold advise_onedrive. destruct (existsb _ _); reflexivity. }
  rewrite F0, F1, F2. reflexivity.
Qed.

Lemma onedrive_b_proc_info p : onedrive_b (proc_info p) = onedrive_proc p.
Proof.
  unfold onedrive_b, onedrive_proc, proc_info. cbn.
  destruct (p_name p) as [s|]; [|reflexivity].
  unfold py_or. cbn. destruct (String.eqb_spec s "") as [->|Hne]; reflexivity.
Qed.

Lemma existsb_same {A} (f g : A -> bool) l :
  (forall x, f x = g x) -> existsb f l = existsb g l.
Proof. intros H. induction l as [|x r IH]; [reflexivity|]. simpl. now rewrite H, IH. Qed.

Lemma existsb_map {A B} (f : B -> bool) (g : A -> B) l :
  existsb f (map g l) = existsb (fun x => f (g x)) l.
Proof. induction l as [|x r IH]; [reflexivity|]. simpl. now rewrite IH. Qed.

(** X18: on the report of [run_checks], with the process list readable, the
    rule engine returns one stop-OneDrive suggestion exactly when some
    process of the snapshot (the [--top-processes] largest by memory, not the
    whole table) has a name that starts with "onedrive" in any letter case,
    whatever the memory level. *)
Theorem stop_suggestion_iff_onedrive_in_snapshot
  (pv : provider) (table : list proc) (a : args) :
  psutil_present pv = true ->
  process_iter_error pv = None ->
  exists fs ss,
    suggest_actions (run_checks pv table a) = Ret (fs, ss) /\
    filter is_stop ss =
      if existsb onedrive_proc (snapshot_procs table (a_top_processes a))
      then [stop_suggestion] else [].
Proof.
  intros Hps Hit.
  pose proof (suggest_actions_advise _ (run_checks_ok pv table a)) as Hsa.
  exists (fst (advise (run_checks pv table a))), (snd (advise (run_checks pv table a))).
  split; [rewrite Hsa; now destruct (advise _)|].
  rewrite filter_stop_of. unfold advise_onedrive, run_checks. rewrite Hps.
  cbn -[top_processes existsb]. unfold top_processes. rewrite Hit.
  rewrite snapshot_is_procs. cbn [items]. rewrite existsb_map.
  rewrite (existsb_same _ onedrive_proc _ onedrive_b_proc_info).
  destruct (existsb onedrive_proc _); reflexivity.
Qed.

Lemma stop_suggestion_iff_onedrive_in_snapshot_witness :
  (exists fs ss,
     suggest_actions (run_checks quiet_provider scenario_table scenario_args)
       = Ret (fs, ss) /\ filter is_stop ss = [stop_suggestion]) /\
  (exists fs ss,
     suggest_actions (run_checks quiet_provider scenario_table
                        {| a_report := "r.json"; a_ping := [];
                           a_top_processes := 1; a_fix := false |})
       = Ret (fs, ss) /\ filter is_stop ss = []).
Proof.
  split.
  - exact (stop_suggestion_iff_onedrive_in_snapshot quiet_provider scenario_table
             scenario_args eq_refl eq_refl).
  - exact (stop_suggestion_iff_onedrive_in_snapshot quiet_provider scenario_table
             {| a_report := "r.json"; a_ping := [];
                a_top_processes := 1; a_fix := false |} eq_refl eq_refl).
Defined.

(** ** CPU and network are advisory *)

Lemma assoc_get_set_same d k v : assoc_get (assoc_set d k v) k = Some v.
Proof.
  induction d as [|[k' v'] r IH]; simpl.
  - now rewrite String.eqb_refl.
  - destruct (String.eqb_spec k k') as [->|Hne]; simpl.
    + now rewrite String.eqb_refl.
    + destruct (String.eqb_spec k k'); [contradiction|exact IH].
Qed.

Lemma assoc_get_set_other d k v k' :
  k' <> k -> assoc_get (assoc_set d k v) k' = assoc_get d k'.
Proof.
  intros Hne. induction d as [|[k0 v0] r IH]; simpl.
  - destruct (String.eqb_spec k' k); [contradiction|reflexivity].
  - destruct (String.eqb_spec k k0) as [->|Hk]; simpl.
    + destruct (String.eqb_spec k' k0); [contradiction|reflexivity].
    + destruct (String.eqb_spec k' k0); [reflexivity|exact IH].
Qed.

Lemma section_set_other d k v k' dflt :
  k' <> k -> section (PDict (assoc_set d k v)) k' dflt = section (PDict d) k' dflt.
Proof. intros H. unfold section. now rewrite assoc_get_set_other. Qed.

Lemma section_ok_set_other d k v k' ok :
  k' <> k -> section_ok (assoc_set d k v) k' ok = section_ok d k' ok.
Proof. intros H. unfold section_ok. now rewrite assoc_get_set_other. Qed.

Lemma section_ok_set_same d k v ok : section_ok (assoc_set d k v) k ok = ok v.
Proof. unfold section_ok. now rewrite assoc_get_set_same. Qed.

(** X19: the CPU and the ping sections of a snapshot only change messages:
    replacing either by another dict leaves the list of suggestions that
    [suggest_actions] returns exactly as it was. *)
Theorem cpu_and_pings_are_advisory
  (d : list (string * pyval)) (k : string) (v : pyval) :
  snapshot_ok (PDict d) = true ->
  k = "cpu" \/ k = "pings" ->
  is_dict v = true ->
  exists fs fs' ss,
    suggest_actions (PDict d) = Ret (fs, ss) /\
    suggest_actions (PDict (assoc_set d k v)) = Ret (fs', ss).
Proof.
  intros Hok Hk Hv.
  assert (Hok' : snapshot_ok (PDict (assoc_set d k v)) = true).
  { cbn [snapshot_ok] in *.
    repeat (apply andb_true_iff in Hok; destruct Hok as [Hok ?]).
    destruct Hk as [-> | ->];
      rewrite ?section_ok_set_same, ?section_ok_set_other by discriminate;
      repeat (apply andb_true_iff; split); assumption. }
  exists (fst (advise (PDict d))), (fst (advise (PDict (assoc_set d k v)))),
         (snd (advise (PDict d))).
  split; [rewrite (suggest_actions_advise _ Hok); now destruct (advise _)|].
  rewrite (suggest_actions_advise _ Hok').
  assert (E : snd (advise (PDict (assoc_set d k v))) = snd (advise (PDict d))).
  { unfold advise, advise_memory, advise_disk, advise_onedrive. cbn [snd].
    destruct Hk as [-> | ->];
      rewrite !section_set_other by discriminate; reflexivity. }
  rewrite <- E. now destruct (advise _).
Qed.

Lemma cpu_and_pings_are_advisory_witness :
  exists fs fs' ss,
    suggest_actions (PDict [("cpu", PDict [("cpu_percent_overall", PInt 10)])])
      = Ret (fs, ss) /\
    suggest_actions
      (PDict (assoc_set [("cpu", PDict [("cpu_percent_overall", PInt 10)])] "cpu"
                        (PDict [("cpu_percent_overall", PInt 99)])))
      = Ret (fs', ss).
Proof.
  apply (cpu_and_pings_are_advisory
           [("cpu", PDict [("cpu_percent_overall", PInt 10)])] "cpu"
           (PDict [("cpu_percent_overall", PInt 99)]));
    [reflexivity|now left|reflexivity].
Defined.

(** ** The ranking of helpdesk_logging.py *)

Lemma entry_lt_distinct (a b : HelpdeskLogging.entry) :
  entry_pid a <> entry_pid b ->
  exists c, HelpdeskLogging.entry_lt a b = Ret c /\
            (c = true -> rank_ge b a) /\ (c = false -> rank_ge a b).
Proof.
  destruct a as [[m1 p1] n1], b as [[m2 p2] n2].
  unfold rank_ge, entry_pid, entry_mem, HelpdeskLogging.entry_lt. simpl.
  intros Hp.
  destruct (Z.eqb_spec m1 m2) as [Em|Em]; simpl.
  - destruct (Z.eqb_spec p1 p2) as [Ep|Ep]; [contradiction|]. simpl.
    exists (p1 <? p2). split; [reflexivity|].
    destruct (Z.ltb_spec p1 p2); split; intros; try discriminate; lia.
  - exists (m1 <? m2). split; [reflexivity|].
    destruct (Z.ltb_spec m1 m2); split; intros; try discriminate; lia.
Qed.

Lemma rank_ge_trans a b c : rank_ge a b -> rank_ge b c -> rank_ge a c.
Proof. unfold rank_ge. lia. Qed.

Lemma insert_entry_ok x l :
  (forall y, In y l -> entry_pid x <> entry_pid y) ->
  StronglySorted rank_ge l ->
  exists l', HelpdeskLogging.insert_entry x l = Ret l' /\
             Permutation l' (x :: l) /\ StronglySorted rank_ge l'.
Proof.
  intros Hpid Hs. induction Hs as [|h t Ht IH Hh].
  - exists [x]. repeat split; auto. repeat constructor.
  - destruct (entry_lt_distinct x h) as [c [Ec [Htrue Hfalse]]];
      [apply Hpid; now left|].
    cbn [HelpdeskLogging.insert_entry]. rewrite Ec. cbn [rbind].
    destruct c.
    + destruct IH as [l' [El [Hperm Hsorted]]];
        [intros y Hy; apply Hpid; now right|].
      rewrite El. cbn [rbind]. exists (h :: l'). split; [reflexivity|]. split.
      * rewrite Hperm. apply perm_swap.
      * constructor; [assumption|].
        eapply Permutation_Forall; [symmetry; exact Hperm|].
        constructor; [now apply Htrue|assumption].
    + exists (x :: h :: t). split; [reflexivity|]. split; [reflexivity|].
      constructor; [now constructor|].
      constructor; [now apply Hfalse|].
      eapply Forall_impl; [|exact Hh]. intros y Hy.
      eapply rank_ge_trans; [now apply Hfalse|exact Hy].
Qed.

Lemma sort_reverse_ok l :
  NoDup (map entry_pid l) ->
  exists s, HelpdeskLogging.sort_reverse l = Ret s /\
            Permutation s l /\ StronglySorted rank_ge s.
Proof.
  induction l as [|x r IH]; intros Hnd.
  - exists []. repeat split; auto. constructor.
  - simpl in Hnd. inversion Hnd as [|? ? Hn Hr]; subst.
    destruct (IH Hr) as [s [Es [Hperm Hsorted]]].
    destruct (insert_entry_ok x s) as [l' [El [Hp' Hs']]]; [|assumption|].
    + intros y Hy Epid. apply Hn. rewrite Epid. apply in_map.
      eapply Permutation_in; eassumption.
    + cbn [HelpdeskLogging.sort_reverse]. rewrite Es. cbn [rbind].
      exists l'. split; [exact El|]. split; [|exact Hs'].
      rewrite Hp'. now constructor.
Qed.

Lemma sorted_app_order {A} (R : A -> A -> Prop) (l1 l2 : list A) :
  StronglySorted R (l1 ++ l2) -> forall x y, In x l1 -> In y l2 -> R x y.
Proof.
  induction l1 as [|h t IH]; intros H x y Hx Hy; [destruct Hx|].
  simpl in H. inversion H as [|? ? Ht Hh]; subst.
  destruct Hx as [<-|Hx].
  - rewrite Forall_forall in Hh. apply Hh. apply in_or_app. now right.
  - eapply IH; eassumption.
Qed.

Lemma sorted_firstn {A} (R : A -> A -> Prop) n (l : list A) :
  StronglySorted R l -> StronglySorted R (firstn n l).
Proof.
  intros H. revert n. induction H as [|h t Ht IH Hh]; intros [|n]; simpl;
    try constructor.
  - apply IH.
  - rewrite Forall_forall in *. intros y Hy. apply Hh.
    eapply in_firstn; eassumption.
Qed.

(** X20: when the PIDs of the table are pairwise distinct, the ranking of
    [helpdesk_logging.py] returns (the tuple comparison never reaches the
    names): it lists [min(3, number of processes)] entries of table
    processes, ordered by memory descending and, among equal memory, by PID
    descending; and every process left out ranks no higher than any listed
    one. *)
Theorem logging_ranking (table : list proc) :
  NoDup (map p_pid table) ->
  exists l,
    HelpdeskLogging.ranked table = Ret l /\
    List.length l = Nat.min 3 (List.length table) /\
    StronglySorted rank_ge l /\
    (forall e, In e l -> exists p, In p table /\ e = HelpdeskLogging.proc_entry p) /\
    (forall p, In p table ->
       In (HelpdeskLogging.proc_entry p) l \/
       forall e, In e l -> rank_ge e (HelpdeskLogging.proc_entry p)).
Proof.
  intros Hnd.
  destruct (sort_reverse_ok (map HelpdeskLogging.proc_entry table))
    as [s [Es [Hperm Hsorted]]].
  { rewrite map_map. exact Hnd. }
  exists (firstn 3 s). split.
  { unfold HelpdeskLogging.ranked. rewrite Es. reflexivity. }
  split.
  { rewrite length_firstn, (Permutation_length Hperm), length_map. reflexivity. }
  split; [now apply sorted_firstn|].
  split.
  { intros e He. apply in_firstn in He.
    apply (Permutation_in _ Hperm) in He. apply in_map_iff in He.
    destruct He as [p [E Hp]]. eauto. }
  intros p Hp.
  assert (Hin : In (HelpdeskLogging.proc_entry p) s).
  { apply (Permutation_in _ (Permutation_sym Hperm)). now apply in_map. }
  rewrite <- (firstn_skipn 3 s) in Hin. apply in_app_or in Hin.
  destruct Hin as [Hin|Hin]; [now left|right].
  intros e He. apply (sorted_app_order rank_ge (firstn 3 s) (skipn 3 s));
    [rewrite firstn_skipn; exact Hsorted|exact He|exact Hin].
Qed.

Lemma logging_ranking_witness :
  exists l,
    HelpdeskLogging.ranked scenario_table = Ret l /\ List.length l = 3%nat.
Proof.
  destruct (logging_ranking scenario_table) as (l & E & Hlen & _).
  - vm_compute. repeat constructor; simpl; intuition discriminate.
  - exists l. split; [exact E|exact Hlen].
Defined.

(** ** The report of helpdesk_logging.py *)

(** X21: [collect_basic_report] always has the timestamp; it is only the
    timestamp when psutil is missing; and as one [try] wraps the whole
    collection, a later section is present only if every earlier one is:
    processes need disks, disks need cpu, cpu needs memory. *)
Theorem logging_report_sections
  (pv : provider) (table : list proc) (timestamp : string) :
  let r := HelpdeskLogging.collect_basic_report pv table timestamp in
  getf r "timestamp" = PStr timestamp /\
  (psutil_present pv = false -> r = PDict [("timestamp", PStr timestamp)]) /\
  (has_section r "top_processes" = true -> has_section r "disks" = true) /\
  (has_section r "disks" = true -> has_section r "cpu" = true) /\
  (has_section r "cpu" = true -> has_section r "memory" = true).
Proof.
  unfold HelpdeskLogging.collect_basic_report.
  destruct (psutil_present pv); [|cbn; intuition discriminate].
  destruct (virtual_memory pv); [|cbn; intuition discriminate].
  destruct (cpu_stat pv); [|cbn; intuition discriminate].
  destruct (disk_partitions pv); [|cbn; intuition discriminate].
  destruct (process_iter_error pv); [cbn; intuition discriminate|].
  destruct (HelpdeskLogging.ranked table); cbn; intuition discriminate.
Qed.

(** X22: with memory, CPU and the partition list readable, the disks section
    of [collect_basic_report] holds one entry per partition whose usage
    could be read and silently leaves out the others, while [disk_info] of
    [helpdesk.py] has one entry for every partition. *)
Theorem logging_disks_skip_unreadable
  (pv : provider) (table : list proc) (timestamp : string)
  (vm : vmem) (c : cpu_sample) (ps : list partition) :
  psutil_present pv = true ->
  virtual_memory pv = Ret vm -> cpu_stat pv = Ret c ->
  disk_partitions pv = Ret ps ->
  List.length (items (getf (HelpdeskLogging.collect_basic_report pv table timestamp)
                           "disks"))
    = List.length (filter readable ps) /\
  List.length (items (disk_info pv)) = List.length ps.
Proof.
  intros Hps Hvm Hc Hd. split.
  - unfold HelpdeskLogging.collect_basic_report.
    rewrite Hps, Hvm, Hc, Hd.
    assert (E : forall l,
              List.length (flat_map
                (fun p => match disk_usage p with
                          | Ret u => [PDict [("mountpoint", PStr (mountpoint p));
                                             ("percent", PFloat (du_percent u))]]
                          | Raise _ _ => []
                          end) l)
              = List.length (filter readable l)).
    { induction l as [|p r IH]; [reflexivity|].
      cbn [flat_map filter]. unfold readable at 1.
      destruct (disk_usage p); simpl; now rewrite IH. }
    destruct (process_iter_error pv); [cbn [getf]; cbn; apply E|].
    destruct (HelpdeskLogging.ranked table); cbn; apply E.
  - unfold disk_info. rewrite Hd. cbn [items]. apply length_map.
Qed.

Lemma logging_disks_skip_unreadable_witness :
  List.length (items (getf (HelpdeskLogging.collect_basic_report
                              sampled_provider scenario_table "t") "disks"))
    = 2%nat /\
  List.length (items (disk_info sampled_provider)) = 3%nat.
Proof.
  exact (logging_disks_skip_unreadable sampled_provider scenario_table "t"
           _ _ _ eq_refl eq_refl eq_refl eq_refl).
Defined.

(** ** The ticket summary of a report *)

(** The test of the repository, [test_summarize_report_minimal]. *)
Example test_summarize_report_minimal :
  exists s,
    TicketExport.summarize_report
      (PDict [("system", PDict [("timestamp", PStr "2025-08-29T00:00:00Z");
                                ("hostname", PStr "testhost");
                                ("python_version", PStr "3.10")]);
              ("memory", PDict [("percent", PInt 50)]);
              ("cpu", PDict [("cpu_percent_overall", PInt 10)]);
              ("disks", PList [PDict [("percent", PInt 20)]]);
              ("top_processes", PList [PDict [("pid", PInt 1);
                                              ("name", PStr "proc1")]])])
    = TicketExport.Ok s /\
    TicketExport.lookup s "host" = Some (TicketExport.Val (PStr "testhost")) /\
    TicketExport.lookup s "memory_percent" = Some (TicketExport.Val (PInt 50)) /\
    TicketExport.lookup s "top_processes"
      = Some (TicketExport.Names [(PStr "proc1", PInt 1)]).
Proof. eexists. repeat split; reflexivity. Qed.

Lemma summarize_run_checks pv table a :
  psutil_present pv = true ->
  TicketExport.summarize_report (run_checks pv table a) =
  TicketExport.Ok (summary_of_checks pv table a).
Proof.
  intros Hps. unfold TicketExport.summarize_report, run_checks. rewrite Hps.
  cbn -[top_processes cpu_info memory_info disk_info truthy
        TicketExport.first_item py_iter rmap].
  assert (Hc : exists m, cpu_info pv = PDict m)
    by (unfold cpu_info; destruct (cpu_stat pv); eexists; reflexivity).
  assert (Hm : exists m, memory_info pv = PDict m)
    by (unfold memory_info; destruct (virtual_memory pv); eexists; reflexivity).
  assert (Ht : exists l, top_processes pv table (a_top_processes a) = PList l
                         /\ forallb is_dict l = true).
  { unfold top_processes. destruct (process_iter_error pv).
    - eexists; split; reflexivity.
    - eexists; split; [reflexivity|]. apply proc_ok_dict, snapshot_processes_ok. }
  assert (Hd : (if truthy (disk_info pv)
                then TicketExport.obind (TicketExport.first_item (disk_info pv))
                       (fun d0 => TicketExport.of_res (py_get d0 "percent" PNone))
                else TicketExport.Ok (PStr ""))
               = TicketExport.Ok (first_partition_percent pv)).
  { unfold disk_info, first_partition_percent.
    destruct (disk_partitions pv) as [[|p ps]|k msg]; try reflexivity.
    cbn. unfold partition_info. destruct (disk_usage p); reflexivity. }
  rewrite Hd. cbn [TicketExport.obind].
  unfold summary_of_checks.
  destruct Hc as [c Ec]. destruct Hm as [m Em]. destruct Ht as [l [El Hl]].
  rewrite Ec, Em, El.
  cbn [py_iter TicketExport.of_res TicketExport.obind items].
  rewrite (rmap_dicts TicketExport.name_pid
             (fun p => (getf p "name", getf p "pid")) l (fun _ => eq_refl) Hl).
  reflexivity.
Qed.

(** X23: the report that [run_checks] builds is always accepted by
    [ticket_export.py]: with both paths on the command line and the output
    file writable, [main] ends with status 0, [summarize_report] raises
    nothing, its keys are the CSV field names, and the row written holds its
    seven values in the order of the header.  With fewer than two paths the
    status is 1 and nothing is read or written. *)
Theorem ticket_export_of_run_checks
  (pv : provider) (table : list proc) (a : args)
  (script in_path out_path : string) (more : list string)
  (read_report : string -> TicketExport.outcome pyval)
  (writable : string -> bool) :
  read_report in_path = TicketExport.Ok (run_checks pv table a) ->
  writable out_path = true ->
  (exists s,
     TicketExport.summarize_report (run_checks pv table a) = TicketExport.Ok s /\
     map fst s = TicketExport.fieldnames /\
     TicketExport.main (script :: in_path :: out_path :: more) read_report writable
     = (0, Some (TicketExport.fieldnames, map snd s))) /\
  TicketExport.main [script; in_path] read_report writable = (1, None) /\
  TicketExport.main [script] read_report writable = (1, None).
Proof.
  intros Hr Hw. split; [|split; reflexivity].
  assert (Hs : exists s,
             TicketExport.summarize_report (run_checks pv table a)
             = TicketExport.Ok s /\
             exists c1 c2 c3 c4 c5 c6 c7,
               s = [("timestamp", c1); ("host", c2); ("python_version", c3);
                    ("memory_percent", c4); ("cpu_percent_overall", c5);
                    ("disk_percent", c6); ("top_processes", c7)]).
  { destruct (psutil_present pv) eqn:Hps.
    - exists (summary_of_checks pv table a).
      split; [now apply summarize_run_checks|].
      unfold summary_of_checks. do 7 eexists. reflexivity.
    - unfold run_checks. rewrite Hps. eexists. split; [reflexivity|].
      do 7 eexists. reflexivity. }
  destruct Hs as (s & Es & c1 & c2 & c3 & c4 & c5 & c6 & c7 & ->).
  eexists. split; [exact Es|]. split; [reflexivity|].
  unfold TicketExport.main. rewrite Hr. cbn [TicketExport.obind].
  rewrite Es. cbn [TicketExport.obind]. rewrite Hw. reflexivity.
Qed.

Lemma ticket_export_of_run_checks_witness :
  exists s,
    TicketExport.summarize_report
      (run_checks sampled_provider scenario_table scenario_args)
      = TicketExport.Ok s /\
    TicketExport.main ["ticket_export.py"; "report.json"; "ticket.csv"]
      (fun _ => TicketExport.Ok
                  (run_checks sampled_provider scenario_table scenario_args))
      (fun _ => true)
    = (0, Some (TicketExport.fieldnames, map snd s)).
Proof.
  destruct (ticket_export_of_run_checks sampled_provider scenario_table
              scenario_args "ticket_export.py" "report.json" "ticket.csv" []
              (fun _ => TicketExport.Ok
                          (run_checks sampled_provider scenario_table scenario_args))
              (fun _ => true) eq_refl eq_refl)
    as [(s & Es & _ & Em) _].
  exists s. split; [exact Es|exact Em].
Defined.

(** X24: in the ticket summary of a [run_checks] report the disk percentage
    is that of the first partition only: empty text when there is no
    partition, and no value when the first partition (or the partition list)
    could not be read, whatever the other partitions hold; memory and CPU
    percentages are the collected ones, absent when their collection
    failed. *)
Theorem ticket_summary_fields (pv : provider) (table : list proc) (a : args) :
  psutil_present pv = true ->
  exists s,
    TicketExport.summarize_report (run_checks pv table a) = TicketExport.Ok s /\
    TicketExport.lookup s "disk_percent"
      = Some (TicketExport.Val (first_partition_percent pv)) /\
    TicketExport.lookup s "memory_percent"
      = Some (TicketExport.Val (match virtual_memory pv with
                                | Ret vm => PFloat (vm_percent vm)
                                | Raise _ _ => PNone
                                end)) /\
    TicketExport.lookup s "cpu_percent_overall"
      = Some (TicketExport.Val (match cpu_stat pv with
                                | Ret c => PFloat (percent_overall c)
                                | Raise _ _ => PNone
                                end)).
Proof.
  intros Hps. exists (summary_of_checks pv table a).
  split; [now apply summarize_run_checks|].
  unfold summary_of_checks. cbn [TicketExport.lookup String.eqb Ascii.eqb Bool.eqb].
  split; [reflexivity|]. split.
  - unfold memory_info. destruct (virtual_memory pv); reflexivity.
  - unfold cpu_info. destruct (cpu_stat pv); reflexivity.
Qed.

Lemma ticket_summary_fields_witness :
  exists s,
    TicketExport.summarize_report
      (run_checks full_disks_provider scenario_table scenario_args)
      = TicketExport.Ok s /\
    TicketExport.lookup s "disk_percent" = Some (TicketExport.Val (PFloat 95)) /\
    TicketExport.lookup s "memory_percent" = Some (TicketExport.Val PNone).
Proof.
  destruct (ticket_summary_fields full_disks_provider scenario_table scenario_args
              eq_refl) as (s & Es & Hd & Hm & _).
  exists s. split; [exact Es|]. split; [exact Hd|exact Hm].
Defined.

(** ** From the menu to the process table *)

Lemma advise_memory_high pv table a vm :
  psutil_present pv = true -> process_iter_error pv = None ->
  virtual_memory pv = Ret vm -> (80 < vm_percent vm)%Q ->
  snd (advise_memory (run_checks pv table a)) =
  map kill_of (firstn 3 (map proc_info (snapshot_procs table (a_top_processes a)))).
Proof.
  intros Hps Hit Hvm Hpct.
  unfold advise_memory, run_checks. rewrite Hps.
  cbn -[top_processes memory_info above firstn].
  unfold memory_info, top_processes. rewrite Hvm, Hit.
  cbn -[above firstn slice_to sorted_desc].
  assert (Hab : above (PFloat (vm_percent vm)) 80 = true)
    by (unfold above; simpl; now apply Qltb_lt).
  rewrite Hab, snapshot_is_procs. reflexivity.
Qed.

Lemma snapshot_head_is_largest table n p1 rest :
  snapshot_procs table n = p1 :: rest ->
  forall q, In q (p1 :: rest) -> rss_key q <= rss_key p1.
Proof.
  intros Hs q Hq.
  assert (Hd : descending rss_key (p1 :: rest)).
  { rewrite <- Hs. unfold snapshot_procs.
    destruct (slice_to_firstn n (sorted_desc rss_key table)) as [m ->].
    apply descending_firstn, sorted_desc_descending. }
  destruct Hq as [<-|Hq]; [lia|].
  inversion Hd as [|? ? _ Hall]; subst.
  rewrite Forall_forall in Hall. now apply Hall.
Qed.

(** X25: the pipeline end to end.  With psutil present, memory above 80
    percent, a writable report and [--fix], answering the menu with [1] and
    the confirmation with [y] calls [kill_process] with the PID of the
    first process of the snapshot, which no snapshot process exceeds in
    memory; [main] returns (status 0) whatever the outcome of the
    termination, and has read just those two lines. *)
Theorem fix_first_entry_targets_top_consumer
  (pv : provider) (a : args) (w : world) (vm : vmem)
  (p1 : proc) (rest : list proc) (lines : list string) :
  psutil_present pv = true -> process_iter_error pv = None ->
  report_writable pv = true -> a_fix a = true ->
  virtual_memory pv = Ret vm -> (80 < vm_percent vm)%Q ->
  snapshot_procs (table w) (a_top_processes a) = p1 :: rest ->
  stdin w = "1" :: "y" :: lines ->
  fst (main pv a w) = Ret tt /\
  exit_status pv (Some a) w = 0 /\
  In (Call (KillProcess (PInt (p_pid p1)))) (trace (snd (main pv a w))) /\
  stdin (snd (main pv a w)) = lines /\
  (forall q, In q (p1 :: rest) -> rss_key q <= rss_key p1).
Proof.
  intros Hps Hit Hw Hfix Hvm Hpct Hsnap Hin.
  pose proof (main_unfolded pv a w) as Hmain. cbv zeta in Hmain.
  rewrite Hw, Hfix in Hmain.
  set (rep := run_checks pv (table w) a) in *.
  set (w1 := log (map Advice (fst (advise rep)) ++ [SaveReport (a_report a)]) w) in *.
  assert (Hsug : exists ss, snd (advise rep) = kill_of (proc_info p1) :: ss).
  { unfold advise. cbn [snd]. unfold rep.
    rewrite (advise_memory_high pv (table w) a vm Hps Hit Hvm Hpct), Hsnap.
    cbn [map firstn app]. eexists. reflexivity. }
  destruct Hsug as [ss Hss]. rewrite Hss in Hmain.
  assert (Hs1 : stdin w1 = "1" :: "y" :: lines) by exact Hin.
  rewrite (interactive_fix_line pv _ ss w1 "1" ("y" :: lines) Hs1) in Hmain.
  change (py_int (py_or (PStr (strip "1")) (PStr "0"))) with (Ret 1) in Hmain.
  cbv iota in Hmain.
  set (w2 := log [Input AskChoice] (set_stdin ("y" :: lines) w1)) in *.
  assert (Hd : dispatch pv (kill_of (proc_info p1) :: ss) 1 w2
               = run_kill (PInt (p_pid p1)) w2).
  { unfold dispatch. change (1 =? 0) with false. cbv iota.
    replace (1 <=? Z.of_nat (List.length (kill_of (proc_info p1) :: ss)))
      with true by (symmetry; apply Z.leb_le; simpl List.length; lia).
    reflexivity. }
  rewrite Hd in Hmain.
  set (w3 := log [Input AskConfirm] (set_stdin lines w2)).
  set (w4 := log [Call (KillProcess (PInt (p_pid p1)))] w3).
  destruct (kill_process_result (PInt (p_pid p1)) w4)
    as (ok & m & w5 & Ek & Hst & _).
  assert (Hrun : run_kill (PInt (p_pid p1)) w2 = (Ret tt, w5)).
  { unfold run_kill. unfold bind at 1, ret at 1.
    unfold bind at 1. rewrite (confirm_first_line w2 "y" lines eq_refl).
    change (String.eqb (answer "y") "y") with true. cbv iota. fold w3.
    unfold bind at 1, emit. fold w4. unfold bind. rewrite Ek. reflexivity. }
  rewrite Hrun in Hmain.
  split; [rewrite Hmain; reflexivity|].
  split; [unfold exit_status; rewrite Hmain; reflexivity|].
  split.
  { rewrite Hmain. cbn [snd].
    pose proof (kill_process_emits (PInt (p_pid p1)) w4) as [ev [Ht _]].
    rewrite Ek in Ht. cbn [snd] in Ht. rewrite Ht.
    apply in_or_app. left. unfold w4. simpl. apply in_or_app. right. now left. }
  split; [rewrite Hmain; cbn [snd]; rewrite Hst; reflexivity|].
  eapply snapshot_head_is_largest; eassumption.
Qed.

Lemma fix_first_entry_targets_top_consumer_witness :
  fst (main busy_provider fix_args (world_of ["1"; "y"] scenario_table []))
    = Ret tt /\
  In (Call (KillProcess (PInt 10)))
     (trace (snd (main busy_provider fix_args
                    (world_of ["1"; "y"] scenario_table [])))).
Proof.
  destruct (fix_first_entry_targets_top_consumer busy_provider fix_args
              (world_of ["1"; "y"] scenario_table [])
              {| vm_total := 1000; vm_available := 50; vm_used := 950;
                 vm_percent := 95 |}
              (sample_proc 10 "chrome" 500000000 Exits Exits)
              [sample_proc 11 "onedrive" 300000000 Exits Exits;
               sample_proc 12 "explorer" 100000000 Exits Exits] [])
    as (H1 & _ & H3 & _); try reflexivity.
  split; [exact H1|exact H3].
Defined.
